(** * QR Code Genius: the URL validator and the QR encoder

    A shallow embedding of [app/services/url_validator.py] and
    [app/services/qr_generator.py], together with the parts of the Python
    libraries they call ([urllib.parse], [ipaddress], [idna], [re]), and the
    properties of the validation / encoding pipeline.

    Python strings are sequences of code points.  The library functions are
    embedded from CPython 3.11 ([urllib/parse.py], [ipaddress.py]); what
    depends on the Unicode character database (case mapping and
    normalisation of non-ASCII text, IDNA tables) is taken as a parameter,
    see the class [Unicode] below. *)

From Stdlib Require Import String Ascii NArith ZArith Bool Lia Arith List.
Import ListNotations.

Set Implicit Arguments.

(** ** Python values *)

(** A code point. *)
Definition char := N.

(** A Python [str]. *)
Definition str := list char.

Definition ch (a : ascii) : char := N_of_ascii a.

(** The [str] written by an ASCII literal. *)
Definition py (s : string) : str := List.map ch (list_ascii_of_string s).

(** The result of a call: a value, or a raised exception. *)
Inductive outcome (E A : Type) : Type :=
| Return (a : A)
| Raise (e : E).

Arguments Return {E A} a.
Arguments Raise {E A} e.

Definition bind {E A B} (m : outcome E A) (k : A -> outcome E B) : outcome E B :=
  match m with
  | Return a => k a
  | Raise e => Raise e
  end.

Notation "x <- m ;; k" := (bind m (fun x => k))
  (at level 61, m at next level, right associativity).
Notation "' p <- m ;; k" := (bind m (fun x => let 'p := x in k))
  (at level 61, p pattern, m at next level, right associativity).

(** ** [str] methods *)

Module Str.

Fixpoint eqb (s t : str) : bool :=
  match s, t with
  | [], [] => true
  | c :: s', d :: t' => N.eqb c d && eqb s' t'
  | _, _ => false
  end.

(** [c in s] *)
Fixpoint contains (c : char) (s : str) : bool :=
  match s with
  | [] => false
  | d :: s' => N.eqb d c || contains c s'
  end.

(** [s.find(c)], [None] for -1. *)
Fixpoint find (c : char) (s : str) : option nat :=
  match s with
  | [] => None
  | d :: s' =>
      if N.eqb d c then Some 0
      else match find c s' with
           | Some i => Some (S i)
           | None => None
           end
  end.

(** [s.rfind(c)], [None] for -1. *)
Fixpoint rfind (c : char) (s : str) : option nat :=
  match s with
  | [] => None
  | d :: s' =>
      match rfind c s' with
      | Some i => Some (S i)
      | None => if N.eqb d c then Some 0 else None
      end
  end.

(** [s.find(c, start)] *)
Definition find_from (c : char) (s : str) (start : nat) : option nat :=
  match find c (skipn start s) with
  | Some i => Some (start + i)
  | None => None
  end.

(** [s.partition(c)]: (before, found, after). *)
Fixpoint partition (c : char) (s : str) : str * bool * str :=
  match s with
  | [] => ([], false, [])
  | d :: s' =>
      if N.eqb d c then ([], true, s')
      else let '(a, f, b) := partition c s' in (d :: a, f, b)
  end.

(** [s.rpartition(c)]: (before, found, after); when [c] does not occur
    the whole string is the last component. *)
Fixpoint rpartition (c : char) (s : str) : str * bool * str :=
  match s with
  | [] => ([], false, [])
  | d :: s' =>
      let '(a, f, b) := rpartition c s' in
      if f then (d :: a, true, b)
      else if N.eqb d c then ([], true, s')
      else ([], false, d :: b)
  end.

(** [s.split(c)] *)
Fixpoint split (c : char) (s : str) : list str :=
  match s with
  | [] => [[]]
  | d :: s' =>
      if N.eqb d c then [] :: split c s'
      else match split c s' with
           | p :: ps => (d :: p) :: ps
           | [] => [[d]]
           end
  end.

(** [c.join(parts)] *)
Fixpoint join (c : char) (parts : list str) : str :=
  match parts with
  | [] => []
  | [p] => p
  | p :: ps => p ++ c :: join c ps
  end.

(** [s.lstrip(chars)], the characters given by a predicate. *)
Fixpoint lstrip (p : char -> bool) (s : str) : str :=
  match s with
  | [] => []
  | d :: s' => if p d then lstrip p s' else s
  end.

(** [s.replace(c, "")] *)
Definition remove (c : char) (s : str) : str :=
  filter (fun d => negb (N.eqb d c)) s.

(** [s.startswith(p)] *)
Fixpoint startswith (p s : str) : bool :=
  match p, s with
  | [], _ => true
  | c :: p', d :: s' => N.eqb c d && startswith p' s'
  | _ :: _, [] => false
  end.

Definition is_empty (s : str) : bool :=
  match s with [] => true | _ => false end.

(** [s in l] for a list of strings. *)
Definition mem (s : str) (l : list str) : bool := existsb (eqb s) l.

(** [s.isascii()] *)
Definition isascii (s : str) : bool := forallb (fun c => N.ltb c 128) s.

Definition is_ascii_upper (c : char) : bool := N.leb 65 c && N.leb c 90.
Definition is_ascii_lower (c : char) : bool := N.leb 97 c && N.leb c 122.
Definition is_ascii_alpha (c : char) : bool := is_ascii_upper c || is_ascii_lower c.
Definition is_ascii_digit (c : char) : bool := N.leb 48 c && N.leb c 57.

Definition lower_char (c : char) : char :=
  if is_ascii_upper c then N.add c 32 else c.
Definition upper_char (c : char) : char :=
  if is_ascii_lower c then N.sub c 32 else c.

(** [s.lower()] and [s.upper()] of an ASCII string. *)
Definition ascii_lower (s : str) : str := List.map lower_char s.
Definition ascii_upper (s : str) : str := List.map upper_char s.

(** [s.isdigit() and s.isascii()] *)
Definition is_ascii_digits (s : str) : bool :=
  match s with
  | [] => false
  | _ => forallb is_ascii_digit s
  end.

(** [int(s, 10)] of a string of ASCII digits. *)
Definition int10 (s : str) : N :=
  fold_left (fun n c => N.add (N.mul 10 n) (N.sub c 48)) s 0%N.

Definition hex_value (c : char) : option N :=
  if is_ascii_digit c then Some (N.sub c 48)
  else if N.leb 97 c && N.leb c 102 then Some (N.sub c 87)
  else if N.leb 65 c && N.leb c 70 then Some (N.sub c 55)
  else None.

Definition is_hex_digit (c : char) : bool :=
  match hex_value c with Some _ => true | None => false end.

(** [int(s, 16)] of a string of hexadecimal digits. *)
Definition int16 (s : str) : N :=
  fold_left (fun n c => N.add (N.mul 16 n)
                          (match hex_value c with Some v => v | None => 0%N end)) s 0%N.

Definition digit_char (d : N) : char :=
  if N.ltb d 10 then N.add 48 d else N.add 87 d.

(** The digits of [n] in base [b], most significant first; [fuel] bounds
    the number of digits. *)
Fixpoint digits (fuel : nat) (b n : N) : str :=
  match fuel with
  | O => []
  | S fuel' =>
      if N.ltb n b then [digit_char n]
      else digits fuel' b (N.div n b) ++ [digit_char (N.modulo n b)]
  end.

(** [str(n)] for [0 <= n < 10**20]. *)
Definition of_int (n : N) : str := digits 20 10%N n.

(** ['%x' % n] for [0 <= n < 16**8]. *)
Definition to_hex (n : N) : str := digits 8 16%N n.

End Str.

(** ** [ipaddress] (CPython 3.11) *)

Module Ipaddress.

Inductive address : Type :=
| IPv4Address (ip : N)
| IPv6Address (ip : N) (scope_id : option str).

(** [IPv4Address._parse_octet] *)
Definition _parse_octet (octet_str : str) : option N :=
  match octet_str with
  | [] => None
  | c0 :: _ =>
      if negb (Str.is_ascii_digits octet_str) then None
      else if Nat.ltb 3 (length octet_str) then None
      else if negb (Str.eqb octet_str (py "0")) && N.eqb c0 (ch "0") then None
      else
        let octet_int := Str.int10 octet_str in
        if N.ltb 255 octet_int then None else Some octet_int
  end.

Fixpoint parse_all {A} (f : str -> option A) (l : list str) : option (list A) :=
  match l with
  | [] => Some []
  | x :: l' =>
      match f x with
      | None => None
      | Some v =>
          match parse_all f l' with
          | None => None
          | Some vs => Some (v :: vs)
          end
      end
  end.

(** [int.from_bytes(values, 'big')] with [bits]-wide digits. *)
Definition from_digits (bits : N) (values : list N) : N :=
  fold_left (fun acc v => N.lor (N.shiftl acc bits) v) values 0%N.

(** [IPv4Address._ip_int_from_string] *)
Definition v4_ip_int_from_string (ip_str : str) : option N :=
  match ip_str with
  | [] => None
  | _ =>
      let octets := Str.split (ch ".") ip_str in
      if negb (Nat.eqb (length octets) 4) then None
      else match parse_all _parse_octet octets with
           | None => None
           | Some vs => Some (from_digits 8 vs)
           end
  end.

(** [IPv4Address(address)] for a string; [None] for [AddressValueError]. *)
Definition parse_v4 (address : str) : option N :=
  if Str.contains (ch "/") address then None
  else v4_ip_int_from_string address.

(** [IPv6Address._parse_hextet] *)
Definition _parse_hextet (hextet_str : str) : option N :=
  if negb (forallb Str.is_hex_digit hextet_str) then None
  else if Nat.ltb 4 (length hextet_str) then None
  else match hextet_str with
       | [] => None
       | _ => Some (Str.int16 hextet_str)
       end.

(** The loop of [_ip_int_from_string] that looks for the part skipped by
    ["::"] among [parts[1 : len(parts) - 1]]: [Some None] when there is
    none, [Some (Some i)] for one at index [i], [None] for the error of a
    second one. *)
Fixpoint find_skip (inner : list str) (i : nat) (skip_index : option nat)
  : option (option nat) :=
  match inner with
  | [] => Some skip_index
  | p :: inner' =>
      match p with
      | [] =>
          match skip_index with
          | Some _ => None
          | None => find_skip inner' (S i) (Some i)
          end
      | _ => find_skip inner' (S i) skip_index
      end
  end.

Definition is_empty := Str.is_empty.

(** [IPv6Address._ip_int_from_string] *)
Definition v6_ip_int_from_string (ip_str : str) : option N :=
  match ip_str with
  | [] => None
  | _ =>
      let parts := Str.split (ch ":") ip_str in
      if Nat.ltb (length parts) 3 then None
      else
        let with_v4 :=
          if Str.contains (ch ".") (last parts [])
          then match parse_v4 (last parts []) with
               | None => None
               | Some ipv4_int =>
                   Some (removelast parts
                           ++ [Str.to_hex (N.land (N.shiftr ipv4_int 16) 65535);
                               Str.to_hex (N.land ipv4_int 65535)])
               end
          else Some parts in
        match with_v4 with
        | None => None
        | Some parts =>
            if Nat.ltb 9 (length parts) then None
            else
              match find_skip (removelast (tl parts)) 1 None with
              | None => None
              | Some (Some skip_index) =>
                  let parts_hi := skip_index in
                  let parts_lo := length parts - skip_index - 1 in
                  let hi_ok :=
                    if is_empty (hd [] parts)
                    then (parts_hi - 1, Nat.eqb (parts_hi - 1) 0)
                    else (parts_hi, true) in
                  let lo_ok :=
                    if is_empty (last parts [])
                    then (parts_lo - 1, Nat.eqb (parts_lo - 1) 0)
                    else (parts_lo, true) in
                  let '(parts_hi, ok_hi) := hi_ok in
                  let '(parts_lo, ok_lo) := lo_ok in
                  if negb ok_hi then None
                  else if negb ok_lo then None
                  else if Nat.ltb (8 - (parts_hi + parts_lo)) 1 then None
                  else
                    let parts_skipped := 8 - (parts_hi + parts_lo) in
                    match parse_all _parse_hextet (firstn parts_hi parts),
                          parse_all _parse_hextet
                            (skipn (length parts - parts_lo) parts) with
                    | Some his, Some los =>
                        Some (from_digits 16
                                (his ++ repeat 0%N parts_skipped ++ los))
                    | _, _ => None
                    end
              | Some None =>
                  if negb (Nat.eqb (length parts) 8) then None
                  else if is_empty (hd [] parts) then None
                  else if is_empty (last parts []) then None
                  else match parse_all _parse_hextet parts with
                       | Some his => Some (from_digits 16 his)
                       | None => None
                       end
              end
        end
  end.

(** [IPv6Address._split_scope_id] *)
Definition _split_scope_id (ip_str : str) : option (str * option str) :=
  let '(addr, sep, scope_id) := Str.partition (ch "%") ip_str in
  if negb sep then Some (addr, None)
  else if is_empty scope_id || Str.contains (ch "%") scope_id then None
  else Some (addr, Some scope_id).

(** [IPv6Address(address)] for a string. *)
Definition parse_v6 (address : str) : option (N * option str) :=
  if Str.contains (ch "/") address then None
  else match _split_scope_id address with
       | None => None
       | Some (addr_str, scope_id) =>
           match v6_ip_int_from_string addr_str with
           | None => None
           | Some ip => Some (ip, scope_id)
           end
       end.

(** [ipaddress.ip_address(address)]; [None] for [ValueError]. *)
Definition ip_address (addr : str) : option address :=
  match parse_v4 addr with
  | Some ip => Some (IPv4Address ip)
  | None =>
      match parse_v6 addr with
      | Some (ip, scope_id) => Some (IPv6Address ip scope_id)
      | None => None
      end
  end.

(** A network [base/prefix] of addresses of [width] bits. *)
Definition in_network (width : N) (net : N * N) (ip : N) : bool :=
  N.eqb (N.shiftr ip (width - snd net)) (N.shiftr (fst net) (width - snd net)).

Definition v4 (a b c d : N) : N := from_digits 8 [a; b; c; d].
Definition v6 (h : list N) : N := from_digits 16 h.

(** [_IPv4Constants] *)
Definition v4_private_networks : list (N * N) :=
  [ (v4 0 0 0 0, 8); (v4 10 0 0 0, 8); (v4 127 0 0 0, 8);
    (v4 169 254 0 0, 16); (v4 172 16 0 0, 12); (v4 192 0 0 0, 24);
    (v4 192 0 0 170, 31); (v4 192 0 2 0, 24); (v4 192 168 0 0, 16);
    (v4 198 18 0 0, 15); (v4 198 51 100 0, 24); (v4 203 0 113 0, 24);
    (v4 240 0 0 0, 4); (v4 255 255 255 255, 32) ]%N.

Definition v4_private_networks_exceptions : list (N * N) :=
  [ (v4 192 0 0 9, 32); (v4 192 0 0 10, 32) ]%N.

Definition v4_loopback_network : N * N := (v4 127 0 0 0, 8%N).

(** [_IPv6Constants] *)
Definition v6_private_networks : list (N * N) :=
  [ (v6 [0; 0; 0; 0; 0; 0; 0; 1], 128); (v6 [0; 0; 0; 0; 0; 0; 0; 0], 128);
    (v6 [0; 0; 0; 0; 0; 65535; 0; 0], 96);
    (v6 [100; 65435; 1; 0; 0; 0; 0; 0], 48);
    (v6 [256; 0; 0; 0; 0; 0; 0; 0], 64);
    (v6 [8193; 0; 0; 0; 0; 0; 0; 0], 23);
    (v6 [8193; 3512; 0; 0; 0; 0; 0; 0], 32);
    (v6 [8194; 0; 0; 0; 0; 0; 0; 0], 16);
    (v6 [64512; 0; 0; 0; 0; 0; 0; 0], 7);
    (v6 [65152; 0; 0; 0; 0; 0; 0; 0], 10) ]%N.

Definition v6_private_networks_exceptions : list (N * N) :=
  [ (v6 [8193; 1; 0; 0; 0; 0; 0; 1], 128);
    (v6 [8193; 1; 0; 0; 0; 0; 0; 2], 128);
    (v6 [8193; 3; 0; 0; 0; 0; 0; 0], 32);
    (v6 [8193; 4; 274; 0; 0; 0; 0; 0], 48);
    (v6 [8193; 32; 0; 0; 0; 0; 0; 0], 28);
    (v6 [8193; 48; 0; 0; 0; 0; 0; 0], 28) ]%N.

Definition v4_is_private (ip : N) : bool :=
  existsb (fun net => in_network 32 net ip) v4_private_networks
  && forallb (fun net => negb (in_network 32 net ip)) v4_private_networks_exceptions.

(** [IPv6Address.ipv4_mapped] *)
Definition ipv4_mapped (ip : N) : option N :=
  if negb (N.eqb (N.shiftr ip 32) 65535) then None
  else Some (N.land ip 4294967295).

(** [is_private] *)
Definition is_private (a : address) : bool :=
  match a with
  | IPv4Address ip => v4_is_private ip
  | IPv6Address ip _ =>
      match ipv4_mapped ip with
      | Some mapped => v4_is_private mapped
      | None =>
          existsb (fun net => in_network 128 net ip) v6_private_networks
          && forallb (fun net => negb (in_network 128 net ip))
               v6_private_networks_exceptions
      end
  end.

(** [is_loopback] *)
Definition is_loopback (a : address) : bool :=
  match a with
  | IPv4Address ip => in_network 32 v4_loopback_network ip
  | IPv6Address ip _ => N.eqb ip 1
  end.

End Ipaddress.

(** ** What the embedding takes from the Unicode character database

    The operations below depend on tables of the Unicode standard (case
    mapping, normalisation forms, the IDNA2008 and UTS #46 tables of the
    [idna] package).  They are only ever applied to text with non-ASCII
    characters, or to the ACE labels (["xn--..."]) of a host name; on plain
    ASCII text the embedding computes. *)

Module Idna.

(** The reasons [idna.encode] gives with an [IDNAError]. *)
Inductive IDNAError : Type :=
| EmptyDomain
| EmptyLabel
| HyphensInThirdAndFourth
| HyphenAtStartOrEnd
| InvalidCodepoint (pos : nat) (c : char)
| LabelTooLong
| DomainTooLong
| InvalidALabel (label : str)
| UnicodeRule (label : str).

(** What [idna.encode] can raise: an [IDNAError], or something else. *)
Inductive exn : Type :=
| IDNA (e : IDNAError)
| Other (description : str).

End Idna.

Class Unicode : Type := {
  (** [unicodedata.normalize('NFKC', s)] *)
  nfkc : str -> str;
  (** [s.lower()] of a string with non-ASCII characters *)
  unicode_lower : str -> str;
  (** [s.upper()] of a string with non-ASCII characters *)
  unicode_upper : str -> str;
  (** [idna.encode(s, uts46=True).decode('ascii')] of a host name with
      non-ASCII characters *)
  idna_unicode : str -> outcome Idna.exn str;
  (** [idna.ulabel] applied to an ACE label (lower case, starting with
      ["xn--"]): [None] when the label decodes to a valid U-label. *)
  check_ace_label : str -> option Idna.IDNAError
}.

Section UnicodeStr.
Context {U : Unicode}.

(** [s.lower()] *)
Definition str_lower (s : str) : str :=
  if Str.isascii s then Str.ascii_lower s else unicode_lower s.

(** [s.upper()] *)
Definition str_upper (s : str) : str :=
  if Str.isascii s then Str.ascii_upper s else unicode_upper s.
End UnicodeStr.

(** ** [urllib.parse] (CPython 3.11) *)

Module Urllib.

(** The [ValueError]s of [urlsplit] and of the [port] property. *)
Inductive ValueError : Type :=
| InvalidIPv6URL
| IPvFutureInvalid
| IPv4InBrackets
| NotAnIPAddress (hostname : str)
| InvalidUnderNFKC (netloc : str)
| PortNotInteger (port : str)
| PortOutOfRange.

Record SplitResult : Type := mkSplit {
  s_scheme : str; s_netloc : str; s_path : str;
  s_query : str; s_fragment : str
}.

Record ParseResult : Type := mkParse {
  scheme : str; netloc : str; path : str;
  params : str; query : str; fragment : str
}.

Definition uses_netloc : list str :=
  List.map py [""; "ftp"; "http"; "gopher"; "nntp"; "telnet";
               "imap"; "wais"; "file"; "mms"; "https"; "shttp";
               "snews"; "prospero"; "rtsp"; "rtspu"; "rsync";
               "svn"; "svn+ssh"; "sftp"; "nfs"; "git"; "git+ssh";
               "ws"; "wss"]%string.

Definition uses_params : list str :=
  List.map py [""; "ftp"; "hdl"; "prospero"; "http"; "imap";
               "https"; "shttp"; "rtsp"; "rtspu"; "sip"; "sips";
               "mms"; "sftp"; "tel"]%string.

(** [c in scheme_chars] *)
Definition is_scheme_char (c : char) : bool :=
  Str.is_ascii_alpha c || Str.is_ascii_digit c
  || N.eqb c (ch "+") || N.eqb c (ch "-") || N.eqb c (ch ".").

(** [c in _WHATWG_C0_CONTROL_OR_SPACE] *)
Definition is_c0_control_or_space (c : char) : bool := N.leb c 32.

Definition _UNSAFE_URL_BYTES_TO_REMOVE : list char := [9; 13; 10]%N.

(** [_splitparams] *)
Definition _splitparams (url : str) : str * str :=
  if Str.contains (ch "/") url then
    match Str.rfind (ch "/") url with
    | Some r =>
        match Str.find_from (ch ";") url r with
        | Some i => (firstn i url, skipn (S i) url)
        | None => (url, [])
        end
    | None => (url, [])
    end
  else
    match Str.find (ch ";") url with
    | Some i => (firstn i url, skipn (S i) url)
    | None => (removelast url, url)
    end.

(** [_splitnetloc] *)
Definition _splitnetloc (url : str) (start : nat) : str * str :=
  let delim :=
    fold_left
      (fun delim c =>
         match Str.find_from c url start with
         | Some wdelim => Nat.min delim wdelim
         | None => delim
         end)
      [ch "/"; ch "?"; ch "#"] (length url) in
  (skipn start (firstn delim url), skipn delim url).

(** [re.match(r"\Av[a-fA-F0-9]+\..+\Z", hostname)] for a [hostname] that
    starts with ["v"]. *)
Definition is_ipvfuture (hostname : str) : bool :=
  match hostname with
  | [] => false
  | _ :: rest =>
      let '(digits, dot, tail) := Str.partition (ch ".") rest in
      dot && negb (Str.is_empty digits) && forallb Str.is_hex_digit digits
      && negb (Str.is_empty tail) && negb (Str.contains 10%N tail)
  end.

(** [_check_bracketed_host] *)
Definition _check_bracketed_host (hostname : str) : outcome ValueError unit :=
  if Str.startswith (py "v") hostname then
    if negb (is_ipvfuture hostname) then Raise IPvFutureInvalid
    else Return tt
  else
    match Ipaddress.ip_address hostname with
    | None => Raise (NotAnIPAddress hostname)
    | Some (Ipaddress.IPv4Address _) => Raise IPv4InBrackets
    | Some (Ipaddress.IPv6Address _ _) => Return tt
    end.

(** [_check_bracketed_netloc] *)
Definition _check_bracketed_netloc (netloc : str) : outcome ValueError unit :=
  let '(_, _, hostname_and_port) := Str.rpartition (ch "@") netloc in
  let '(before_bracket, have_open_br, bracketed) :=
    Str.partition (ch "[") hostname_and_port in
  if have_open_br then
    if negb (Str.is_empty before_bracket) then Raise InvalidIPv6URL
    else
      let '(hostname, _, port) := Str.partition (ch "]") bracketed in
      if negb (Str.is_empty port) && negb (Str.startswith (py ":") port)
      then Raise InvalidIPv6URL
      else _check_bracketed_host hostname
  else
    let '(hostname, _, port) := Str.partition (ch ":") hostname_and_port in
    _check_bracketed_host hostname.

(** The checks [urlsplit] makes on the brackets of a netloc. *)
Definition check_brackets (netloc : str) : outcome ValueError unit :=
  let open := Str.contains (ch "[") netloc in
  let close := Str.contains (ch "]") netloc in
  if (open && negb close) || (close && negb open) then Raise InvalidIPv6URL
  else if open && close then _check_bracketed_netloc netloc
  else Return tt.

(** The scheme [urlsplit] reads at the start of [url], and the rest. *)
Definition split_scheme (url : str) : str * str :=
  match Str.find (ch ":") url with
  | Some i =>
      if Nat.ltb 0 i
         && match url with
            | c0 :: _ => N.ltb c0 128 && Str.is_ascii_alpha c0
            | [] => false
            end
      then
        if forallb is_scheme_char (firstn i url)
        then (Str.ascii_lower (firstn i url), skipn (S i) url)
        else ([], url)
      else ([], url)
  | None => ([], url)
  end.

Section WithUnicode.
Context {U : Unicode}.

(** [_checknetloc] *)
Definition _checknetloc (netloc : str) : outcome ValueError unit :=
  if Str.is_empty netloc || Str.isascii netloc then Return tt
  else
    let n := Str.remove (ch "@") netloc in
    let n := Str.remove (ch ":") n in
    let n := Str.remove (ch "#") n in
    let n := Str.remove (ch "?") n in
    let netloc2 := nfkc n in
    if Str.eqb n netloc2 then Return tt
    else if existsb (fun c => Str.contains c netloc2)
              [ch "/"; ch "?"; ch "#"; ch "@"; ch ":"]
    then Raise (InvalidUnderNFKC netloc)
    else Return tt.

(** [urlsplit(url)] *)
Definition urlsplit (url : str) : outcome ValueError SplitResult :=
  let url := Str.lstrip is_c0_control_or_space url in
  let url := fold_left (fun u b => Str.remove b u) _UNSAFE_URL_BYTES_TO_REMOVE url in
  let '(scheme, url) := split_scheme url in
  '(netloc, url) <-
    (if Str.eqb (firstn 2 url) (py "//") then
       let '(netloc, url) := _splitnetloc url 2 in
       _ <- check_brackets netloc ;;
       Return (netloc, url)
     else Return ([], url)) ;;
  let '(url, fragment) :=
    if Str.contains (ch "#") url
    then let '(a, _, b) := Str.partition (ch "#") url in (a, b)
    else (url, []) in
  let '(url, query) :=
    if Str.contains (ch "?") url
    then let '(a, _, b) := Str.partition (ch "?") url in (a, b)
    else (url, []) in
  _ <- _checknetloc netloc ;;
  Return (mkSplit scheme netloc url query fragment).

(** [urlparse(url)] *)
Definition urlparse (url : str) : outcome ValueError ParseResult :=
  splitresult <- urlsplit url ;;
  let '(mkSplit scheme netloc url query fragment) := splitresult in
  let '(url, params) :=
    if Str.mem scheme uses_params && Str.contains (ch ";") url
    then _splitparams url
    else (url, []) in
  Return (mkParse scheme netloc url params query fragment).

(** The [_hostinfo] property. *)
Definition _hostinfo (netloc : str) : str * option str :=
  let '(_, _, hostinfo) := Str.rpartition (ch "@") netloc in
  let '(_, have_open_br, bracketed) := Str.partition (ch "[") hostinfo in
  let '(hostname, port) :=
    if have_open_br then
      let '(hostname, _, port) := Str.partition (ch "]") bracketed in
      let '(_, _, port) := Str.partition (ch ":") port in
      (hostname, port)
    else
      let '(hostname, _, port) := Str.partition (ch ":") hostinfo in
      (hostname, port) in
  (hostname, if Str.is_empty port then None else Some port).

(** The [_userinfo] property: (username, password). *)
Definition _userinfo (netloc : str) : option str * option str :=
  let '(userinfo, have_info, hostinfo) := Str.rpartition (ch "@") netloc in
  if have_info then
    let '(username, have_password, password) := Str.partition (ch ":") userinfo in
    (Some username, if have_password then Some password else None)
  else (None, None).

(** The [hostname] property. *)
Definition hostname (p : ParseResult) : option str :=
  let hostname := fst (_hostinfo (netloc p)) in
  if Str.is_empty hostname then None
  else
    let '(hostname, percent, zone) := Str.partition (ch "%") hostname in
    Some (str_lower hostname ++ (if percent then [ch "%"] else []) ++ zone).

(** The [port] property. *)
Definition port (p : ParseResult) : outcome ValueError (option N) :=
  match snd (_hostinfo (netloc p)) with
  | None => Return None
  | Some port =>
      if Str.is_ascii_digits port then
        let port := Str.int10 port in
        if N.leb port 65535 then Return (Some port)
        else Raise PortOutOfRange
      else Raise (PortNotInteger port)
  end.

End WithUnicode.

(** [urlunsplit] *)
Definition urlunsplit (c : SplitResult) : str :=
  let '(mkSplit scheme netloc url query fragment) := c in
  let url :=
    if negb (Str.is_empty netloc)
       || (negb (Str.is_empty scheme) && Str.mem scheme uses_netloc
           && negb (Str.eqb (firstn 2 url) (py "//")))
    then
      let url :=
        if negb (Str.is_empty url) && negb (Str.eqb (firstn 1 url) (py "/"))
        then ch "/" :: url else url in
      py "//" ++ netloc ++ url
    else url in
  let url := if negb (Str.is_empty scheme) then scheme ++ ch ":" :: url else url in
  let url := if negb (Str.is_empty query) then url ++ ch "?" :: query else url in
  let url := if negb (Str.is_empty fragment) then url ++ ch "#" :: fragment else url in
  url.

(** [urlunparse] *)
Definition urlunparse (c : ParseResult) : str :=
  let '(mkParse scheme netloc url params query fragment) := c in
  let url := if negb (Str.is_empty params) then url ++ ch ";" :: params else url in
  urlunsplit (mkSplit scheme netloc url query fragment).

End Urllib.

(** ** [idna.encode(s, uts46=True)]

    For an ASCII host name the steps of the [idna] package are embedded:
    the UTS #46 remapping lower-cases it, the labels are split at the dots,
    and each is checked ([check_label]: the PVALID ASCII code points are
    [a-z], [0-9] and the hyphen).  ACE labels and host names with non-ASCII
    characters go through the tables of [Unicode]. *)

Module IdnaEncode.
Import Idna.

(** PVALID, for an ASCII code point. *)
Definition is_pvalid_ascii (c : char) : bool :=
  N.eqb c (ch "-") || Str.is_ascii_digit c || Str.is_ascii_lower c.

Fixpoint first_invalid (pos : nat) (label : str) : option IDNAError :=
  match label with
  | [] => None
  | c :: label' =>
      if is_pvalid_ascii c then first_invalid (S pos) label'
      else Some (InvalidCodepoint pos c)
  end.

(** [check_hyphen_ok] *)
Definition check_hyphen_ok (label : str) : option IDNAError :=
  if Str.eqb (firstn 2 (skipn 2 label)) (py "--") then Some HyphensInThirdAndFourth
  else if N.eqb (hd 0%N label) (ch "-") || N.eqb (last label 0%N) (ch "-")
       then Some HyphenAtStartOrEnd
  else None.

(** [check_label] of an ASCII label; [None] when the label is valid. *)
Definition check_label (label : str) : option IDNAError :=
  if Str.is_empty label then Some EmptyLabel
  else match check_hyphen_ok label with
       | Some e => Some e
       | None => first_invalid 0 label
       end.

Section WithUnicode.
Context {U : Unicode}.

(** [alabel] of an ASCII label (after remapping). *)
Definition alabel (label : str) : outcome IDNAError str :=
  match (if Str.startswith (py "xn--") label
         then check_ace_label label
         else check_label label) with
  | Some e => Raise e
  | None =>
      if Nat.ltb 63 (length label) then Raise LabelTooLong
      else Return label
  end.

Fixpoint alabels (labels : list str) : outcome IDNAError (list str) :=
  match labels with
  | [] => Return []
  | label :: labels' =>
      s <- alabel label ;;
      if Str.is_empty s then Raise EmptyLabel
      else
        rest <- alabels labels' ;;
        Return (s :: rest)
  end.

(** [idna.encode] of an ASCII string. *)
Definition encode_ascii (s : str) : outcome IDNAError str :=
  let s := Str.ascii_lower s in
  let labels := Str.split (ch ".") s in
  match labels with
  | [] | [[]] => Raise EmptyDomain
  | _ =>
      let trailing_dot := Str.is_empty (last labels []) in
      let labels := if trailing_dot then removelast labels else labels in
      result <- alabels labels ;;
      let result := if trailing_dot then result ++ [[]] else result in
      let s := Str.join (ch ".") result in
      if Nat.ltb (if trailing_dot then 254 else 253) (length s)
      then Raise DomainTooLong
      else Return s
  end.

(** [idna.encode(s, uts46=True).decode('ascii')] *)
Definition encode (s : str) : outcome exn str :=
  if Str.isascii s then
    match encode_ascii s with
    | Return p => Return p
    | Raise e => Raise (IDNA e)
    end
  else idna_unicode s.

End WithUnicode.
End IdnaEncode.

(** ** [app/services/url_validator.py] *)

Module UrlValidator.
Import Urllib.

(** The reasons [validate_url] gives with an [InvalidURLError], one for
    each [raise] of the method. *)
Inductive reason : Type :=
| EmptyOrNotString
| TooLong
| Malformed
| InvalidScheme (scheme : str)
| MissingHostname
| InvalidIDN (e : Idna.IDNAError)
| HostnameProcessing (e : Idna.exn + ValueError)
| PrivateOrLoopback (hostname : option str)
| EmptyAfterNormalization.

(** What a call of [validate_url] can raise: its own [InvalidURLError], or
    the [ValueError] that [urlparse] raised. *)
Inductive exn : Type :=
| InvalidURLError (r : reason)
| UrlparseValueError (e : ValueError).

Definition MAX_URL_LENGTH : nat := 2048.

Definition ALLOWED_SCHEMES : list str := [py "http"; py "https"].

(** [_is_private_ip] *)
Definition _is_private_ip (ip_address_str : str) : bool :=
  match Ipaddress.ip_address ip_address_str with
  | Some ip_obj => Ipaddress.is_private ip_obj || Ipaddress.is_loopback ip_obj
  | None => false
  end.

(** [str(x)] of an optional string, as [ipaddress.ip_address] takes it. *)
Definition str_of_optional (x : option str) : str :=
  match x with
  | Some s => s
  | None => py "None"
  end.

Section WithUnicode.
Context {U : Unicode}.

Definition parse (url : str) : outcome exn ParseResult :=
  match urlparse url with
  | Return p => Return p
  | Raise e => Raise (UrlparseValueError e)
  end.

(** Lines 91-103: parse, and parse again with an ["http://"] prefix
    when the scheme is missing and there is a dot where the host
    would be. *)
Definition parse_with_default_scheme (url : str) : outcome exn ParseResult :=
  parsed_url <- parse url ;;
  if Str.is_empty (scheme parsed_url)
     && negb (Str.is_empty (netloc parsed_url))
     && Str.contains (ch ".") (netloc parsed_url)
  then parse (py "http://" ++ url)
  else if Str.is_empty (scheme parsed_url)
          && Str.is_empty (netloc parsed_url)
          && negb (Str.is_empty (path parsed_url))
  then
    if Str.contains (ch ".") (path parsed_url)
    then parse (py "http://" ++ path parsed_url)
    else Return parsed_url
  else Return parsed_url.

(** Lines 121-137: the host name in its ASCII-compatible form; when it
    differs from [parsed_url.hostname] the netloc is rebuilt from it
    and the port. *)
Definition punycode_netloc (parsed_url : ParseResult) (host : str)
  : outcome exn ParseResult :=
  match IdnaEncode.encode host with
  | Raise (Idna.IDNA e) => Raise (InvalidURLError (InvalidIDN e))
  | Raise (Idna.Other d) =>
      Raise (InvalidURLError (HostnameProcessing (inl (Idna.Other d))))
  | Return punycode_hostname =>
      if negb (Str.eqb punycode_hostname host) then
        match port parsed_url with
        | Raise e => Raise (InvalidURLError (HostnameProcessing (inr e)))
        | Return p =>
            let new_netloc :=
              match p with
              | Some n =>
                  if N.eqb n 0 then punycode_hostname
                  else punycode_hostname ++ ch ":" :: Str.of_int n
              | None => punycode_hostname
              end in
            Return (mkParse (scheme parsed_url) new_netloc (path parsed_url)
                      (params parsed_url) (query parsed_url)
                      (fragment parsed_url))
        end
      else Return parsed_url
  end.

(** [validate_url] *)
Definition validate_url (url : str) : outcome exn str :=
  if Str.is_empty url then Raise (InvalidURLError EmptyOrNotString)
  else if Nat.ltb MAX_URL_LENGTH (length url) then Raise (InvalidURLError TooLong)
  else
    parsed_url <- parse_with_default_scheme url ;;
    if Str.is_empty (scheme parsed_url) || Str.is_empty (netloc parsed_url)
    then Raise (InvalidURLError Malformed)
    else if negb (Str.mem (str_lower (scheme parsed_url)) ALLOWED_SCHEMES)
    then Raise (InvalidURLError (InvalidScheme (scheme parsed_url)))
    else
      match hostname parsed_url with
      | None => Raise (InvalidURLError MissingHostname)
      | Some host =>
          if Str.is_empty host then Raise (InvalidURLError MissingHostname)
          else
            parsed_url <- punycode_netloc parsed_url host ;;
            if _is_private_ip (str_of_optional (hostname parsed_url))
            then Raise (InvalidURLError (PrivateOrLoopback (hostname parsed_url)))
            else
              let normalized_url :=
                urlunparse (mkParse (str_lower (scheme parsed_url))
                              (netloc parsed_url) (path parsed_url)
                              (params parsed_url) (query parsed_url)
                              (fragment parsed_url)) in
              if Str.is_empty normalized_url
              then Raise (InvalidURLError EmptyAfterNormalization)
              else Return normalized_url
      end.

End WithUnicode.
End UrlValidator.

(** ** [re]: regular expressions over code points

    [residuals r s] lists what is left of [s] after each way [r] can match
    a prefix of it, so whether a pattern matches does not depend on the
    order in which the alternatives are tried. *)

Module Re.

Inductive regex : Type :=
| Eps
| Chr (p : char -> bool)
| Seq (a b : regex)
| Alt (a b : regex)
| Star (a : regex).

(** Zero or more rounds of [step], each consuming at least a character. *)
Fixpoint iterate (fuel : nat) (step : str -> list str) (s : str) : list str :=
  s :: match fuel with
       | O => []
       | S fuel' =>
           flat_map (iterate fuel' step)
             (filter (fun t => Nat.ltb (length t) (length s)) (step s))
       end.

Fixpoint residuals (r : regex) (s : str) : list str :=
  match r with
  | Eps => [s]
  | Chr p =>
      match s with
      | c :: s' => if p c then [s'] else []
      | [] => []
      end
  | Seq a b => flat_map (residuals b) (residuals a s)
  | Alt a b => residuals a s ++ residuals b s
  | Star a => iterate (length s) (residuals a) s
  end.

(** [r?], [r+], [r{n}], [r{0,n}], [r{m,n}], [r{m,}] *)
Definition Opt (r : regex) : regex := Alt r Eps.
Definition Plus (r : regex) : regex := Seq r (Star r).
Fixpoint times (n : nat) (r : regex) : regex :=
  match n with
  | O => Eps
  | S n' => Seq r (times n' r)
  end.
Fixpoint upto (n : nat) (r : regex) : regex :=
  match n with
  | O => Eps
  | S n' => Opt (Seq r (upto n' r))
  end.
Definition between (m n : nat) (r : regex) : regex := Seq (times m r) (upto (n - m) r).
Definition at_least (m : nat) (r : regex) : regex := Seq (times m r) (Star r).

(** A literal character of a pattern compiled with [re.IGNORECASE]: the
    two ASCII cases, and for [s] also U+017F. *)
Definition literal_i (c : char) : regex :=
  Chr (fun d => N.eqb d c || N.eqb d (Str.upper_char c)
                || (N.eqb c (ch "s") && N.eqb d 383)).

Fixpoint literal (s : str) : regex :=
  match s with
  | [] => Eps
  | c :: s' => Seq (literal_i c) (literal s')
  end.

(** [[A-Z]] with [re.IGNORECASE]: the 52 ASCII letters and U+0130, U+0131,
    U+017F, U+212A. *)
Definition letter_i (c : char) : bool :=
  Str.is_ascii_alpha c
  || N.eqb c 304 || N.eqb c 305 || N.eqb c 383 || N.eqb c 8490.

(** The first code point of each ten-digit range of the Unicode category
    Nd (Unicode 14), ASCII apart. *)
Definition decimal_ranges : list N :=
  [1632; 1776; 1984; 2406; 2534; 2662; 2790; 2918; 3046; 3174; 3302; 3430;
   3558; 3664; 3792; 3872; 4160; 4240; 6112; 6160; 6470; 6608; 6784; 6800;
   6992; 7088; 7232; 7248; 42528; 43216; 43264; 43472; 43504; 43600; 44016;
   65296; 66720; 68912; 69734; 69872; 69942; 70096; 70384; 70736; 70864;
   71248; 71360; 71472; 71904; 72016; 72784; 73040; 73120; 92768; 92864;
   93008; 120782; 120792; 120802; 120812; 120822; 123200; 123632; 125264;
   130032]%N.

(** [\d] *)
Definition digit (c : char) : bool :=
  Str.is_ascii_digit c
  || existsb (fun lo => N.leb lo c && N.leb c (lo + 9)) decimal_ranges.

(** [\s] *)
Definition space (c : char) : bool :=
  (N.leb 9 c && N.leb c 13) || (N.leb 28 c && N.leb c 32)
  || N.eqb c 133 || N.eqb c 160 || N.eqb c 5760
  || (N.leb 8192 c && N.leb c 8202) || N.eqb c 8232 || N.eqb c 8233
  || N.eqb c 8239 || N.eqb c 8287 || N.eqb c 12288.

(** [re.match(pattern, s) is not None] for a pattern [^ body $]: the
    dollar matches at the end of the string and before a newline that
    ends it. *)
Definition match_anchored (body : regex) (s : str) : bool :=
  existsb (fun t => Str.is_empty t || Str.eqb t [10%N]) (residuals body s).

End Re.

(** ** [app/services/qr_generator.py] *)

Module QrGenerator.
Import Re.

Definition bytes := list Byte.byte.

(** [QRGenerationError], one constructor for each [raise]. *)
Inductive QRGenerationError (exception : Type) : Type :=
| InvalidURLProvided (url : str)
| UnsupportedFormat (format : str)
| FailedToGenerate (url : str) (e : exception).

Arguments InvalidURLProvided {exception} url.
Arguments UnsupportedFormat {exception} format.
Arguments FailedToGenerate {exception} url e.

(** The [Union[str, bytes]] a call returns. *)
Inductive result : Type :=
| Path (p : str)
| Bytes (b : bytes).

Inductive image_factory : Type := PilImage | SvgImage.

(** The [qrcode] library and the operating system, as the method uses
    them. *)
Class Platform : Type := {
  exception : Type;
  qrcode : Type;
  image : Type;
  filesystem : Type;
  (** [qrcode.QRCode(version=None, error_correction=ERROR_CORRECT_H,
      box_size=..., border=...)], then [add_data(url)] and
      [make(fit=True)] *)
  qr_make : Z -> Z -> str -> outcome exception qrcode;
  (** [qr.make_image(image_factory=..., fill_color=..., back_color=...)] *)
  make_image : qrcode -> image_factory -> str -> str -> outcome exception image;
  (** [img.save(byte_arr, format=...)] into a fresh [io.BytesIO], then
      [byte_arr.getvalue()] *)
  save_to_bytes : image -> str -> outcome exception bytes;
  (** [img.save(output_path, kind)] *)
  save_to_path : image -> str -> str -> filesystem -> outcome exception filesystem;
  (** [os.makedirs(path, exist_ok=True)] *)
  makedirs : str -> filesystem -> outcome exception filesystem;
  (** [os.path.dirname] *)
  dirname : str -> str;
  (** [os.path.abspath], which reads the current directory *)
  abspath : filesystem -> str -> str
}.

Definition DEFAULT_QR_BOX_SIZE : Z := 10.
Definition DEFAULT_QR_BORDER : Z := 4.
Definition DEFAULT_QR_FILL_COLOR : str := py "black".
Definition DEFAULT_QR_BACK_COLOR : str := py "white".
Definition SUPPORTED_QR_FORMATS : list str := [py "PNG"; py "SVG"].

(** The pattern of [_validate_url], compiled with [re.IGNORECASE]. *)
Definition url_regex : regex :=
  let alnum := Chr (fun c => letter_i c || Str.is_ascii_digit c) in
  let alnum_hyphen :=
    Chr (fun c => letter_i c || Str.is_ascii_digit c || N.eqb c (ch "-")) in
  let dot := literal_i (ch ".") in
  let digits := between 1 3 (Chr digit) in
  (* (?:http|ftp)s?:// *)
  Seq (Alt (literal (py "http")) (literal (py "ftp")))
 (Seq (Opt (literal_i (ch "s")))
 (Seq (literal (py "://"))
  (* domain, localhost or ip *)
 (Seq (Alt (Seq (Plus (Seq alnum
                      (Seq (Opt (Seq (upto 61 alnum_hyphen) alnum)) dot)))
                (Alt (Seq (between 2 6 (Chr letter_i)) (Opt dot))
                     (Seq (at_least 2 alnum_hyphen) (Opt dot))))
      (Alt (literal (py "localhost"))
           (Seq digits (Seq dot (Seq digits (Seq dot
           (Seq digits (Seq dot digits))))))))
  (* (?::\d+)? *)
 (Seq (Opt (Seq (literal_i (ch ":")) (Plus (Chr digit))))
  (* (?:/?|[/?]\S+) *)
      (Alt (Opt (literal_i (ch "/")))
           (Seq (Chr (fun c => N.eqb c (ch "/") || N.eqb c (ch "?")))
                (Plus (Chr (fun c => negb (space c)))))))))).

(** [_validate_url] *)
Definition _validate_url (url : str) : bool := match_anchored url_regex url.

Section WithPlatform.
Context {U : Unicode} {P : Platform}.

Definition lift {A} (fs : filesystem) (m : outcome exception A)
  : outcome (exception * filesystem) A :=
  match m with
  | Return a => Return a
  | Raise e => Raise (e, fs)
  end.

(** What both branches of the [try] block do with the image. *)
Definition deliver (img : image) (kind : str) (output_path : option str)
           (fs : filesystem) : outcome (exception * filesystem) (result * filesystem) :=
  match output_path with
  | Some (c :: p) =>
      let output_path := c :: p in
      let dir := dirname output_path in
      fs1 <- lift fs (makedirs (if Str.is_empty dir then py "." else dir) fs) ;;
      fs2 <- lift fs1 (save_to_path img output_path kind fs1) ;;
      Return (Path (abspath fs2 output_path), fs2)
  | _ =>
      b <- lift fs (save_to_bytes img kind) ;;
      Return (Bytes b, fs)
  end.

(** The body of the [try] block; [None] is the [None] that the method
    returns when no branch is taken. *)
Definition try_block (url format : str) (box_size border : Z)
           (fill_color back_color : str) (output_path : option str)
           (fs : filesystem)
  : outcome (exception * filesystem) (option result * filesystem) :=
  qr <- lift fs (qr_make box_size border url) ;;
  if Str.eqb format (py "PNG") then
    img <- lift fs (make_image qr PilImage fill_color back_color) ;;
    '(r, fs') <- deliver img (py "PNG") output_path fs ;;
    Return (Some r, fs')
  else if Str.eqb format (py "SVG") then
    img <- lift fs (make_image qr SvgImage fill_color back_color) ;;
    '(r, fs') <- deliver img (py "SVG") output_path fs ;;
    Return (Some r, fs')
  else Return (None, fs).

(** [generate_qr_code] *)
Definition generate_qr_code (url format : str) (box_size border : Z)
           (fill_color back_color : str) (output_path : option str)
           (fs : filesystem)
  : outcome (QRGenerationError exception) (option result) * filesystem :=
  if negb (_validate_url url) then (Raise (InvalidURLProvided url), fs)
  else
    let format := str_upper format in
    if negb (Str.mem format SUPPORTED_QR_FORMATS)
    then (Raise (UnsupportedFormat format), fs)
    else
      match try_block url format box_size border fill_color back_color
              output_path fs with
      | Return (r, fs') => (Return r, fs')
      | Raise (e, fs') => (Raise (FailedToGenerate url e), fs')
      end.

End WithPlatform.
End QrGenerator.

(** ** [app/utils/helpers.py] *)

(** [str.isalnum()] of a character outside ASCII, from the Unicode
    character database. *)
Class Alphanumeric : Type := {
  unicode_isalnum : char -> bool
}.

Module Helpers.
Import Urllib Re.

(** [s.rstrip(chars)] and [s.strip(chars)], the characters given by a
    predicate. *)
Definition rstrip (p : char -> bool) (s : str) : str :=
  rev (Str.lstrip p (rev s)).

Definition strip (p : char -> bool) (s : str) : str :=
  rstrip p (Str.lstrip p s).

(** [sub in s] *)
Fixpoint contains_sub (sub s : str) : bool :=
  Str.startswith sub s
  || match s with
     | [] => false
     | _ :: s' => contains_sub sub s'
     end.

(** [s.replace(a, b)] for single characters. *)
Definition replace_char (a b : char) (s : str) : str :=
  List.map (fun c => if N.eqb c a then b else c) s.

(** [[lo-hi]] and a single character of a pattern. *)
Definition in_range (lo hi : ascii) : regex :=
  Chr (fun c => N.leb (ch lo) c && N.leb c (ch hi)).

Definition one (a : ascii) : regex := Chr (N.eqb (ch a)).

(** [25[0-5]|2[0-4][0-9]|[01]?[0-9][0-9]?] *)
Definition octet : regex :=
  Alt (Seq (one "2") (Seq (one "5") (in_range "0" "5")))
 (Alt (Seq (one "2") (Seq (in_range "0" "4") (in_range "0" "9")))
      (Seq (Opt (in_range "0" "1"))
           (Seq (in_range "0" "9") (Opt (in_range "0" "9"))))).

(** The pattern of [validate_url], compiled without flags: the
    alternative for domain names and the one for IPv4 addresses. *)
Definition domain_ip_regex : regex * regex :=
  let alnum := Chr (fun c => Str.is_ascii_alpha c || Str.is_ascii_digit c) in
  let alnum_hyphen :=
    Chr (fun c => Str.is_ascii_alpha c || Str.is_ascii_digit c
                  || N.eqb c (ch "-")) in
  let dot := one "." in
  (* (?:[a-zA-Z0-9](?:[a-zA-Z0-9-]{0,61}[a-zA-Z0-9])?\.)+[a-zA-Z]{2,6} *)
  (Seq (Plus (Seq alnum (Seq (Opt (Seq (upto 61 alnum_hyphen) alnum)) dot)))
       (between 2 6 (Chr Str.is_ascii_alpha)),
  (* (?:octet\.){3}octet *)
   Seq (times 3 (Seq octet dot)) octet).

(** [domain_ip_regex.match(s) is not None]: each of the two alternatives
    is anchored at both ends. *)
Definition domain_ip_match (s : str) : bool :=
  match_anchored (fst domain_ip_regex) s || match_anchored (snd domain_ip_regex) s.

(** [str(n)] of an integer. *)
Definition str_of_int (n : Z) : str :=
  (if Z.ltb n 0 then [ch "-"] else [])
    ++ Str.digits (S (N.to_nat (N.log2 (Z.abs_N n)))) 10 (Z.abs_N n).

Section WithUnicode.
Context {U : Unicode} {A : Alphanumeric}.

(** [validate_url] *)
Definition validate_url (url : str) : bool :=
  if Str.is_empty url then false
  else
    let url := strip space url in
    let url_with_scheme :=
      if negb (contains_sub (py "://") url) then py "http://" ++ url else url in
    match urlparse url_with_scheme with
    | Raise _ => false
    | Return parsed_url =>
        if negb (Str.mem (scheme parsed_url) [py "http"; py "https"]) then false
        else if Str.is_empty (netloc parsed_url) then false
        else if negb (domain_ip_match (netloc parsed_url)) then false
        else if contains_sub (py "javascript:") (str_lower (path parsed_url))
                || contains_sub (py "javascript:") (str_lower (query parsed_url))
        then false
        else true
    end.

(** [\w] *)
Definition is_word (c : char) : bool :=
  if N.ltb c 128
  then Str.is_ascii_alpha c || Str.is_ascii_digit c || N.eqb c (ch "_")
  else unicode_isalnum c.

(** [re.sub(r'[^\w\-\.]', '', s)] *)
Definition keep_safe (s : str) : str :=
  filter (fun c => is_word c || N.eqb c (ch "-") || N.eqb c (ch ".")) s.

(** [re.sub(r'\.{2,}', '.', s)]: of a run of dots the last one stays. *)
Fixpoint collapse_dots (s : str) : str :=
  match s with
  | [] => []
  | c :: s' =>
      if N.eqb c (ch ".")
         && match s' with
            | d :: _ => N.eqb d (ch ".")
            | [] => false
            end
      then collapse_dots s'
      else c :: collapse_dots s'
  end.

(** [c in '.-_'] *)
Definition is_edge (c : char) : bool :=
  N.eqb c (ch ".") || N.eqb c (ch "-") || N.eqb c (ch "_").

(** [sanitize_filename]; [uuid4_hex] is what [uuid.uuid4().hex] gives
    when it is called. *)
Definition sanitize_filename (uuid4_hex : str) (filename : str) : str :=
  if Str.is_empty filename then []
  else
    let sanitized := replace_char (ch " ") (ch "_") filename in
    let sanitized := keep_safe sanitized in
    let sanitized := collapse_dots sanitized in
    let sanitized := strip is_edge sanitized in
    if Str.is_empty sanitized then uuid4_hex
    else sanitized.

(** [generate_unique_filename]; [now] is what
    [datetime.now().strftime('%Y%m%d_%H%M%S')] gives when it is called,
    [uuid4_hex] what [uuid.uuid4().hex] gives. *)
Definition generate_unique_filename (now uuid4_hex : str) (user_id : Z)
           (extension : str) : str :=
  let timestamp := now in
  let unique_id_prefix := firstn 12 uuid4_hex in
  let clean_extension :=
    Str.remove (ch "\") (Str.remove (ch "/") (str_lower extension)) in
  py "qr_code_" ++ timestamp ++ py "_user" ++ str_of_int user_id ++ py "_"
    ++ unique_id_prefix ++ py "." ++ clean_extension.

End WithUnicode.
End Helpers.

(** ** What [urlsplit] guarantees of its result *)

(** The characters that end a netloc. *)
Definition is_delim (c : char) : bool :=
  N.eqb c (ch "/") || N.eqb c (ch "?") || N.eqb c (ch "#").

(** The number of characters before the first delimiter. *)
Fixpoint netloc_end (s : str) : nat :=
  match s with
  | [] => 0
  | c :: s' => if is_delim c then 0 else S (netloc_end s')
  end.

(** Free of the characters that [urlsplit] removes. *)
Definition clean (s : str) : Prop :=
  forall c, In c Urllib._UNSAFE_URL_BYTES_TO_REMOVE -> Str.contains c s = false.

(** Empty, or starting with one of the [chars]. *)
Definition starts_with_one_of (p : char -> bool) (s : str) : Prop :=
  match s with
  | [] => True
  | c :: _ => p c = true
  end.

Record split_inv (U : Unicode) (r : Urllib.SplitResult) : Prop := {
  inv_clean :
    clean (Urllib.s_netloc r) /\ clean (Urllib.s_path r)
    /\ clean (Urllib.s_query r) /\ clean (Urllib.s_fragment r);
  inv_netloc : forallb (fun c => negb (is_delim c)) (Urllib.s_netloc r) = true;
  inv_brackets : Urllib.check_brackets (Urllib.s_netloc r) = Return tt;
  inv_checknetloc : Urllib._checknetloc (Urllib.s_netloc r) = Return tt;
  inv_path_head :
    Urllib.s_netloc r <> [] ->
    starts_with_one_of (N.eqb (ch "/")) (Urllib.s_path r);
  inv_path :
    Str.contains (ch "?") (Urllib.s_path r) = false
    /\ Str.contains (ch "#") (Urllib.s_path r) = false;
  inv_query : Str.contains (ch "#") (Urllib.s_query r) = false;
  inv_scheme :
    Str.isascii (Urllib.s_scheme r) = true
    /\ Str.ascii_lower (Urllib.s_scheme r) = Urllib.s_scheme r
}.

(** The steps of [urlsplit], named: the input without the characters it
    strips and removes, and the path, query and fragment of what follows
    the netloc. *)
Definition cleaned (url : str) : str :=
  fold_left (fun u b => Str.remove b u) Urllib._UNSAFE_URL_BYTES_TO_REMOVE
    (Str.lstrip Urllib.is_c0_control_or_space url).

Definition split_tail (url : str) : str * str * str :=
  let '(url, fragment) :=
    if Str.contains (ch "#") url
    then let '(a, _, b) := Str.partition (ch "#") url in (a, b)
    else (url, []) in
  let '(url, query) :=
    if Str.contains (ch "?") url
    then let '(a, _, b) := Str.partition (ch "?") url in (a, b)
    else (url, []) in
  (url, query, fragment).

(** The scheme that [urlsplit] reads in [url]: what stands before the first
    colon, in lower case, when it is a letter followed by scheme
    characters, and the empty string otherwise. *)
Definition scheme_of (url : str) : str :=
  fst (Urllib.split_scheme (cleaned url)).

(** [sep + s] when [s] is not empty. *)
Definition with_sep (sep : char) (s : str) : str :=
  if Str.is_empty s then [] else sep :: s.

(** The step of [urlparse] that splits the parameters off the path. *)
Definition params_of (scheme url : str) : str * str :=
  if Str.mem scheme Urllib.uses_params && Str.contains (ch ";") url
  then Urllib._splitparams url
  else (url, []).

(** What [urlparse] guarantees of its result: putting path and parameters
    together gives a well-formed split result, and splitting them again
    gives them back. *)
Record parse_inv (U : Unicode) (pu : Urllib.ParseResult) : Prop := {
  pinv_split :
    split_inv U
      (Urllib.mkSplit (Urllib.scheme pu) (Urllib.netloc pu)
         (Urllib.path pu ++ with_sep (ch ";") (Urllib.params pu))
         (Urllib.query pu) (Urllib.fragment pu));
  pinv_params :
    Str.mem (Urllib.scheme pu) Urllib.uses_params = true ->
    params_of (Urllib.scheme pu)
      (Urllib.path pu ++ with_sep (ch ";") (Urllib.params pu))
    = (Urllib.path pu, Urllib.params pu)
}.

(** The scheme of an accepted URL. *)
Definition http_or_https (s : str) : Prop := s = py "http" \/ s = py "https".

(** ** What the proofs ask of the [idna] tables

    A label that [idna] accepts as an A-label is made of letters, digits
    and hyphens, and the encoding of a host name is a host name that
    encodes to itself. *)

(** The characters of an encoded host name: [a-z], [0-9], hyphen, dot. *)
Definition hostname_char (c : char) : bool :=
  IdnaEncode.is_pvalid_ascii c || N.eqb c (ch ".").

Record idna_wf (U : Unicode) : Prop := {
  ace_label_ldh : forall label,
    check_ace_label label = None ->
    forallb IdnaEncode.is_pvalid_ascii label = true;
  idna_unicode_stable : forall h p,
    idna_unicode h = Return p ->
    forallb hostname_char p = true /\ p <> []
    /\ IdnaEncode.encode p = Return p
}.

(** The characters of a netloc rebuilt from an encoded host name and a
    port. *)
Definition netloc_char (c : char) : bool := hostname_char c || N.eqb c (ch ":").

(** [":" + str(port)] for a port that is neither absent nor zero. *)
Definition port_suffix (port : option N) : str :=
  match port with
  | Some n => if N.eqb n 0 then [] else ch ":" :: Str.of_int n
  | None => []
  end.

(** ** Instances for the examples

    A fragment of the Unicode data that knows one internationalised host
    name, and an in-memory platform. *)

Module Samples.

(** ["bücher.de"] *)
Definition buecher_de : str := ch "b" :: 252%N :: py "cher.de".

Definition unicode : Unicode := {|
  nfkc := fun s => s;
  unicode_lower := fun s => s;
  unicode_upper := fun s => s;
  idna_unicode := fun s =>
    if Str.eqb s buecher_de then Return (py "xn--bcher-kva.de")
    else Raise (Idna.IDNA (Idna.UnicodeRule s));
  check_ace_label := fun label =>
    if Str.eqb label (py "xn--bcher-kva") then None
    else Some (Idna.InvalidALabel label)
|}.

Definition byte_of (c : char) : Byte.byte :=
  match Byte.of_N c with
  | Some b => b
  | None => Byte.x3f
  end.

(** Files are kept as a list of paths with their contents; every path
    is taken relative to the root. *)
Definition platform : QrGenerator.Platform := {|
  QrGenerator.exception := str;
  QrGenerator.qrcode := str;
  QrGenerator.image := QrGenerator.bytes;
  QrGenerator.filesystem := list (str * QrGenerator.bytes);
  QrGenerator.qr_make := fun box_size border url =>
    if Z.leb box_size 0 then Raise (py "box_size") else Return url;
  QrGenerator.make_image := fun qr factory fill_color back_color =>
    Return (List.map byte_of qr);
  QrGenerator.save_to_bytes := fun img kind => Return img;
  QrGenerator.save_to_path := fun img output_path kind fs =>
    Return ((output_path, img) :: fs);
  QrGenerator.makedirs := fun dir fs => Return fs;
  QrGenerator.dirname := fun p =>
    let '(head, found, _) := Str.rpartition (ch "/") p in
    if found then head else [];
  QrGenerator.abspath := fun fs p =>
    if Str.startswith (py "/") p then p else ch "/" :: p
|}.

(** A scheme-less input of exactly 2048 characters. *)
Definition long_url : str := py "a.com/" ++ repeat (ch "a") 2042.

(** An input of 2049 characters. *)
Definition too_long_url : str := py "http://a.com/" ++ repeat (ch "a") 2036.

(** A URL with userinfo and an internationalised host name, the result
    of parsing it, and the URL that [validate_url] returns for it. *)
Definition idn_url : str := py "http://user:pw@" ++ buecher_de ++ py ":8080/x".

Definition idn_parsed : Urllib.ParseResult :=
  Urllib.mkParse (py "http") (py "user:pw@" ++ buecher_de ++ py ":8080")
    (py "/x") [] [] [].

Definition idn_normalized : str := py "http://xn--bcher-kva.de:8080/x".

End Samples.

(** ** Definitions for the further properties *)

(** [url] without the characters that [urlsplit] removes wherever they are. *)
Definition remove3 (s : str) : str :=
  fold_left (fun u b => Str.remove b u) Urllib._UNSAFE_URL_BYTES_TO_REMOVE s.

(** The dotted-decimal text of four octets. *)
Definition dotted_quad (a b c d : N) : str :=
  Str.of_int a ++ ch "." :: Str.of_int b ++ ch "." :: Str.of_int c
    ++ ch "." :: Str.of_int d.

(** The IPv4 addresses that [_is_private_ip] takes, by their octets: the
    networks of [ipaddress] that make an address private, without the two
    addresses it excepts, and the loopback network. *)
Definition private_quad (a b c d : N) : Prop :=
  (a = 0 \/ a = 10 \/ a = 127
   \/ (a = 169 /\ b = 254)
   \/ (a = 172 /\ 16 <= b <= 31)
   \/ (a = 192 /\ b = 0 /\ c = 0 /\ d <> 9 /\ d <> 10)
   \/ (a = 192 /\ b = 0 /\ c = 2)
   \/ (a = 192 /\ b = 168)
   \/ (a = 198 /\ 18 <= b <= 19)
   \/ (a = 198 /\ b = 51 /\ c = 100)
   \/ (a = 203 /\ b = 0 /\ c = 113)
   \/ 240 <= a)%N.

(** Every character class of the pattern [r] lies within [q]. *)
Fixpoint within (q : char -> bool) (r : Re.regex) : Prop :=
  match r with
  | Re.Eps => True
  | Re.Chr p => forall c, p c = true -> q c = true
  | Re.Seq a b | Re.Alt a b => within q a /\ within q b
  | Re.Star a => within q a
  end.

(** [t] is what is left of [s] after a prefix of characters in [q]. *)
Definition consumes (q : char -> bool) (s t : str) : Prop :=
  exists pre, s = pre ++ t /\ forallb q pre = true.

Definition not_space (c : char) : bool := negb (Re.space c).

(** The letters of a scheme that the encoder's pattern takes: the ASCII
    letters and U+017F, which [re.IGNORECASE] matches with [s]. *)
Definition scheme_letter (c : char) : bool := Str.is_ascii_alpha c || N.eqb c 383.

(** The characters of a port as [validate_url] lets it through: printable
    ASCII other than the delimiters of a URL, the at sign and the square
    brackets. *)
Definition port_char (c : char) : bool :=
  N.leb 33 c && N.ltb c 127
  && negb (is_delim c) && negb (N.eqb c (ch "@"))
  && negb (N.eqb c (ch "[")) && negb (N.eqb c (ch "]")).

(** The characters of a host name in [validate_url]'s pattern. *)
Definition ldh_dot (c : char) : bool :=
  Str.is_ascii_alpha c || Str.is_ascii_digit c || N.eqb c (ch "-")
  || N.eqb c (ch ".").

(** The characters that [sanitize_filename] keeps. *)
Definition is_safe {A : Alphanumeric} (c : char) : bool :=
  Helpers.is_word c || N.eqb c (ch "-") || N.eqb c (ch ".").

(** The digits of [uuid.uuid4().hex]. *)
Definition is_hex_lower (c : char) : bool :=
  Str.is_ascii_digit c || (N.leb 97 c && N.leb c 102).

(** A table of alphanumeric characters that has none outside ASCII, and
    a value for [uuid.uuid4().hex]. *)
Module MoreSamples.

Definition alphanumeric : Alphanumeric := {| unicode_isalnum := fun _ => false |}.

Definition uuid4_hex : str := py "0123456789abcdef0123456789abcdef".

End MoreSamples.

(** * Properties *)

Unset Implicit Arguments.

(** ** The encoder's checks *)

Section Encoder.
Import QrGenerator.
Context {U : Unicode} {P : Platform}.

Lemma generate_invalid_url url format box_size border fill_color back_color
      output_path fs :
  _validate_url url = false ->
  generate_qr_code url format box_size border fill_color back_color output_path fs
  = (Raise (InvalidURLProvided url), fs).
Proof.
  intros Hv. unfold generate_qr_code. rewrite Hv. reflexivity.
Qed.

Lemma generate_unsupported url format box_size border fill_color back_color
      output_path fs :
  _validate_url url = true ->
  Str.mem (str_upper format) SUPPORTED_QR_FORMATS = false ->
  generate_qr_code url format box_size border fill_color back_color output_path fs
  = (Raise (UnsupportedFormat (str_upper format)), fs).
Proof.
  intros Hv Hf. unfold generate_qr_code. rewrite Hv, Hf. reflexivity.
Qed.

End Encoder.

(** C3, as the code has it: with [format="JPG"] the URL check still comes
    first.  A URL that passes [_validate_url] gets the unsupported-format
    error, any other URL gets the invalid-URL error; neither touches the
    file system. *)
Theorem C3_format_gate_after_url_check :
  forall (U : Unicode) (P : QrGenerator.Platform) url box_size border
         fill_color back_color output_path fs,
    QrGenerator.generate_qr_code url (py "JPG") box_size border fill_color
      back_color output_path fs
    = if QrGenerator._validate_url url
      then (Raise (QrGenerator.UnsupportedFormat (py "JPG")), fs)
      else (Raise (QrGenerator.InvalidURLProvided url), fs).
Proof.
  intros. destruct (QrGenerator._validate_url url) eqn:Hv.
  - apply generate_unsupported; [exact Hv | reflexivity].
  - apply generate_invalid_url; exact Hv.
Qed.

(** C3 fails as stated: for the URL ["this-is-not-a-valid-url"] a call with
    [format="JPG"] raises the invalid-URL error, not the unsupported-format
    one. *)
Lemma C3_counterexample :
  QrGenerator._validate_url (py "this-is-not-a-valid-url") = false
  /\ (forall (U : Unicode) (P : QrGenerator.Platform) box_size border
             fill_color back_color output_path fs,
         QrGenerator.generate_qr_code (py "this-is-not-a-valid-url") (py "JPG")
           box_size border fill_color back_color output_path fs
         = (Raise (QrGenerator.InvalidURLProvided (py "this-is-not-a-valid-url")), fs))
  /\ (forall E : Type,
         @QrGenerator.InvalidURLProvided E (py "this-is-not-a-valid-url")
         <> QrGenerator.UnsupportedFormat (py "JPG")).
Proof.
  split; [vm_compute; reflexivity | split].
  - intros. apply generate_invalid_url. vm_compute. reflexivity.
  - intros E Heq. discriminate Heq.
Qed.

(** C1, as the code has it: the encoder checks the URL against its own
    pattern.  Whenever [_validate_url] rejects, [generate_qr_code] raises
    the invalid-URL error that carries the URL, whatever the format and
    the rendering parameters, and leaves the file system as it was. *)
Theorem C1_encoder_rejects_by_its_own_pattern :
  forall (U : Unicode) (P : QrGenerator.Platform) url format box_size border
         fill_color back_color output_path fs,
    QrGenerator._validate_url url = false ->
    QrGenerator.generate_qr_code url format box_size border fill_color
      back_color output_path fs
    = (Raise (QrGenerator.InvalidURLProvided url), fs).
Proof.
  intros. apply generate_invalid_url. assumption.
Qed.

Lemma C1_encoder_rejects_witness :
  QrGenerator._validate_url (py "example.com") = false
  /\ QrGenerator.generate_qr_code (U := Samples.unicode) (P := Samples.platform)
       (py "example.com") (py "SVG") 10 4 (py "black") (py "white") None []
     = (Raise (QrGenerator.InvalidURLProvided (py "example.com")), []).
Proof.
  split; [vm_compute; reflexivity |].
  apply (@C1_encoder_rejects_by_its_own_pattern Samples.unicode Samples.platform).
  vm_compute. reflexivity.
Defined.

(** C1 fails as stated, in both directions: ["http://127.0.0.1"] passes the
    encoder's pattern and is rejected by [validate_url] (a loopback
    address); ["example.com"] is accepted by [validate_url] and does not
    pass the encoder's pattern. *)
Lemma C1_counterexample :
  (QrGenerator._validate_url (py "http://127.0.0.1") = true
   /\ forall U : Unicode,
        UrlValidator.validate_url (py "http://127.0.0.1")
        = Raise (UrlValidator.InvalidURLError
                   (UrlValidator.PrivateOrLoopback (Some (py "127.0.0.1")))))
  /\ (QrGenerator._validate_url (py "example.com") = false
      /\ forall U : Unicode,
           UrlValidator.validate_url (py "example.com")
           = Return (py "http://example.com")).
Proof.
  repeat split; intros; vm_compute; reflexivity.
Qed.

(** ** Strings *)

Lemma eqb_eq (s t : str) : Str.eqb s t = true <-> s = t.
Proof.
  revert t. induction s as [|c s IH]; intros [|d t]; simpl; split; intros Heq;
    try reflexivity; try discriminate.
  - apply andb_true_iff in Heq. destruct Heq as [Hc Hs].
    apply N.eqb_eq in Hc. apply IH in Hs. congruence.
  - injection Heq as -> ->. rewrite N.eqb_refl. simpl. apply IH. reflexivity.
Qed.

Lemma eqb_refl (s : str) : Str.eqb s s = true.
Proof. apply eqb_eq. reflexivity. Qed.

Lemma eqb_neq (s t : str) : Str.eqb s t = false <-> s <> t.
Proof.
  split.
  - intros Hf Heq. apply eqb_eq in Heq. congruence.
  - intros Hne. destruct (Str.eqb s t) eqn:E; [|reflexivity].
    apply eqb_eq in E. contradiction.
Qed.

Lemma is_empty_true (s : str) : Str.is_empty s = true <-> s = [].
Proof. destruct s; simpl; split; intros; congruence. Qed.

Lemma is_empty_false (s : str) : Str.is_empty s = false <-> s <> [].
Proof. destruct s; simpl; split; intros; congruence. Qed.

(** ** The checks of [validate_url], one by one *)

Section Validator.
Import Urllib UrlValidator.
Context {U : Unicode}.

Lemma parse_raise url e :
  parse url = Raise e -> exists v, e = UrlparseValueError v.
Proof.
  unfold parse. destruct (urlparse url); intros Heq; inversion Heq. eauto.
Qed.

Lemma parse_with_default_scheme_raise url e :
  parse_with_default_scheme url = Raise e -> exists v, e = UrlparseValueError v.
Proof.
  unfold parse_with_default_scheme, bind.
  destruct (parse url) as [p|e0] eqn:Hp.
  - repeat match goal with
           | |- context [if ?b then _ else _] => destruct b
           end; intros Heq; try discriminate; eapply parse_raise; eassumption.
  - intros Heq. inversion Heq; subst. eapply parse_raise; eassumption.
Qed.

(** With a scheme in the input, no prefix is added. *)
Lemma parse_with_default_scheme_scheme url pu :
  urlparse url = Return pu -> scheme pu <> [] ->
  parse_with_default_scheme url = Return pu.
Proof.
  intros Hp Hs. unfold parse_with_default_scheme, parse, bind. rewrite Hp.
  apply is_empty_false in Hs. rewrite Hs. reflexivity.
Qed.

Lemma punycode_netloc_raise pu h e :
  punycode_netloc pu h = Raise e ->
  exists r, e = InvalidURLError r /\ r <> TooLong.
Proof.
  unfold punycode_netloc.
  destruct (IdnaEncode.encode h) as [p|[ie|d]].
  - destruct (negb (Str.eqb p h)); [|discriminate].
    destruct (port pu); [discriminate|].
    intros Heq; inversion Heq; eexists; split; [reflexivity|discriminate].
  - intros Heq; inversion Heq; eexists; split; [reflexivity|discriminate].
  - intros Heq; inversion Heq; eexists; split; [reflexivity|discriminate].
Qed.

(** What a successful call went through. *)
Lemma validate_url_return url n :
  validate_url url = Return n ->
  exists pu h q,
    url <> [] /\ length url <= MAX_URL_LENGTH
    /\ parse_with_default_scheme url = Return pu
    /\ scheme pu <> [] /\ netloc pu <> []
    /\ Str.mem (str_lower (scheme pu)) ALLOWED_SCHEMES = true
    /\ hostname pu = Some h
    /\ punycode_netloc pu h = Return q
    /\ _is_private_ip (str_of_optional (hostname q)) = false
    /\ n = urlunparse (mkParse (str_lower (scheme q)) (netloc q) (path q)
                         (params q) (query q) (fragment q)).
Proof.
  unfold validate_url, bind.
  destruct (Str.is_empty url) eqn:He; [discriminate|].
  destruct (Nat.ltb MAX_URL_LENGTH (length url)) eqn:Hl; [discriminate|].
  destruct (parse_with_default_scheme url) as [pu|] eqn:Hp; [|discriminate].
  destruct (Str.is_empty (scheme pu) || Str.is_empty (netloc pu)) eqn:Hm;
    [discriminate|].
  destruct (negb (Str.mem (str_lower (scheme pu)) ALLOWED_SCHEMES)) eqn:Hs;
    [discriminate|].
  destruct (hostname pu) as [h|] eqn:Hh; [|discriminate].
  destruct (Str.is_empty h); [discriminate|].
  destruct (punycode_netloc pu h) as [q|] eqn:Hq; [|discriminate].
  destruct (_is_private_ip (str_of_optional (hostname q))) eqn:Hpriv;
    [discriminate|].
  match goal with
  | |- context [if Str.is_empty ?x then _ else _] => destruct (Str.is_empty x)
  end; [discriminate|].
  intros Heq. inversion Heq; subst. exists pu, h, q.
  apply orb_false_iff in Hm. destruct Hm as [Hm1 Hm2].
  apply negb_false_iff in Hs. apply Nat.ltb_ge in Hl.
  repeat split; try assumption; try reflexivity;
    apply is_empty_false; assumption.
Qed.

(** A call that raises the length error was given more than
    [MAX_URL_LENGTH] characters. *)
Lemma validate_url_too_long url :
  validate_url url = Raise (InvalidURLError TooLong) ->
  MAX_URL_LENGTH < length url.
Proof.
  unfold validate_url, bind.
  destruct (Str.is_empty url) eqn:He; [discriminate|].
  destruct (Nat.ltb MAX_URL_LENGTH (length url)) eqn:Hl;
    [intros _; apply Nat.ltb_lt; exact Hl|].
  destruct (parse_with_default_scheme url) as [pu|e] eqn:Hp.
  2:{ apply parse_with_default_scheme_raise in Hp. destruct Hp as [v ->].
      discriminate. }
  destruct (Str.is_empty (scheme pu) || Str.is_empty (netloc pu));
    [discriminate|].
  destruct (negb (Str.mem (str_lower (scheme pu)) ALLOWED_SCHEMES));
    [discriminate|].
  destruct (hostname pu) as [h|]; [|discriminate].
  destruct (Str.is_empty h); [discriminate|].
  destruct (punycode_netloc pu h) as [q|e] eqn:Hq.
  2:{ apply punycode_netloc_raise in Hq. destruct Hq as [r [-> Hr]].
      intros Heq. inversion Heq. contradiction. }
  destruct (_is_private_ip (str_of_optional (hostname q))); [discriminate|].
  match goal with
  | |- context [if Str.is_empty ?x then _ else _] => destruct (Str.is_empty x)
  end; discriminate.
Qed.

End Validator.

(** C5: the length check reads the input as given.  An input of 2048
    characters never gets the length error, an input of 2049 or more always
    does; and a scheme-less input of 2048 characters is accepted although
    its normalized form, with the prefix, has 2055. *)
Theorem C5_length_checked_on_the_input :
  forall (U : Unicode),
    (forall url, length url = 2048 ->
       UrlValidator.validate_url url
       <> Raise (UrlValidator.InvalidURLError UrlValidator.TooLong))
    /\ (forall url, 2049 <= length url ->
          UrlValidator.validate_url url
          = Raise (UrlValidator.InvalidURLError UrlValidator.TooLong))
    /\ (length Samples.long_url = 2048
        /\ UrlValidator.validate_url Samples.long_url
           = Return (py "http://" ++ Samples.long_url)
        /\ length (py "http://" ++ Samples.long_url) = 2055).
Proof.
  intros U. split; [|split].
  - intros url Hlen Hr. apply validate_url_too_long in Hr.
    unfold UrlValidator.MAX_URL_LENGTH in Hr. lia.
  - intros url Hlen. unfold UrlValidator.validate_url.
    destruct url as [|c url]; [simpl in Hlen; lia|].
    cbn [Str.is_empty].
    replace (Nat.ltb UrlValidator.MAX_URL_LENGTH (length (c :: url))) with true;
      [reflexivity|].
    symmetry. apply Nat.ltb_lt. unfold UrlValidator.MAX_URL_LENGTH. lia.
  - split; [vm_compute; reflexivity | split; vm_compute; reflexivity].
Qed.

Lemma C5_length_witness :
  UrlValidator.validate_url (U := Samples.unicode) Samples.long_url
  <> Raise (UrlValidator.InvalidURLError UrlValidator.TooLong)
  /\ UrlValidator.validate_url (U := Samples.unicode) Samples.too_long_url
     = Raise (UrlValidator.InvalidURLError UrlValidator.TooLong).
Proof.
  split.
  - apply (proj1 (C5_length_checked_on_the_input Samples.unicode)).
    vm_compute. reflexivity.
  - apply (proj1 (proj2 (C5_length_checked_on_the_input Samples.unicode))).
    replace (length Samples.too_long_url) with 2049
      by (vm_compute; reflexivity).
    apply le_n.
Defined.


(** ** What [generate_qr_code] returns *)

Section EncoderResult.
Import QrGenerator.
Context {U : Unicode} {P : Platform}.

Lemma lift_return {A} fs (m : outcome exception A) a :
  lift fs m = Return a -> m = Return a.
Proof. destruct m; simpl; intros Heq; inversion Heq; reflexivity. Qed.

(** A successful [deliver]: with a non-empty [output_path] the parent
    directory is made, the image saved there and the absolute path
    returned; otherwise the bytes are returned and nothing is written. *)
Lemma deliver_return img kind output_path fs r fs' :
  deliver img kind output_path fs = Return (r, fs') ->
  match output_path with
  | Some (c :: p) =>
      exists fs1,
        makedirs (if Str.is_empty (dirname (c :: p)) then py "."
                  else dirname (c :: p)) fs = Return fs1
        /\ save_to_path img (c :: p) kind fs1 = Return fs'
        /\ r = Path (abspath fs' (c :: p))
  | _ =>
      exists b, save_to_bytes img kind = Return b /\ r = Bytes b /\ fs' = fs
  end.
Proof.
  unfold deliver, bind. destruct output_path as [[|c p]|].
  - destruct (lift fs (save_to_bytes img kind)) as [b|] eqn:Hb; [|discriminate].
    apply lift_return in Hb. intros Heq; inversion Heq; subst. eauto.
  - destruct (lift fs (makedirs _ fs)) as [fs1|] eqn:Hm; [|discriminate].
    apply lift_return in Hm.
    destruct (lift fs1 (save_to_path img (c :: p) kind fs1)) as [fs2|] eqn:Hs;
      [|discriminate].
    apply lift_return in Hs. intros Heq; inversion Heq; subst. eauto.
  - destruct (lift fs (save_to_bytes img kind)) as [b|] eqn:Hb; [|discriminate].
    apply lift_return in Hb. intros Heq; inversion Heq; subst. eauto.
Qed.

End EncoderResult.

(** What a successful call of [generate_qr_code] went through. *)
Lemma generate_qr_code_return :
  forall (U : Unicode) (P : QrGenerator.Platform) url format box_size border
         fill_color back_color output_path fs r fs',
    QrGenerator.generate_qr_code url format box_size border fill_color
      back_color output_path fs = (Return r, fs') ->
    exists qr factory img,
      ((factory = QrGenerator.PilImage /\ str_upper format = py "PNG")
       \/ (factory = QrGenerator.SvgImage /\ str_upper format = py "SVG"))
      /\ QrGenerator.qr_make box_size border url = Return qr
      /\ QrGenerator.make_image qr factory fill_color back_color = Return img
      /\ match output_path with
         | Some (c :: p) =>
             exists fs1,
               QrGenerator.makedirs
                 (if Str.is_empty (QrGenerator.dirname (c :: p)) then py "."
                  else QrGenerator.dirname (c :: p)) fs = Return fs1
               /\ QrGenerator.save_to_path img (c :: p) (str_upper format) fs1
                  = Return fs'
               /\ r = Some (QrGenerator.Path (QrGenerator.abspath fs' (c :: p)))
         | _ =>
             exists b,
               QrGenerator.save_to_bytes img (str_upper format) = Return b
               /\ r = Some (QrGenerator.Bytes b) /\ fs' = fs
         end.
Proof.
  intros U P url format box_size border fill_color back_color output_path
         fs r fs'.
  unfold QrGenerator.generate_qr_code.
  destruct (negb (QrGenerator._validate_url url)); [discriminate|].
  destruct (negb (Str.mem (str_upper format) QrGenerator.SUPPORTED_QR_FORMATS))
    eqn:Hmem; [discriminate|].
  apply negb_false_iff in Hmem.
  unfold QrGenerator.try_block, bind.
  destruct (QrGenerator.lift fs (QrGenerator.qr_make box_size border url))
    as [qr|[e fse]] eqn:Hqr; [|discriminate].
  apply lift_return in Hqr.
  destruct (Str.eqb (str_upper format) (py "PNG")) eqn:Hpng.
  - apply eqb_eq in Hpng.
    destruct (QrGenerator.lift fs
                (QrGenerator.make_image qr QrGenerator.PilImage fill_color back_color))
      as [img|[e fse]] eqn:Himg; [|discriminate].
    apply lift_return in Himg.
    destruct (QrGenerator.deliver img (py "PNG") output_path fs)
      as [[r0 fs0]|[e fse]] eqn:Hd; [|discriminate].
    intros Heq; inversion Heq; subst r fs'.
    apply deliver_return in Hd. exists qr, QrGenerator.PilImage, img.
    rewrite Hpng. repeat split; auto.
    destruct output_path as [[|c p]|].
    + destruct Hd as [b [Hb [-> ->]]]. eauto.
    + destruct Hd as [fs1 [Hm [Hs ->]]]. eauto.
    + destruct Hd as [b [Hb [-> ->]]]. eauto.
  - destruct (Str.eqb (str_upper format) (py "SVG")) eqn:Hsvg.
    + apply eqb_eq in Hsvg.
      destruct (QrGenerator.lift fs
                  (QrGenerator.make_image qr QrGenerator.SvgImage fill_color back_color))
        as [img|[e fse]] eqn:Himg; [|discriminate].
      apply lift_return in Himg.
      destruct (QrGenerator.deliver img (py "SVG") output_path fs)
        as [[r0 fs0]|[e fse]] eqn:Hd; [|discriminate].
      intros Heq; inversion Heq; subst r fs'.
      apply deliver_return in Hd. exists qr, QrGenerator.SvgImage, img.
      rewrite Hsvg. repeat split; auto.
      destruct output_path as [[|c p]|].
      * destruct Hd as [b [Hb [-> ->]]]. eauto.
      * destruct Hd as [fs1 [Hm [Hs ->]]]. eauto.
      * destruct Hd as [b [Hb [-> ->]]]. eauto.
    + (* the format is one of the supported ones *)
      exfalso. unfold Str.mem, QrGenerator.SUPPORTED_QR_FORMATS in Hmem.
      simpl in Hmem. rewrite Hpng, Hsvg in Hmem. discriminate Hmem.
Qed.

(** C9, as the code has it: a successful call returns one of the two
    kinds, and the kind is chosen by whether [output_path] is a non-empty
    string.  With one, the parent directory is created, the image of the
    requested format is saved at the path and the absolute path is
    returned; with [None] or the empty string the encoded bytes are
    returned and the file system is as before. *)
Theorem C9_result_kind_by_output_path :
  forall (U : Unicode) (P : QrGenerator.Platform) url format box_size border
         fill_color back_color output_path fs r fs',
    QrGenerator.generate_qr_code url format box_size border fill_color
      back_color output_path fs = (Return r, fs') ->
    exists qr factory img,
      ((factory = QrGenerator.PilImage /\ str_upper format = py "PNG")
       \/ (factory = QrGenerator.SvgImage /\ str_upper format = py "SVG"))
      /\ QrGenerator.qr_make box_size border url = Return qr
      /\ QrGenerator.make_image qr factory fill_color back_color = Return img
      /\ match output_path with
         | Some (c :: p) =>
             exists fs1,
               QrGenerator.makedirs
                 (if Str.is_empty (QrGenerator.dirname (c :: p)) then py "."
                  else QrGenerator.dirname (c :: p)) fs = Return fs1
               /\ QrGenerator.save_to_path img (c :: p) (str_upper format) fs1
                  = Return fs'
               /\ r = Some (QrGenerator.Path (QrGenerator.abspath fs' (c :: p)))
         | _ =>
             exists b,
               QrGenerator.save_to_bytes img (str_upper format) = Return b
               /\ r = Some (QrGenerator.Bytes b) /\ fs' = fs
         end.
Proof.
  exact generate_qr_code_return.
Qed.


Lemma C9_result_kind_witness :
  exists qr factory img,
    ((factory = QrGenerator.PilImage /\ py "PNG" = py "PNG")
     \/ (factory = QrGenerator.SvgImage /\ py "PNG" = py "SVG"))
    /\ QrGenerator.qr_make (Platform := Samples.platform) 10 4
         (py "http://example.com") = Return qr
    /\ QrGenerator.make_image (Platform := Samples.platform) qr factory
         (py "black") (py "white") = Return img
    /\ exists fs1,
         QrGenerator.makedirs (Platform := Samples.platform) (py "out") []
         = Return fs1
         /\ QrGenerator.save_to_path (Platform := Samples.platform) img
              (py "out/qr.png") (py "PNG") fs1
            = Return [(py "out/qr.png", List.map Samples.byte_of (py "http://example.com"))]
         /\ Some (QrGenerator.Path (py "/out/qr.png"))
            = Some (QrGenerator.Path (py "/out/qr.png")).
Proof.
  exact (@C9_result_kind_by_output_path Samples.unicode Samples.platform
           (py "http://example.com") (py "png") 10%Z 4%Z (py "black") (py "white")
           (Some (py "out/qr.png")) []
           (Some (QrGenerator.Path (py "/out/qr.png")))
           [(py "out/qr.png", List.map Samples.byte_of (py "http://example.com"))]
           eq_refl).
Defined.

(** C9 fails as stated for an [output_path] that is the empty string: it
    was supplied, and the call returns the encoded bytes, not a path. *)
Lemma C9_counterexample :
  QrGenerator.generate_qr_code (U := Samples.unicode) (P := Samples.platform)
    (py "http://example.com") (py "PNG") 10 4 (py "black") (py "white")
    (Some []) []
  = (Return (Some (QrGenerator.Bytes
                     (List.map Samples.byte_of (py "http://example.com")))), [])
  /\ (forall (U : Unicode) (P : QrGenerator.Platform) url format box_size border
             fill_color back_color fs r fs',
         QrGenerator.generate_qr_code url format box_size border fill_color
           back_color (Some []) fs = (Return r, fs') ->
         exists b, r = Some (QrGenerator.Bytes b) /\ fs' = fs).
Proof.
  split; [vm_compute; reflexivity|].
  intros U P url format box_size border fill_color back_color fs r fs' Hg.
  apply generate_qr_code_return in Hg.
  destruct Hg as [qr [factory [img [_ [_ [_ [b [_ [Hr Hfs]]]]]]]]]. eauto.
Qed.

(** ** Searching and cutting strings *)

Section StrLemmas.

Lemma contains_In c s : Str.contains c s = true <-> In c s.
Proof.
  induction s as [|d s IH]; simpl; [split; [discriminate|tauto]|].
  rewrite orb_true_iff, N.eqb_eq, IH. tauto.
Qed.

Lemma contains_false c s : Str.contains c s = false <-> ~ In c s.
Proof.
  rewrite <- contains_In. destruct (Str.contains c s); split; congruence.
Qed.

Lemma contains_app c a b :
  Str.contains c (a ++ b) = Str.contains c a || Str.contains c b.
Proof.
  induction a as [|d a IH]; simpl; [reflexivity|].
  rewrite IH, orb_assoc. reflexivity.
Qed.

Lemma contains_incl c a s :
  incl a s -> Str.contains c s = false -> Str.contains c a = false.
Proof.
  intros Hi Hs. apply contains_false. apply contains_false in Hs. auto.
Qed.

Lemma contains_forallb (p : char -> bool) c s :
  forallb p s = true -> p c = false -> Str.contains c s = false.
Proof.
  intros Hall Hc. apply contains_false. intros Hin.
  rewrite forallb_forall in Hall. apply Hall in Hin. congruence.
Qed.

Lemma incl_firstn {A} n (l : list A) : incl (firstn n l) l.
Proof.
  intros x Hx. rewrite <- (firstn_skipn n l). apply in_or_app. auto.
Qed.

Lemma incl_skipn {A} n (l : list A) : incl (skipn n l) l.
Proof.
  intros x Hx. rewrite <- (firstn_skipn n l). apply in_or_app. auto.
Qed.

Lemma partition_spec c s a f b :
  Str.partition c s = (a, f, b) ->
  Str.contains c a = false
  /\ (f = true -> s = a ++ c :: b)
  /\ (f = false -> s = a /\ b = []).
Proof.
  revert a f b. induction s as [|d s IH]; simpl; intros a f b Heq.
  - inversion Heq; subst. repeat split; auto; discriminate.
  - destruct (N.eqb d c) eqn:Hd.
    + apply N.eqb_eq in Hd. inversion Heq; subst.
      repeat split; auto; discriminate.
    + destruct (Str.partition c s) as [[a' f'] b'].
      destruct (IH a' f' b' eq_refl) as [Ha [Ht Hf]].
      inversion Heq; subst. simpl. rewrite Hd, Ha. repeat split; auto.
      * intros E. rewrite (Ht E) at 1. reflexivity.
      * destruct (Hf H) as [E _]. rewrite E at 1. reflexivity.
      * apply Hf. assumption.
Qed.

Lemma partition_found c s :
  Str.contains c s = snd (fst (Str.partition c s)).
Proof.
  induction s as [|d s IH]; simpl; [reflexivity|].
  destruct (N.eqb d c); simpl; [reflexivity|].
  destruct (Str.partition c s) as [[a f] b]. simpl in *. exact IH.
Qed.

Lemma partition_none c s :
  Str.contains c s = false -> Str.partition c s = (s, false, []).
Proof.
  induction s as [|d s IH]; simpl; [reflexivity|].
  intros H. apply orb_false_iff in H. destruct H as [Hd Hs].
  rewrite Hd, (IH Hs). reflexivity.
Qed.

Lemma partition_app c a b :
  Str.contains c a = false -> Str.partition c (a ++ c :: b) = (a, true, b).
Proof.
  induction a as [|d a IH]; simpl.
  - intros _. rewrite N.eqb_refl. reflexivity.
  - intros H. apply orb_false_iff in H. destruct H as [Hd Ha].
    rewrite Hd, (IH Ha). reflexivity.
Qed.

Lemma rpartition_none c s :
  Str.contains c s = false -> Str.rpartition c s = ([], false, s).
Proof.
  induction s as [|d s IH]; simpl; [reflexivity|].
  intros H. apply orb_false_iff in H. destruct H as [Hd Hs].
  rewrite (IH Hs), Hd. reflexivity.
Qed.

Lemma rpartition_spec c s a f b :
  Str.rpartition c s = (a, f, b) ->
  Str.contains c b = false
  /\ (f = true -> s = a ++ c :: b)
  /\ (f = false -> b = s /\ a = []).
Proof.
  revert a f b. induction s as [|d s IH]; simpl; intros a f b Heq.
  - inversion Heq; subst. repeat split; auto; discriminate.
  - destruct (Str.rpartition c s) as [[a' f'] b'].
    destruct (IH a' f' b' eq_refl) as [Hb [Ht Hf]].
    destruct f'.
    + inversion Heq; subst. repeat split; auto; try discriminate.
      intros _. rewrite (Ht eq_refl) at 1. reflexivity.
    + destruct (Hf eq_refl) as [-> ->].
      destruct (N.eqb d c) eqn:Hd; inversion Heq; subst.
      * apply N.eqb_eq in Hd. subst d. repeat split; auto; discriminate.
      * simpl. rewrite Hd, Hb. repeat split; auto; discriminate.
Qed.

Lemma find_none c s : Str.contains c s = false -> Str.find c s = None.
Proof.
  induction s as [|d s IH]; simpl; [reflexivity|].
  intros H. apply orb_false_iff in H. destruct H as [Hd Hs].
  rewrite Hd, (IH Hs). reflexivity.
Qed.

Lemma find_app c a b :
  Str.contains c a = false -> Str.find c (a ++ c :: b) = Some (length a).
Proof.
  induction a as [|d a IH]; simpl.
  - intros _. rewrite N.eqb_refl. reflexivity.
  - intros H. apply orb_false_iff in H. destruct H as [Hd Ha].
    rewrite Hd, (IH Ha). reflexivity.
Qed.

Lemma find_some c s i :
  Str.find c s = Some i ->
  exists a b, s = a ++ c :: b /\ length a = i /\ Str.contains c a = false.
Proof.
  revert i. induction s as [|d s IH]; simpl; intros i; [discriminate|].
  destruct (N.eqb d c) eqn:Hd.
  - apply N.eqb_eq in Hd. subst d. intros Heq; inversion Heq; subst.
    exists [], s. auto.
  - destruct (Str.find c s) as [j|]; [|discriminate].
    intros Heq; inversion Heq; subst.
    destruct (IH j eq_refl) as [a [b [-> [Hl Ha]]]].
    exists (d :: a), b. simpl. rewrite Hd, Ha, Hl. auto.
Qed.

Lemma find_contains c s : Str.find c s = None -> Str.contains c s = false.
Proof.
  induction s as [|d s IH]; simpl; [reflexivity|].
  destruct (N.eqb d c); [discriminate|].
  destruct (Str.find c s); [discriminate|]. intros _. simpl. auto.
Qed.

Lemma remove_none c s : Str.contains c s = false -> Str.remove c s = s.
Proof.
  unfold Str.remove. induction s as [|d s IH]; simpl; [reflexivity|].
  intros H. apply orb_false_iff in H. destruct H as [Hd Hs].
  rewrite Hd. simpl. rewrite (IH Hs). reflexivity.
Qed.

Lemma remove_contains c s : Str.contains c (Str.remove c s) = false.
Proof.
  unfold Str.remove. induction s as [|d s IH]; simpl; [reflexivity|].
  destruct (N.eqb d c) eqn:Hd; simpl; [assumption|].
  rewrite Hd. assumption.
Qed.

Lemma incl_remove c s : incl (Str.remove c s) s.
Proof. unfold Str.remove. intros x Hx. apply filter_In in Hx. tauto. Qed.

Lemma incl_lstrip p s : incl (Str.lstrip p s) s.
Proof.
  induction s as [|d s IH]; simpl; [apply incl_refl|].
  destruct (p d); [apply incl_tl; assumption | apply incl_refl].
Qed.

End StrLemmas.

(** ** [_splitnetloc] cuts at the first delimiter *)

Section SplitNetloc.
Import Urllib.

Lemma find_cons c d s :
  Str.find c (d :: s)
  = if N.eqb d c then Some 0
    else match Str.find c s with Some i => Some (S i) | None => None end.
Proof. reflexivity. Qed.

Lemma splitnetloc_delim v :
  fold_left
    (fun delim c =>
       match Str.find c v with
       | Some wdelim => Nat.min delim wdelim
       | None => delim
       end)
    [ch "/"; ch "?"; ch "#"] (length v)
  = netloc_end v.
Proof.
  induction v as [|d v IH]; [reflexivity|].
  cbn [fold_left netloc_end] in *. rewrite !find_cons. unfold is_delim.
  destruct (N.eqb d (ch "/")) eqn:H1; cbn [orb].
  { destruct (N.eqb d (ch "?")), (N.eqb d (ch "#"));
      repeat match goal with
             | |- context [match Str.find ?c ?s with _ => _ end] =>
                 destruct (Str.find c s)
             end; cbn [length]; lia. }
  destruct (N.eqb d (ch "?")) eqn:H2; cbn [orb].
  { destruct (N.eqb d (ch "#"));
      repeat match goal with
             | |- context [match Str.find ?c ?s with _ => _ end] =>
                 destruct (Str.find c s)
             end; cbn [length]; lia. }
  destruct (N.eqb d (ch "#")) eqn:H3; cbn [orb].
  { repeat match goal with
           | |- context [match Str.find ?c ?s with _ => _ end] =>
               destruct (Str.find c s)
           end; cbn [length]; lia. }
  rewrite <- IH.
  repeat match goal with
         | |- context [match Str.find ?c ?s with _ => _ end] =>
             destruct (Str.find c s)
         end; cbn [length]; lia.
Qed.

Lemma splitnetloc_eq v :
  _splitnetloc (ch "/" :: ch "/" :: v) 2
  = (firstn (netloc_end v) v, skipn (netloc_end v) v).
Proof.
  unfold _splitnetloc.
  set (f := fun delim c =>
              match Str.find_from c (ch "/" :: ch "/" :: v) 2 with
              | Some wdelim => Nat.min delim wdelim
              | None => delim
              end).
  assert (Hd : fold_left f [ch "/"; ch "?"; ch "#"]
                 (length (ch "/" :: ch "/" :: v))
               = S (S (netloc_end v))).
  { rewrite <- splitnetloc_delim. subst f. unfold Str.find_from.
    cbn [fold_left skipn length].
    repeat match goal with
           | |- context [match Str.find ?c v with _ => _ end] =>
               destruct (Str.find c v)
           end; lia. }
  rewrite Hd. reflexivity.
Qed.

Lemma netloc_end_firstn v :
  forallb (fun c => negb (is_delim c)) (firstn (netloc_end v) v) = true.
Proof.
  induction v as [|d v IH]; simpl; [reflexivity|].
  destruct (is_delim d) eqn:Hd; simpl; [reflexivity|]. rewrite Hd. exact IH.
Qed.

Lemma netloc_end_skipn v :
  starts_with_one_of is_delim (skipn (netloc_end v) v).
Proof.
  induction v as [|d v IH]; simpl; [exact I|].
  destruct (is_delim d) eqn:Hd; simpl; [exact Hd | exact IH].
Qed.

Lemma netloc_end_app a tail :
  forallb (fun c => negb (is_delim c)) a = true ->
  starts_with_one_of is_delim tail ->
  netloc_end (a ++ tail) = length a.
Proof.
  intros Ha Ht. induction a as [|d a IH]; simpl in *.
  - destruct tail as [|c t]; simpl in *; [reflexivity|]. rewrite Ht. reflexivity.
  - apply andb_true_iff in Ha. destruct Ha as [Hd Ha].
    apply negb_true_iff in Hd. rewrite Hd, (IH Ha). reflexivity.
Qed.

Lemma splitnetloc_app a tail :
  forallb (fun c => negb (is_delim c)) a = true ->
  starts_with_one_of is_delim tail ->
  _splitnetloc (ch "/" :: ch "/" :: a ++ tail) 2 = (a, tail).
Proof.
  intros Ha Ht. rewrite splitnetloc_eq, (netloc_end_app _ _ Ha Ht).
  rewrite firstn_app, Nat.sub_diag, firstn_all, firstn_O, app_nil_r.
  rewrite skipn_app, Nat.sub_diag, skipn_all. reflexivity.
Qed.

End SplitNetloc.

(** ** The result of [urlsplit] *)

Section UrlsplitInv.
Import Urllib.
Context {U : Unicode}.

Lemma urlsplit_eq url :
  urlsplit url
  = let '(scheme, rest) := split_scheme (cleaned url) in
    '(netloc, url3) <-
      (if Str.eqb (firstn 2 rest) (py "//") then
         let '(netloc, url3) := _splitnetloc rest 2 in
         _ <- check_brackets netloc ;;
         Return (netloc, url3)
       else Return ([], rest)) ;;
    let '(path, query, fragment) := split_tail url3 in
    _ <- _checknetloc netloc ;;
    Return (mkSplit scheme netloc path query fragment).
Proof.
  unfold urlsplit, cleaned, split_tail.
  destruct (split_scheme _) as [scheme rest].
  destruct (Str.eqb (firstn 2 rest) (py "//")).
  - destruct (_splitnetloc rest 2) as [netloc url3].
    destruct (check_brackets netloc) as [[]|e]; [|reflexivity].
    cbn [bind].
    destruct (Str.contains (ch "#") url3).
    + destruct (Str.partition (ch "#") url3) as [[a f] b].
      destruct (Str.contains (ch "?") a); [|reflexivity].
      destruct (Str.partition (ch "?") a) as [[a' f'] b']. reflexivity.
    + destruct (Str.contains (ch "?") url3); [|reflexivity].
      destruct (Str.partition (ch "?") url3) as [[a' f'] b']. reflexivity.
  - cbn [bind].
    destruct (Str.contains (ch "#") rest).
    + destruct (Str.partition (ch "#") rest) as [[a f] b].
      destruct (Str.contains (ch "?") a); [|reflexivity].
      destruct (Str.partition (ch "?") a) as [[a' f'] b']. reflexivity.
    + destruct (Str.contains (ch "?") rest); [|reflexivity].
      destruct (Str.partition (ch "?") rest) as [[a' f'] b']. reflexivity.
Qed.

Lemma clean_incl a s : incl a s -> clean s -> clean a.
Proof. intros Hi Hs c Hc. eapply contains_incl; eauto. Qed.

Lemma cleaned_clean url : clean (cleaned url).
Proof.
  unfold cleaned, _UNSAFE_URL_BYTES_TO_REMOVE. cbn [fold_left].
  set (s := Str.lstrip is_c0_control_or_space url).
  intros c [<-|[<-|[<-|[]]]].
  - eapply contains_incl; [|apply (remove_contains 9%N s)].
    eapply incl_tran; apply incl_remove.
  - eapply contains_incl; [|apply (remove_contains 13%N (Str.remove 9%N s))].
    apply incl_remove.
  - apply remove_contains.
Qed.

Lemma partition_incl c s a f b :
  Str.partition c s = (a, f, b) -> incl a s /\ incl b s.
Proof.
  intros Hp. destruct (partition_spec _ _ _ _ _ Hp) as [_ [Ht Hf]].
  destruct f.
  - rewrite (Ht eq_refl). split.
    + apply incl_appl, incl_refl.
    + apply incl_appr, incl_tl, incl_refl.
  - destruct (Hf eq_refl) as [-> ->]. split; [apply incl_refl|].
    intros x [].
Qed.

Lemma starts_prefix (P : char -> bool) a b :
  starts_with_one_of P (a ++ b) -> starts_with_one_of P a.
Proof. destruct a; simpl; auto. Qed.

Lemma head_slash p :
  starts_with_one_of is_delim p ->
  Str.contains (ch "?") p = false -> Str.contains (ch "#") p = false ->
  starts_with_one_of (N.eqb (ch "/")) p.
Proof.
  destruct p as [|x p]; [auto|]. cbn [starts_with_one_of Str.contains].
  unfold is_delim. intros Hd Hq Hh.
  apply orb_false_iff in Hq, Hh. destruct Hq as [Hq _]. destruct Hh as [Hh _].
  rewrite Hq, Hh, !orb_false_r in Hd. rewrite N.eqb_sym. exact Hd.
Qed.

Lemma split_tail_spec t p q f :
  split_tail t = (p, q, f) ->
  Str.contains (ch "?") p = false /\ Str.contains (ch "#") p = false
  /\ Str.contains (ch "#") q = false
  /\ incl p t /\ incl q t /\ incl f t
  /\ (starts_with_one_of is_delim t -> starts_with_one_of (N.eqb (ch "/")) p).
Proof.
  unfold split_tail.
  destruct (Str.contains (ch "#") t) eqn:Hh.
  - destruct (Str.partition (ch "#") t) as [[a fa] b] eqn:Ha.
    destruct (partition_spec _ _ _ _ _ Ha) as [Hna [Hta _]].
    destruct (partition_incl _ _ _ _ _ Ha) as [Hia Hib].
    rewrite partition_found, Ha in Hh. simpl in Hh. subst fa.
    specialize (Hta eq_refl).
    destruct (Str.contains (ch "?") a) eqn:Hq.
    + destruct (Str.partition (ch "?") a) as [[a' fq] b'] eqn:Hb.
      destruct (partition_spec _ _ _ _ _ Hb) as [Hna' [Htb _]].
      destruct (partition_incl _ _ _ _ _ Hb) as [Hia' Hib'].
      rewrite partition_found, Hb in Hq. simpl in Hq. subst fq.
      specialize (Htb eq_refl).
      assert (Hh' : Str.contains (ch "#") a' = false)
        by (eapply contains_incl; eauto).
      intros Heq; inversion Heq; subst p q f.
      repeat split; auto.
      * eapply contains_incl; eauto.
      * eapply incl_tran; eauto.
      * eapply incl_tran; eauto.
      * intros Hd. apply head_slash; auto.
        rewrite Hta, Htb, <- !app_assoc in Hd. eapply starts_prefix; eauto.
    + intros Heq; inversion Heq; subst p q f.
      repeat split; auto.
      * intros x [].
      * intros Hd. apply head_slash; auto.
        rewrite Hta in Hd. eapply starts_prefix; eauto.
  - destruct (Str.contains (ch "?") t) eqn:Hq.
    + destruct (Str.partition (ch "?") t) as [[a' fq] b'] eqn:Hb.
      destruct (partition_spec _ _ _ _ _ Hb) as [Hna' [Htb _]].
      destruct (partition_incl _ _ _ _ _ Hb) as [Hia' Hib'].
      rewrite partition_found, Hb in Hq. simpl in Hq. subst fq.
      specialize (Htb eq_refl).
      assert (Hh' : Str.contains (ch "#") a' = false)
        by (eapply contains_incl; eauto).
      intros Heq; inversion Heq; subst p q f.
      repeat split; auto.
      * eapply contains_incl; eauto.
      * intros x [].
      * intros Hd. apply head_slash; auto.
        rewrite Htb in Hd. eapply starts_prefix; eauto.
    + intros Heq; inversion Heq; subst p q f.
      repeat split; auto; try apply incl_refl; try (intros x []).
      intros Hd. apply head_slash; auto.
Qed.

End UrlsplitInv.

(** ** Characters *)

Ltac eval_ch :=
  repeat match goal with
         | |- context [ch ?a] =>
             let v := eval vm_compute in (ch a) in change (ch a) with v
         | H : context [ch ?a] |- _ =>
             let v := eval vm_compute in (ch a) in change (ch a) with v in H
         end.

Ltac bool_hyps :=
  repeat match goal with
         | H : _ && _ = true |- _ => apply andb_true_iff in H; destruct H
         | H : _ || _ = false |- _ => apply orb_false_iff in H; destruct H
         | H : _ || _ = true |- _ => apply orb_true_iff in H; destruct H
         | H : _ && _ = false |- _ => apply andb_false_iff in H; destruct H
         | H : negb _ = true |- _ => apply negb_true_iff in H
         | H : negb _ = false |- _ => apply negb_false_iff in H
         | H : N.leb _ _ = true |- _ => apply N.leb_le in H
         | H : N.leb _ _ = false |- _ => apply N.leb_gt in H
         | H : N.ltb _ _ = true |- _ => apply N.ltb_lt in H
         | H : N.ltb _ _ = false |- _ => apply N.ltb_ge in H
         | H : N.eqb _ _ = true |- _ => apply N.eqb_eq in H
         | H : N.eqb _ _ = false |- _ => apply N.eqb_neq in H
         end.

(** Decide a boolean fact about a code point from bounds on it. *)
Ltac char_facts :=
  eval_ch;
  repeat match goal with
         | |- context [N.leb ?a ?b] => destruct (N.leb a b) eqn:?
         | |- context [N.ltb ?a ?b] => destruct (N.ltb a b) eqn:?
         | |- context [N.eqb ?a ?b] => destruct (N.eqb a b) eqn:?
         end;
  cbn [andb orb negb] in *; bool_hyps;
  first [reflexivity | discriminate | lia | exfalso; lia | idtac].

Section Chars.

Lemma lower_char_idem c : Str.lower_char (Str.lower_char c) = Str.lower_char c.
Proof.
  unfold Str.lower_char, Str.is_ascii_upper.
  destruct (N.leb 65 c && N.leb c 90) eqn:Hu; [|rewrite Hu; reflexivity].
  bool_hyps. char_facts.
Qed.

Lemma ascii_lower_idem s : Str.ascii_lower (Str.ascii_lower s) = Str.ascii_lower s.
Proof.
  unfold Str.ascii_lower. rewrite map_map. apply map_ext.
  intros c. apply lower_char_idem.
Qed.

Lemma scheme_char_ascii c :
  Urllib.is_scheme_char c = true -> N.ltb (Str.lower_char c) 128 = true.
Proof.
  unfold Urllib.is_scheme_char, Str.is_ascii_alpha, Str.is_ascii_upper,
    Str.is_ascii_lower, Str.is_ascii_digit, Str.lower_char, Str.is_ascii_upper.
  intros H. eval_ch. bool_hyps; subst; char_facts.
Qed.

Lemma hostname_char_lower c :
  hostname_char c = true -> Str.lower_char c = c.
Proof.
  unfold hostname_char, IdnaEncode.is_pvalid_ascii, Str.is_ascii_digit,
    Str.is_ascii_lower, Str.lower_char, Str.is_ascii_upper.
  intros H. eval_ch. bool_hyps; subst; char_facts.
Qed.

Lemma hostname_char_ascii c : hostname_char c = true -> N.ltb c 128 = true.
Proof.
  unfold hostname_char, IdnaEncode.is_pvalid_ascii, Str.is_ascii_digit,
    Str.is_ascii_lower.
  intros H. eval_ch. bool_hyps; subst; char_facts.
Qed.

Lemma hostname_chars_lower s :
  forallb hostname_char s = true -> Str.ascii_lower s = s.
Proof.
  induction s as [|c s IH]; simpl; [reflexivity|].
  intros H. apply andb_true_iff in H. destruct H as [Hc Hs].
  rewrite (hostname_char_lower _ Hc), (IH Hs). reflexivity.
Qed.

Lemma hostname_chars_ascii s :
  forallb hostname_char s = true -> Str.isascii s = true.
Proof.
  unfold Str.isascii. induction s as [|c s IH]; simpl; [reflexivity|].
  intros H. apply andb_true_iff in H. destruct H as [Hc Hs].
  rewrite (hostname_char_ascii _ Hc), (IH Hs). reflexivity.
Qed.

Lemma digits_are_digits fuel n :
  forallb Str.is_ascii_digit (Str.digits fuel 10 n) = true.
Proof.
  revert n. induction fuel as [|fuel IH]; intros n; simpl; [reflexivity|].
  destruct (N.ltb n 10) eqn:Hn.
  - simpl. rewrite andb_true_r. unfold Str.digit_char, Str.is_ascii_digit.
    rewrite Hn. bool_hyps. char_facts.
  - rewrite forallb_app, IH. simpl. rewrite andb_true_r.
    assert (Hm : (N.modulo n 10 < 10)%N) by (apply N.mod_lt; discriminate).
    generalize dependent (N.modulo n 10). intros m Hm.
    unfold Str.digit_char, Str.is_ascii_digit.
    destruct (N.ltb m 10) eqn:Hlt; bool_hyps; [|lia].
    char_facts.
Qed.

Lemma digit_hostname_char c :
  Str.is_ascii_digit c = true -> hostname_char c = true.
Proof.
  unfold hostname_char, IdnaEncode.is_pvalid_ascii. intros ->.
  rewrite orb_true_r. reflexivity.
Qed.

End Chars.

(** ** The invariant of [urlsplit] *)

Section UrlsplitInv2.
Import Urllib.
Context {U : Unicode}.

Lemma split_scheme_spec u sch rest :
  split_scheme u = (sch, rest) ->
  incl rest u /\ Str.isascii sch = true /\ Str.ascii_lower sch = sch.
Proof.
  unfold split_scheme.
  assert (Hnil : incl u u /\ Str.isascii [] = true /\ Str.ascii_lower [] = [])
    by (repeat split; apply incl_refl).
  destruct (Str.find (ch ":") u) as [i|];
    [|intros Heq; inversion Heq; subst; exact Hnil].
  destruct (Nat.ltb 0 i && _);
    [|intros Heq; inversion Heq; subst; exact Hnil].
  destruct (forallb is_scheme_char (firstn i u)) eqn:Hall;
    [|intros Heq; inversion Heq; subst; exact Hnil].
  intros Heq. injection Heq as <- <-. split; [apply (incl_skipn (S i) u)|]. split.
  - clear Hnil. unfold Str.isascii, Str.ascii_lower.
    induction (firstn i u) as [|c l IH]; simpl in *; [reflexivity|].
    apply andb_true_iff in Hall. destruct Hall as [Hc Hl].
    rewrite (scheme_char_ascii _ Hc), (IH Hl). reflexivity.
  - apply ascii_lower_idem.
Qed.

Lemma firstn_2_eq (s : str) a b :
  firstn 2 s = [a; b] -> s = a :: b :: skipn 2 s.
Proof.
  destruct s as [|x [|y s]]; simpl; intros Heq; inversion Heq. reflexivity.
Qed.

Lemma urlsplit_inv url r : urlsplit url = Return r -> split_inv U r.
Proof.
  rewrite urlsplit_eq.
  destruct (split_scheme (cleaned url)) as [sch rest] eqn:Hs.
  destruct (split_scheme_spec _ _ _ Hs) as [Hrest [Hasc Hlow]].
  assert (Hclean : clean rest) by (eapply clean_incl; eauto using cleaned_clean).
  destruct (Str.eqb (firstn 2 rest) (py "//")) eqn:Hslash.
  - apply eqb_eq in Hslash. apply firstn_2_eq in Hslash.
    set (v := skipn 2 rest) in *. rewrite Hslash, splitnetloc_eq.
    destruct (check_brackets (firstn (netloc_end v) v)) as [[]|e] eqn:Hb;
      [|discriminate].
    cbn [bind].
    destruct (split_tail (skipn (netloc_end v) v)) as [[p q] f] eqn:Ht.
    destruct (_checknetloc (firstn (netloc_end v) v)) as [[]|e] eqn:Hc;
      [|discriminate].
    cbn [bind]. intros Heq; inversion Heq; subst r.
    destruct (split_tail_spec _ _ _ _ Ht) as [Hp1 [Hp2 [Hq [Hip [Hiq [Hif Hhead]]]]]].
    assert (Hv : incl v rest) by apply incl_skipn.
    assert (Htail : incl (skipn (netloc_end v) v) rest)
      by (eapply incl_tran; [apply incl_skipn | exact Hv]).
    constructor; cbn [s_scheme s_netloc s_path s_query s_fragment]; auto.
    + repeat split; eapply clean_incl; try exact Hclean.
      * eapply incl_tran; [apply incl_firstn | exact Hv].
      * eapply incl_tran; eauto.
      * eapply incl_tran; eauto.
      * eapply incl_tran; eauto.
    + apply netloc_end_firstn.
    + intros _. apply Hhead, netloc_end_skipn.
  - cbn [bind].
    destruct (split_tail rest) as [[p q] f] eqn:Ht.
    cbn [_checknetloc Str.is_empty orb bind].
    intros Heq; inversion Heq; subst r.
    destruct (split_tail_spec _ _ _ _ Ht) as [Hp1 [Hp2 [Hq [Hip [Hiq [Hif Hhead]]]]]].
    constructor; cbn [s_scheme s_netloc s_path s_query s_fragment]; auto;
      try (intros Hne; contradiction).
    repeat split; try (eapply clean_incl; [|exact Hclean]; assumption);
      intros c Hc; reflexivity.
Qed.

End UrlsplitInv2.

(** ** Splitting what [urlunsplit] put together *)

Section Reparse.
Import Urllib.
Context {U : Unicode}.

Lemma split_tail_app p q f :
  Str.contains (ch "?") p = false -> Str.contains (ch "#") p = false ->
  Str.contains (ch "#") q = false ->
  split_tail (p ++ with_sep (ch "?") q ++ with_sep (ch "#") f) = (p, q, f).
Proof.
  intros Hp1 Hp2 Hq. unfold split_tail, with_sep.
  destruct f as [|x f]; destruct q as [|y q]; cbn [Str.is_empty app];
    rewrite ?app_nil_r.
  - rewrite Hp2, Hp1. reflexivity.
  - rewrite contains_app, Hp2.
    replace (Str.contains (ch "#") (ch "?" :: y :: q)) with false
      by (symmetry; exact Hq).
    cbn [orb]. rewrite contains_app, Hp1.
    replace (Str.contains (ch "?") (ch "?" :: y :: q)) with true by reflexivity.
    cbn [orb]. rewrite (partition_app _ _ _ Hp1). reflexivity.
  - rewrite contains_app, Hp2.
    replace (Str.contains (ch "#") (ch "#" :: x :: f)) with true by reflexivity.
    cbn [orb]. rewrite (partition_app _ _ _ Hp2), Hp1. reflexivity.
  - assert (Ha : Str.contains (ch "#") (p ++ ch "?" :: y :: q) = false).
    { rewrite contains_app, Hp2. exact Hq. }
    replace (p ++ ch "?" :: y :: q ++ ch "#" :: x :: f)
      with ((p ++ ch "?" :: y :: q) ++ ch "#" :: x :: f)
      by (rewrite <- app_assoc; reflexivity).
    rewrite contains_app, Ha.
    replace (Str.contains (ch "#") (ch "#" :: x :: f)) with true by reflexivity.
    cbn [orb]. rewrite (partition_app _ _ _ Ha).
    rewrite contains_app, Hp1.
    replace (Str.contains (ch "?") (ch "?" :: y :: q)) with true by reflexivity.
    cbn [orb]. rewrite (partition_app _ _ _ Hp1). reflexivity.
Qed.

Lemma urlunsplit_eq s n p q f :
  n <> [] -> s <> [] -> starts_with_one_of (N.eqb (ch "/")) p ->
  urlunsplit (mkSplit s n p q f)
  = s ++ ch ":" :: ch "/" :: ch "/" :: n
      ++ p ++ with_sep (ch "?") q ++ with_sep (ch "#") f.
Proof.
  intros Hn Hs Hp. unfold urlunsplit, with_sep.
  apply is_empty_false in Hn, Hs. rewrite Hn, Hs. cbn [negb orb].
  assert (Hhead : negb (Str.is_empty p) && negb (Str.eqb (firstn 1 p) (py "/"))
                  = false).
  { destruct p as [|x p]; [reflexivity|]. cbn [starts_with_one_of] in Hp.
    apply N.eqb_eq in Hp. subst x. reflexivity. }
  rewrite Hhead.
  destruct (Str.is_empty q), (Str.is_empty f); cbn [negb app];
    rewrite <- ?app_assoc; cbn [app]; rewrite <- ?app_assoc, ?app_nil_r;
    cbn [app]; rewrite <- ?app_assoc; reflexivity.
Qed.

Lemma clean_app a b : clean a -> clean b -> clean (a ++ b).
Proof.
  intros Ha Hb c Hc. rewrite contains_app, (Ha c Hc), (Hb c Hc). reflexivity.
Qed.

Lemma clean_cons x b :
  Str.contains x _UNSAFE_URL_BYTES_TO_REMOVE = false -> clean b -> clean (x :: b).
Proof.
  intros Hx Hb c Hc. cbn [Str.contains]. rewrite (Hb c Hc), orb_false_r.
  apply N.eqb_neq. intros ->. apply contains_false in Hx. contradiction.
Qed.

Lemma clean_nil : clean [].
Proof. intros c _. reflexivity. Qed.

Lemma clean_with_sep sep s :
  Str.contains sep _UNSAFE_URL_BYTES_TO_REMOVE = false -> clean s ->
  clean (with_sep sep s).
Proof.
  intros Hsep Hs. unfold with_sep.
  destruct (Str.is_empty s); [apply clean_nil | apply clean_cons; assumption].
Qed.

Lemma cleaned_id x s :
  is_c0_control_or_space x = false -> clean (x :: s) -> cleaned (x :: s) = x :: s.
Proof.
  intros Hx Hc. unfold cleaned, _UNSAFE_URL_BYTES_TO_REMOVE.
  cbn [Str.lstrip fold_left]. rewrite Hx.
  rewrite (remove_none 9%N) by (apply Hc; simpl; auto).
  rewrite (remove_none 13%N) by (apply Hc; simpl; auto).
  rewrite (remove_none 10%N) by (apply Hc; simpl; auto).
  reflexivity.
Qed.

Lemma forallb_with_sep (P : char -> bool) sep s :
  P sep = true -> forallb P s = true -> forallb P (with_sep sep s) = true.
Proof.
  intros Hsep Hs. unfold with_sep. destruct (Str.is_empty s); [reflexivity|].
  simpl. rewrite Hsep, Hs. reflexivity.
Qed.

Lemma starts_tail p q f :
  starts_with_one_of (N.eqb (ch "/")) p ->
  starts_with_one_of is_delim
    (p ++ with_sep (ch "?") q ++ with_sep (ch "#") f).
Proof.
  unfold with_sep. destruct p as [|x p]; cbn [starts_with_one_of app].
  - intros _. destruct q; cbn [Str.is_empty app]; [|reflexivity].
    destruct f; cbn [Str.is_empty]; [exact I | reflexivity].
  - intros Hx. apply N.eqb_eq in Hx. subst x. reflexivity.
Qed.

Lemma urlsplit_urlunsplit r :
  split_inv U r -> http_or_https (s_scheme r) -> s_netloc r <> [] ->
  urlsplit (urlunsplit r) = Return r.
Proof.
  destruct r as [s n p q f]. intros [Hclean Hnet Hbr Hck Hhead Hpath Hquery _].
  cbn [s_scheme s_netloc s_path s_query s_fragment] in *.
  intros Hs Hn. specialize (Hhead Hn).
  destruct Hclean as [Hcn [Hcp [Hcq Hcf]]]. destruct Hpath as [Hp1 Hp2].
  assert (Hs' : s <> []) by (destruct Hs as [-> | ->]; discriminate).
  rewrite (urlunsplit_eq _ _ _ _ _ Hn Hs' Hhead), urlsplit_eq.
  set (tail := p ++ with_sep (ch "?") q ++ with_sep (ch "#") f).
  assert (Htc : clean (ch "/" :: ch "/" :: n ++ tail)).
  { apply clean_cons; [reflexivity|]. apply clean_cons; [reflexivity|].
    apply clean_app; [assumption|]. apply clean_app; [assumption|].
    apply clean_app; apply clean_with_sep; auto. }
  assert (Hsplit : split_scheme (cleaned (s ++ ch ":" :: ch "/" :: ch "/" :: n ++ tail))
                   = (s, ch "/" :: ch "/" :: n ++ tail)).
  { destruct Hs as [-> | ->].
    - change (py "http" ++ ch ":" :: ch "/" :: ch "/" :: n ++ tail)
        with (ch "h" :: py "ttp:" ++ ch "/" :: ch "/" :: n ++ tail).
      rewrite cleaned_id; [reflexivity | reflexivity |].
      apply clean_cons; [reflexivity|]. apply clean_app; [|assumption].
      intros c [<-|[<-|[<-|[]]]]; reflexivity.
    - change (py "https" ++ ch ":" :: ch "/" :: ch "/" :: n ++ tail)
        with (ch "h" :: py "ttps:" ++ ch "/" :: ch "/" :: n ++ tail).
      rewrite cleaned_id; [reflexivity | reflexivity |].
      apply clean_cons; [reflexivity|]. apply clean_app; [|assumption].
      intros c [<-|[<-|[<-|[]]]]; reflexivity. }
  rewrite Hsplit.
  replace (Str.eqb (firstn 2 (ch "/" :: ch "/" :: n ++ tail)) (py "//"))
    with true by reflexivity.
  rewrite (splitnetloc_app n tail Hnet (starts_tail p q f Hhead)), Hbr.
  cbn [bind]. unfold tail. rewrite (split_tail_app _ _ _ Hp1 Hp2 Hquery), Hck.
  reflexivity.
Qed.

End Reparse.

(** ** Parameters *)

Section Params.
Import Urllib.

Lemma firstn_length_app {A} (a b : list A) : firstn (length a) (a ++ b) = a.
Proof. induction a; simpl; [destruct b; reflexivity | congruence]. Qed.

Lemma skipn_length_app {A} (a b : list A) : skipn (length a) (a ++ b) = b.
Proof. induction a; simpl; auto. Qed.

Lemma rfind_lt c s r : Str.rfind c s = Some r -> r < length s.
Proof.
  revert r. induction s as [|d s IH]; simpl; intros r; [discriminate|].
  destruct (Str.rfind c s) as [i|].
  - intros Heq; inversion Heq; subst. specialize (IH i eq_refl). lia.
  - destruct (N.eqb d c); intros Heq; inversion Heq. lia.
Qed.

Lemma rfind_contains c s r : Str.rfind c s = Some r -> Str.contains c s = true.
Proof.
  revert r. induction s as [|d s IH]; simpl; intros r; [discriminate|].
  destruct (Str.rfind c s) as [i|].
  - intros _. rewrite (IH i eq_refl). apply orb_true_r.
  - destruct (N.eqb d c); [reflexivity | discriminate].
Qed.

Lemma rfind_app_single c s x :
  N.eqb x c = false -> Str.rfind c (s ++ [x]) = Str.rfind c s.
Proof.
  intros Hx. induction s as [|d s IH]; simpl.
  - rewrite Hx. reflexivity.
  - rewrite IH. reflexivity.
Qed.

Lemma contains_app_single c s x :
  N.eqb x c = false -> Str.contains c (s ++ [x]) = Str.contains c s.
Proof.
  intros Hx. rewrite contains_app. simpl. rewrite Hx, !orb_false_r. reflexivity.
Qed.

(** Where [_splitparams] cuts: at a semicolon after which comes the
    parameter string, or nowhere. *)
Lemma splitparams_spec u p pa :
  Str.contains (ch ";") u = true ->
  _splitparams u = (p, pa) ->
  (u = p ++ ch ";" :: pa \/ (u = p /\ pa = []))
  /\ (pa = [] -> Str.contains (ch ";") p = true -> _splitparams p = (p, [])).
Proof.
  intros Hsemi. unfold _splitparams.
  destruct (Str.contains (ch "/") u) eqn:Hslash.
  - destruct (Str.rfind (ch "/") u) as [r|] eqn:Hr.
    2:{ intros Heq; inversion Heq; subst. split; [auto|].
        intros _ _. rewrite Hslash, Hr. reflexivity. }
    unfold Str.find_from.
    destruct (Str.find (ch ";") (skipn r u)) as [k|] eqn:Hk.
    2:{ intros Heq; inversion Heq; subst. split; [auto|].
        intros _ _. rewrite Hslash, Hr. unfold Str.find_from. rewrite Hk.
        reflexivity. }
    destruct (find_some _ _ _ Hk) as [a [b [Hab [Hla Ha]]]].
    pose proof (rfind_lt _ _ _ Hr) as Hlt.
    assert (Hpre : length (firstn r u) = r) by (rewrite length_firstn; lia).
    assert (Hu : u = (firstn r u ++ a) ++ ch ";" :: b).
    { rewrite <- app_assoc, <- Hab. symmetry. apply firstn_skipn. }
    assert (Hlen : length (firstn r u ++ a) = r + k)
      by (rewrite length_app; lia).
    intros Heq. injection Heq as Hp Hpa.
    change (skipn (S (r + k)) u = pa) in Hpa.
    assert (Hp' : p = firstn r u ++ a).
    { rewrite <- Hp, <- Hlen. rewrite Hu at 2. apply firstn_length_app. }
    assert (Hpa' : pa = b).
    { rewrite <- Hpa. rewrite Hu at 1.
      replace (S (r + k)) with (length ((firstn r u ++ a) ++ [ch ";"]))
        by (rewrite length_app, Hlen; simpl; lia).
      replace ((firstn r u ++ a) ++ ch ";" :: b)
        with (((firstn r u ++ a) ++ [ch ";"]) ++ b)
        by (rewrite <- app_assoc; reflexivity).
      apply skipn_length_app. }
    clear Hp Hpa. subst p pa. split; [left; exact Hu|].
    intros -> Hsemi'.
    assert (Hu' : u = (firstn r u ++ a) ++ [ch ";"]) by exact Hu.
    assert (Hr' : Str.rfind (ch "/") (firstn r u ++ a) = Some r).
    { transitivity (Str.rfind (ch "/") ((firstn r u ++ a) ++ [ch ";"])).
      - symmetry. apply rfind_app_single. reflexivity.
      - rewrite <- Hu'. exact Hr. }
    rewrite (rfind_contains _ _ _ Hr'), Hr'. unfold Str.find_from.
    rewrite <- Hpre at 1. rewrite skipn_length_app, (find_none _ _ Ha).
    reflexivity.
  - destruct (Str.find (ch ";") u) as [i|] eqn:Hi.
    2:{ apply find_contains in Hi. congruence. }
    destruct (find_some _ _ _ Hi) as [a [b [Hab [Hla Ha]]]].
    intros Heq. injection Heq as Hp Hpa.
    change (skipn (S i) u = pa) in Hpa. subst u i.
    rewrite firstn_length_app in Hp.
    replace (a ++ ch ";" :: b) with ((a ++ [ch ";"]) ++ b) in Hpa
      by (rewrite <- app_assoc; reflexivity).
    replace (S (length a)) with (length (a ++ [ch ";"])) in Hpa
      by (rewrite length_app; simpl; lia).
    rewrite skipn_length_app in Hpa. subst p pa.
    split; [left; reflexivity|]. intros _ Hc. congruence.
Qed.

Lemma params_of_again s u p pa :
  params_of s u = (p, pa) ->
  Str.mem s uses_params = true ->
  params_of s (p ++ with_sep (ch ";") pa) = (p, pa)
  /\ exists rest, u = (p ++ with_sep (ch ";") pa) ++ rest.
Proof.
  unfold params_of. intros Hpo Hmem. rewrite Hmem in *. cbn [andb] in *.
  destruct (Str.contains (ch ";") u) eqn:Hsemi.
  - destruct (splitparams_spec _ _ _ Hsemi Hpo) as [Hu Hagain].
    unfold with_sep. destruct pa as [|x pa]; cbn [Str.is_empty].
    + rewrite app_nil_r. split.
      * destruct (Str.contains (ch ";") p) eqn:Hc; [|reflexivity].
        apply Hagain; auto.
      * destruct Hu as [-> | [-> _]]; eauto. exists []. rewrite app_nil_r.
        reflexivity.
    + destruct Hu as [Hu | [_ Hnil]]; [|discriminate].
      rewrite <- Hu, Hsemi. split; [exact Hpo|]. exists [].
      rewrite app_nil_r. reflexivity.
  - inversion Hpo; subst. unfold with_sep. cbn [Str.is_empty].
    rewrite app_nil_r, Hsemi. split; [reflexivity|]. exists [].
    rewrite app_nil_r. reflexivity.
Qed.

End Params.

(** ** Parsing what [urlunparse] put together *)

Section ReparseUrl.
Import Urllib.
Context {U : Unicode}.

Lemma urlparse_eq url :
  urlparse url
  = sr <- urlsplit url ;;
    let '(p, pa) := params_of (s_scheme sr) (s_path sr) in
    Return (mkParse (s_scheme sr) (s_netloc sr) p pa (s_query sr) (s_fragment sr)).
Proof.
  unfold urlparse, params_of, bind. destruct (urlsplit url) as [[s n p q f]|e];
    reflexivity.
Qed.

Lemma urlunparse_eq pu :
  urlunparse pu
  = urlunsplit (mkSplit (scheme pu) (netloc pu)
                  (path pu ++ with_sep (ch ";") (params pu))
                  (query pu) (fragment pu)).
Proof.
  destruct pu as [s n p pa q f]. unfold urlunparse, with_sep.
  cbn [scheme netloc path params query fragment].
  destruct (Str.is_empty pa); cbn [negb]; rewrite ?app_nil_r; reflexivity.
Qed.

(** A split result keeps its invariant when the path is cut shorter. *)
Lemma split_inv_prefix s n u u' rest q f :
  u = u' ++ rest ->
  split_inv U (mkSplit s n u q f) -> split_inv U (mkSplit s n u' q f).
Proof.
  intros Hu [Hclean Hnet Hbr Hck Hhead [Hp1 Hp2] Hquery Hsch].
  cbn [s_scheme s_netloc s_path s_query s_fragment] in *.
  assert (Hi : incl u' u) by (rewrite Hu; apply incl_appl, incl_refl).
  destruct Hclean as [Hcn [Hcp [Hcq Hcf]]].
  constructor; cbn [s_scheme s_netloc s_path s_query s_fragment]; auto.
  - repeat split; auto. eapply clean_incl; eauto.
  - intros Hn. specialize (Hhead Hn). rewrite Hu in Hhead.
    eapply starts_prefix; eauto.
  - split; eapply contains_incl; eauto.
Qed.

Lemma urlparse_inv url pu : urlparse url = Return pu -> parse_inv U pu.
Proof.
  rewrite urlparse_eq. unfold bind.
  destruct (urlsplit url) as [[s n u q f]|e] eqn:Hs; [|discriminate].
  apply urlsplit_inv in Hs. cbn [s_scheme s_netloc s_path s_query s_fragment].
  destruct (params_of s u) as [p pa] eqn:Hpo.
  intros Heq; inversion Heq; subst pu.
  assert (Hpre : exists rest, u = (p ++ with_sep (ch ";") pa) ++ rest).
  { destruct (Str.mem s uses_params) eqn:Hmem.
    - apply (params_of_again _ _ _ _ Hpo Hmem).
    - unfold params_of in Hpo. rewrite Hmem in Hpo. inversion Hpo; subst.
      exists []. unfold with_sep. cbn [Str.is_empty]. rewrite !app_nil_r.
      reflexivity. }
  destruct Hpre as [rest Hrest].
  constructor; cbn [scheme netloc path params query fragment].
  - eapply split_inv_prefix; eauto.
  - intros Hmem. apply (params_of_again _ _ _ _ Hpo Hmem).
Qed.

Lemma http_or_https_params s :
  http_or_https s -> Str.mem s uses_params = true.
Proof. intros [-> | ->]; reflexivity. Qed.

Lemma urlparse_urlunparse pu :
  parse_inv U pu -> http_or_https (scheme pu) -> netloc pu <> [] ->
  urlparse (urlunparse pu) = Return pu.
Proof.
  intros [Hsplit Hparams] Hs Hn.
  rewrite urlunparse_eq, urlparse_eq, (urlsplit_urlunsplit _ Hsplit Hs Hn).
  cbn [bind s_scheme s_netloc s_path s_query s_fragment].
  rewrite (Hparams (http_or_https_params _ Hs)). destruct pu; reflexivity.
Qed.

End ReparseUrl.

(** ** [idna.encode] on ASCII host names *)

Section IdnaLemmas.
Import IdnaEncode.
Context {U : Unicode}.
Hypothesis Hwf : idna_wf U.

Lemma split_not_nil c s : Str.split c s <> [].
Proof.
  destruct s as [|d s]; simpl; [discriminate|].
  destruct (N.eqb d c); [discriminate|].
  destruct (Str.split c s); discriminate.
Qed.

Lemma join_split c s : Str.join c (Str.split c s) = s.
Proof.
  induction s as [|d s IH]; [reflexivity|]. cbn [Str.split].
  destruct (N.eqb d c) eqn:Hd.
  - apply N.eqb_eq in Hd. subst d. cbn [Str.join].
    destruct (Str.split c s) as [|p ps] eqn:Hsp;
      [exfalso; eapply split_not_nil; eauto|].
    rewrite IH. reflexivity.
  - destruct (Str.split c s) as [|p ps] eqn:Hsp;
      [exfalso; eapply split_not_nil; eauto|].
    cbn [Str.join] in *. destruct ps; rewrite <- IH; reflexivity.
Qed.

Lemma first_invalid_none pos label :
  first_invalid pos label = None -> forallb is_pvalid_ascii label = true.
Proof.
  revert pos. induction label as [|c l IH]; simpl; [reflexivity|].
  intros pos. destruct (is_pvalid_ascii c); [apply IH | discriminate].
Qed.

Lemma alabel_return label s :
  alabel label = Return s ->
  s = label /\ forallb is_pvalid_ascii label = true.
Proof.
  unfold alabel.
  destruct (Str.startswith (py "xn--") label).
  - destruct (check_ace_label label) eqn:Hc; [discriminate|].
    destruct (Nat.ltb 63 (length label)); [discriminate|].
    intros Heq; inversion Heq; subst s. split; [reflexivity|].
    apply (ace_label_ldh Hwf). exact Hc.
  - destruct (check_label label) eqn:Hc; [discriminate|].
    destruct (Nat.ltb 63 (length label)); [discriminate|].
    intros Heq; inversion Heq; subst s. split; [reflexivity|].
    unfold check_label in Hc. destruct (Str.is_empty label); [discriminate|].
    destruct (check_hyphen_ok label); [discriminate|].
    eapply first_invalid_none; eauto.
Qed.

Lemma alabels_return labels res :
  alabels labels = Return res ->
  res = labels /\ forallb (forallb is_pvalid_ascii) labels = true.
Proof.
  revert res. induction labels as [|l ls IH]; simpl; intros res.
  - intros Heq; inversion Heq. auto.
  - unfold bind. destruct (alabel l) as [s|e] eqn:Hl; [|discriminate].
    apply alabel_return in Hl. destruct Hl as [-> Hv].
    destruct (Str.is_empty l); [discriminate|].
    destruct (alabels ls) as [rest|e]; [|discriminate].
    destruct (IH rest eq_refl) as [-> Hvs].
    intros Heq; inversion Heq. rewrite Hv, Hvs. auto.
Qed.

Lemma join_hostname_chars labels :
  forallb (forallb is_pvalid_ascii) labels = true ->
  forallb hostname_char (Str.join (ch ".") labels) = true.
Proof.
  assert (Hl : forall l, forallb is_pvalid_ascii l = true ->
                         forallb hostname_char l = true).
  { induction l as [|c l IH]; simpl; [reflexivity|]. intros H.
    apply andb_true_iff in H. destruct H as [Hc Hl].
    unfold hostname_char at 1. rewrite Hc, (IH Hl). reflexivity. }
  induction labels as [|l ls IH]; [reflexivity|].
  intros H. cbn [forallb] in H. apply andb_true_iff in H. destruct H as [Hv Hvs].
  cbn [Str.join]. destruct ls as [|l' ls']; [apply Hl; assumption|].
  rewrite forallb_app, (Hl _ Hv). cbn [forallb andb].
  rewrite (IH Hvs). reflexivity.
Qed.

Lemma encode_ascii_lower a b :
  Str.ascii_lower a = Str.ascii_lower b -> encode_ascii a = encode_ascii b.
Proof. unfold encode_ascii. intros ->. reflexivity. Qed.

Lemma encode_ascii_return h p :
  encode_ascii h = Return p ->
  p = Str.ascii_lower h /\ forallb hostname_char p = true /\ p <> [].
Proof.
  unfold encode_ascii.
  set (s := Str.ascii_lower h).
  pose proof (join_split (ch ".") s) as Hjoin.
  assert (Hne : Str.split (ch ".") s <> [[]] -> s <> []).
  { intros Hx ->. apply Hx. reflexivity. }
  set (labels := Str.split (ch ".") s) in *.
  assert (Hmain :
    (let trailing_dot := Str.is_empty (last labels []) in
     let labels0 := if trailing_dot then removelast labels else labels in
     result <- alabels labels0 ;;
     let result := if trailing_dot then result ++ [[]] else result in
     let s := Str.join (ch ".") result in
     if Nat.ltb (if trailing_dot then 254 else 253) (length s)
     then Raise Idna.DomainTooLong else Return s) = Return p ->
    labels <> [] -> p = s /\ forallb hostname_char p = true).
  { cbv zeta. unfold bind. intros Hrun Hnn.
    destruct (Str.is_empty (last labels [])) eqn:Htd;
      (destruct (alabels _) as [res|e] eqn:Hres; [|discriminate]);
      apply alabels_return in Hres; destruct Hres as [-> Hv].
    - apply is_empty_true in Htd.
      assert (Hl : removelast labels ++ [[]] = labels).
      { rewrite <- Htd. symmetry. apply app_removelast_last. assumption. }
      rewrite Hl in Hrun.
      destruct (Nat.ltb 254 _); [discriminate|]. inversion Hrun; subst p.
      split; [exact Hjoin|]. apply join_hostname_chars.
      rewrite <- Hl, forallb_app. apply andb_true_iff.
      split; [exact Hv | reflexivity].
    - destruct (Nat.ltb 253 _); [discriminate|]. inversion Hrun; subst p.
      split; [exact Hjoin|]. apply join_hostname_chars. assumption. }
  destruct labels as [|[|c l0] [|l1 ls]] eqn:Hlab; try discriminate;
    intros Hrun; destruct (Hmain Hrun ltac:(discriminate)) as [-> Hc];
    (split; [reflexivity | split; [assumption | apply Hne; discriminate]]).
Qed.

(** The encoding of a host name is a host name that encodes to itself. *)
Lemma encode_stable h p :
  encode h = Return p ->
  forallb hostname_char p = true /\ p <> [] /\ encode p = Return p.
Proof.
  unfold encode at 1. destruct (Str.isascii h).
  - destruct (encode_ascii h) as [p'|e] eqn:He; [|discriminate].
    intros Heq; inversion Heq; subst p'.
    destruct (encode_ascii_return _ _ He) as [Hp [Hc Hn]].
    split; [assumption|]. split; [assumption|].
    unfold encode. rewrite (hostname_chars_ascii _ Hc).
    rewrite (encode_ascii_lower p h), He; [reflexivity|].
    rewrite Hp. apply ascii_lower_idem.
  - apply (idna_unicode_stable Hwf).
Qed.

(** An ASCII host name is unchanged by the encoding, but for its case. *)
Lemma encode_ascii_host h p :
  Str.isascii h = true -> encode h = Return p ->
  p = Str.ascii_lower h /\ forallb hostname_char p = true.
Proof.
  unfold encode. intros ->.
  destruct (encode_ascii h) as [p'|e] eqn:He; [|discriminate].
  intros Heq; inversion Heq; subst p'.
  destruct (encode_ascii_return _ _ He) as [Hp [Hc Hn]]. auto.
Qed.

End IdnaLemmas.

(** ** The netloc rebuilt from the encoded host name *)

Section NewNetloc.
Import Urllib UrlValidator.
Context {U : Unicode}.

Lemma netloc_chars p k :
  forallb hostname_char p = true ->
  forallb netloc_char (p ++ port_suffix k) = true.
Proof.
  intros Hp. rewrite forallb_app. apply andb_true_iff. split.
  - rewrite forallb_forall in *. intros c Hc. unfold netloc_char.
    rewrite (Hp c Hc). reflexivity.
  - unfold port_suffix. destruct k as [n|]; [|reflexivity].
    destruct (N.eqb n 0); [reflexivity|]. cbn [forallb].
    apply andb_true_iff. split; [reflexivity|].
    pose proof (digits_are_digits 20 n) as Hd. unfold Str.of_int.
    rewrite forallb_forall in *. intros c Hc. unfold netloc_char.
    rewrite (digit_hostname_char _ (Hd c Hc)). reflexivity.
Qed.

Lemma netloc_chars_ascii n :
  forallb netloc_char n = true -> Str.isascii n = true.
Proof.
  unfold Str.isascii. rewrite !forallb_forall. intros Hn c Hc.
  specialize (Hn c Hc). unfold netloc_char in Hn.
  apply orb_true_iff in Hn. destruct Hn as [Hh | Hcolon].
  - apply hostname_char_ascii. assumption.
  - apply N.eqb_eq in Hcolon. subst c. reflexivity.
Qed.

(** A parse result keeps its invariant when such a netloc replaces its
    own. *)
Lemma parse_inv_netloc pu n :
  parse_inv U pu -> netloc pu <> [] -> forallb netloc_char n = true ->
  parse_inv U (mkParse (scheme pu) n (path pu) (params pu) (query pu)
                 (fragment pu)).
Proof.
  intros [[Hclean Hnet Hbr Hck Hhead Hpath Hquery Hsch] Hparams] Hne Hn.
  cbn [s_scheme s_netloc s_path s_query s_fragment] in *.
  assert (Hno : forall c, netloc_char c = false -> Str.contains c n = false)
    by (intros c Hc; eapply contains_forallb; eauto).
  constructor; cbn [scheme netloc path params query fragment]; [|assumption].
  constructor; cbn [s_scheme s_netloc s_path s_query s_fragment]; auto.
  - destruct Hclean as [_ Hrest]. split; [|assumption].
    intros c [<-|[<-|[<-|[]]]]; apply Hno; reflexivity.
  - rewrite forallb_forall in *. intros c Hc. specialize (Hn c Hc).
    destruct (is_delim c) eqn:Hd; [|reflexivity].
    unfold is_delim in Hd. apply orb_true_iff in Hd.
    destruct Hd as [Hd|Hd]; [apply orb_true_iff in Hd; destruct Hd as [Hd|Hd]|];
      apply N.eqb_eq in Hd; subst c; discriminate.
  - unfold check_brackets.
    rewrite (Hno (ch "[") eq_refl), (Hno (ch "]") eq_refl). reflexivity.
  - unfold _checknetloc. rewrite (netloc_chars_ascii _ Hn), orb_true_r.
    reflexivity.
Qed.

Lemma hostname_netloc a b : netloc a = netloc b -> hostname a = hostname b.
Proof. unfold hostname. intros ->. reflexivity. Qed.

Lemma hostname_new s p k pa pr q f :
  forallb hostname_char p = true -> p <> [] ->
  hostname (mkParse s (p ++ port_suffix k) pa pr q f) = Some p.
Proof.
  intros Hp Hne.
  assert (Hno : forall c, netloc_char c = false ->
                          Str.contains c (p ++ port_suffix k) = false).
  { intros c Hc. eapply contains_forallb; eauto using netloc_chars. }
  assert (Hnop : forall c, hostname_char c = false -> Str.contains c p = false).
  { intros c Hc. eapply contains_forallb; eauto. }
  unfold hostname, _hostinfo. cbn [netloc].
  rewrite (rpartition_none _ _ (Hno (ch "@") eq_refl)).
  rewrite (partition_none _ _ (Hno (ch "[") eq_refl)).
  assert (Hpart : exists found port,
             Str.partition (ch ":") (p ++ port_suffix k) = (p, found, port)).
  { unfold port_suffix. destruct k as [n|].
    - destruct (N.eqb n 0).
      + rewrite app_nil_r. rewrite (partition_none _ _ (Hnop (ch ":") eq_refl)).
        eauto.
      + rewrite (partition_app _ _ _ (Hnop (ch ":") eq_refl)). eauto.
    - rewrite app_nil_r. rewrite (partition_none _ _ (Hnop (ch ":") eq_refl)).
      eauto. }
  destruct Hpart as [found [port ->]]. cbn [fst].
  apply is_empty_false in Hne. rewrite Hne.
  rewrite (partition_none _ _ (Hnop (ch "%") eq_refl)).
  unfold str_lower.
  rewrite (hostname_chars_ascii _ Hp), (hostname_chars_lower _ Hp), !app_nil_r.
  reflexivity.
Qed.

Lemma punycode_netloc_return pu h q :
  punycode_netloc pu h = Return q ->
  exists p,
    IdnaEncode.encode h = Return p
    /\ ((p = h /\ q = pu)
        \/ (p <> h
            /\ exists k,
                 port pu = Return k
                 /\ q = mkParse (scheme pu) (p ++ port_suffix k) (path pu)
                          (params pu) (query pu) (fragment pu))).
Proof.
  unfold punycode_netloc.
  destruct (IdnaEncode.encode h) as [p|[e|d]]; [|discriminate|discriminate].
  destruct (Str.eqb p h) eqn:Heq; cbn [negb].
  - intros Hq; inversion Hq; subst q. apply eqb_eq in Heq. eauto.
  - apply eqb_neq in Heq. destruct (port pu) as [k|e]; [|discriminate].
    intros Hq; inversion Hq; subst q. exists p. split; [reflexivity|].
    right. split; [assumption|]. exists k. split; [reflexivity|].
    unfold port_suffix. destruct k as [n|]; [destruct (N.eqb n 0)|];
      rewrite ?app_nil_r; reflexivity.
Qed.

Lemma parse_with_default_scheme_inv url pu :
  parse_with_default_scheme url = Return pu -> parse_inv U pu.
Proof.
  assert (Hparse : forall x, parse x = Return pu -> parse_inv U pu).
  { unfold parse. intros x. destruct (urlparse x) eqn:Hx; [|discriminate].
    intros Heq; inversion Heq; subst. eapply urlparse_inv; eauto. }
  unfold parse_with_default_scheme, bind.
  destruct (parse url) as [p0|] eqn:Hp0; [|discriminate].
  repeat match goal with
         | |- context [if ?b then _ else _] => destruct b
         end; eauto.
  all: intros Heq; inversion Heq; subst; eauto.
Qed.

Lemma str_lower_scheme pu : parse_inv U pu -> str_lower (scheme pu) = scheme pu.
Proof.
  intros [[_ _ _ _ _ _ _ [Ha Hl]] _]. cbn [s_scheme] in *.
  unfold str_lower. rewrite Ha. exact Hl.
Qed.

Lemma allowed_scheme s :
  Str.mem s ALLOWED_SCHEMES = true -> http_or_https s.
Proof.
  unfold Str.mem, ALLOWED_SCHEMES, http_or_https. cbn [existsb].
  rewrite orb_false_r. intros H. apply orb_true_iff in H.
  destruct H as [H|H]; apply eqb_eq in H; auto.
Qed.

Section WellFormedIdna.
Hypothesis Hwf : idna_wf U.

(** What [validate_url] returns: the URL of a parse result that is well
    formed, has scheme http or https, and a host name that encodes to
    itself and is not a private or loopback address. *)
Lemma validate_url_final url n :
  validate_url url = Return n ->
  exists qf h,
    n = urlunparse qf /\ parse_inv U qf /\ http_or_https (scheme qf)
    /\ netloc qf <> [] /\ hostname qf = Some h /\ h <> []
    /\ IdnaEncode.encode h = Return h /\ _is_private_ip h = false.
Proof.
  intros Hv. apply validate_url_return in Hv.
  destruct Hv as [pu [h [q [_ [_ [Hp [Hs [Hn [Hm [Hh [Hq [Hpriv ->]]]]]]]]]]]].
  pose proof (parse_with_default_scheme_inv _ _ Hp) as Hinv.
  pose proof (str_lower_scheme _ Hinv) as Hlow.
  apply punycode_netloc_return in Hq.
  destruct Hq as [p [He [[-> ->] | [Hne [k [Hk ->]]]]]].
  - destruct (encode_stable Hwf _ _ He) as [_ [Hnn _]].
    exists pu, h. rewrite Hlow. rewrite Hh in Hpriv. cbn in Hpriv.
    rewrite Hlow in Hm.
    split; [destruct pu; reflexivity|]. split; [exact Hinv|].
    split; [apply allowed_scheme; exact Hm|]. split; [exact Hn|].
    split; [exact Hh|]. split; [exact Hnn|]. split; [exact He | exact Hpriv].
  - destruct (encode_stable Hwf _ _ He) as [Hc [Hnn Hst]].
    cbn [scheme netloc path params query fragment] in *.
    rewrite Hlow in *.
    rewrite (hostname_new _ _ _ _ _ _ _ Hc Hnn) in Hpriv. cbn in Hpriv.
    exists (mkParse (scheme pu) (p ++ port_suffix k) (path pu) (params pu)
              (query pu) (fragment pu)), p.
    split; [reflexivity|].
    split; [apply parse_inv_netloc; auto using netloc_chars|].
    split; [apply allowed_scheme; exact Hm|].
    split; [cbn [netloc]; destruct p; [contradiction | discriminate]|].
    split; [apply hostname_new; assumption|]. split; [exact Hnn|].
    split; [exact Hst | exact Hpriv].
Qed.

(** Such a URL, when it is not too long, is accepted as it is. *)
Lemma validate_url_fixed qf h :
  parse_inv U qf -> http_or_https (scheme qf) -> netloc qf <> [] ->
  hostname qf = Some h -> IdnaEncode.encode h = Return h ->
  _is_private_ip h = false ->
  length (urlunparse qf) <= MAX_URL_LENGTH ->
  validate_url (urlunparse qf) = Return (urlunparse qf).
Proof.
  intros Hinv Hs Hn Hh He Hpriv Hlen.
  pose proof (urlparse_urlunparse _ Hinv Hs Hn) as Hre.
  pose proof (str_lower_scheme _ Hinv) as Hlow.
  assert (Hsn : scheme qf <> []) by (destruct Hs as [-> | ->]; discriminate).
  assert (Hnonempty : Str.is_empty (urlunparse qf) = false).
  { rewrite urlunparse_eq, urlunsplit_eq; auto.
    - destruct Hs as [-> | ->]; reflexivity.
    - destruct Hinv as [[_ _ _ _ Hhead _ _ _] _]. apply Hhead. exact Hn. }
  unfold validate_url. rewrite Hnonempty.
  replace (Nat.ltb MAX_URL_LENGTH (length (urlunparse qf))) with false
    by (symmetry; apply Nat.ltb_ge; exact Hlen).
  rewrite (parse_with_default_scheme_scheme _ _ Hre Hsn). cbn [bind].
  apply is_empty_false in Hsn, Hn. rewrite Hsn, Hn. cbn [orb].
  rewrite Hlow.
  replace (Str.mem (scheme qf) ALLOWED_SCHEMES) with true
    by (destruct Hs as [-> | ->]; reflexivity).
  cbn [negb]. rewrite Hh.
  destruct (encode_stable Hwf _ _ He) as [_ [Hhn _]].
  apply is_empty_false in Hhn. rewrite Hhn.
  unfold punycode_netloc. rewrite He, eqb_refl.
  cbn [negb bind]. rewrite Hh. cbn [str_of_optional]. rewrite Hpriv, Hlow.
  replace (mkParse (scheme qf) (netloc qf) (path qf) (params qf) (query qf)
             (fragment qf)) with qf by (destruct qf; reflexivity).
  rewrite Hnonempty. reflexivity.
Qed.

End WellFormedIdna.
End NewNetloc.

(** ** The sample tables are well formed *)

Lemma samples_wf : idna_wf Samples.unicode.
Proof.
  constructor.
  - intros label. cbn [check_ace_label Samples.unicode].
    destruct (Str.eqb label (py "xn--bcher-kva")) eqn:He; [|discriminate].
    apply eqb_eq in He. subst label. reflexivity.
  - intros h p. cbn [idna_unicode Samples.unicode].
    destruct (Str.eqb h Samples.buecher_de); [|discriminate].
    intros Heq; inversion Heq; subst p.
    split; [reflexivity|]. split; [discriminate|]. vm_compute. reflexivity.
Qed.



(** C7, as the code has it: with well-formed [idna] tables, validating
    again what [validate_url] returned gives it back, provided it is no
    longer than the 2048 characters that the length check allows. *)
Theorem C7_idempotent_within_length_limit :
  forall (U : Unicode), idna_wf U ->
  forall url n,
    UrlValidator.validate_url url = Return n ->
    length n <= UrlValidator.MAX_URL_LENGTH ->
    UrlValidator.validate_url n = Return n.
Proof.
  intros U Hwf url n Hv Hlen.
  destruct (validate_url_final Hwf _ _ Hv)
    as [qf [h [-> [Hinv [Hs [Hn [Hh [_ [He Hpriv]]]]]]]]].
  eapply validate_url_fixed; eauto.
Qed.

Lemma C7_idempotent_witness :
  UrlValidator.validate_url (U := Samples.unicode) Samples.idn_normalized
  = Return Samples.idn_normalized.
Proof.
  apply (C7_idempotent_within_length_limit Samples.unicode samples_wf
           Samples.idn_url).
  - vm_compute. reflexivity.
  - apply Nat.leb_le. vm_compute. reflexivity.
Defined.

(** C7 fails as stated: a scheme-less input of 2048 characters is accepted,
    and its normalized form, 2055 characters long, is rejected by the
    length check. *)
Lemma C7_counterexample :
  (forall U : Unicode,
      UrlValidator.validate_url Samples.long_url
      = Return (py "http://" ++ Samples.long_url))
  /\ (forall U : Unicode,
         UrlValidator.validate_url (py "http://" ++ Samples.long_url)
         = Raise (UrlValidator.InvalidURLError UrlValidator.TooLong)).
Proof.
  split; intros U; vm_compute; reflexivity.
Qed.

(** ** Userinfo *)

Lemma userinfo_none p k :
  Str.contains (ch "@") p = false ->
  Urllib._userinfo (p ++ port_suffix k) = (None, None).
Proof.
  intros Hp. unfold Urllib._userinfo.
  assert (Hs : Str.contains (ch "@") (p ++ port_suffix k) = false).
  { rewrite contains_app, Hp. cbn [orb].
    eapply contains_forallb; [apply (netloc_chars [] k); reflexivity|].
    reflexivity. }
  rewrite (rpartition_none _ _ Hs). reflexivity.
Qed.

(** C10: when the encoded host name differs from the parsed one, the
    netloc of the result is the encoded host name and the port and nothing
    else, so a userinfo part is gone; when it does not differ, the netloc
    of the input, userinfo included, is kept. *)
Theorem C10_userinfo_dropped_when_host_changes :
  forall (U : Unicode) url pu h p n,
    UrlValidator.parse_with_default_scheme url = Return pu ->
    Urllib.hostname pu = Some h ->
    IdnaEncode.encode h = Return p ->
    UrlValidator.validate_url url = Return n ->
    (p <> h ->
     exists k,
       Urllib.port pu = Return k
       /\ n = Urllib.urlunparse
                (Urllib.mkParse (str_lower (Urllib.scheme pu))
                   (p ++ port_suffix k) (Urllib.path pu) (Urllib.params pu)
                   (Urllib.query pu) (Urllib.fragment pu))
       /\ (Str.contains (ch "@") p = false ->
           Urllib._userinfo (p ++ port_suffix k) = (None, None)))
    /\ (p = h ->
        n = Urllib.urlunparse
              (Urllib.mkParse (str_lower (Urllib.scheme pu)) (Urllib.netloc pu)
                 (Urllib.path pu) (Urllib.params pu) (Urllib.query pu)
                 (Urllib.fragment pu))).
Proof.
  intros U url pu h p n Hp Hh He Hv.
  apply validate_url_return in Hv.
  destruct Hv as [pu' [h' [q [_ [_ [Hp' [_ [_ [_ [Hh' [Hq [_ ->]]]]]]]]]]]].
  rewrite Hp in Hp'. inversion Hp'; subst pu'.
  rewrite Hh in Hh'. inversion Hh'; subst h'.
  apply punycode_netloc_return in Hq. destruct Hq as [p' [He' Hq]].
  rewrite He in He'. inversion He'; subst p'.
  destruct Hq as [[-> ->] | [Hne [k [Hk ->]]]].
  - split; [intros Hx; contradiction | intros _; reflexivity].
  - split; [|intros Hx; contradiction].
    intros _. exists k. split; [assumption|]. split; [reflexivity|].
    apply userinfo_none.
Qed.

Lemma C10_userinfo_dropped_witness :
  Urllib._userinfo (Urllib.netloc Samples.idn_parsed)
  = (Some (py "user"), Some (py "pw"))
  /\ exists k,
       Urllib.port Samples.idn_parsed = Return k
       /\ Samples.idn_normalized
          = Urllib.urlunparse
              (Urllib.mkParse (py "http") (py "xn--bcher-kva.de" ++ port_suffix k)
                 (py "/x") [] [] [])
       /\ (Str.contains (ch "@") (py "xn--bcher-kva.de") = false ->
           Urllib._userinfo (py "xn--bcher-kva.de" ++ port_suffix k)
           = (None, None)).
Proof.
  split; [vm_compute; reflexivity|].
  refine (proj1 (@C10_userinfo_dropped_when_host_changes Samples.unicode
                   Samples.idn_url Samples.idn_parsed Samples.buecher_de
                   (py "xn--bcher-kva.de") Samples.idn_normalized
                   _ _ _ _) _);
    try (vm_compute; reflexivity).
  vm_compute. intros H. discriminate H.
Defined.

(** ** Literal IP addresses as host names *)

Section IpLiterals.
Import Ipaddress.

Lemma split_no_sep c s : Str.contains c s = false -> Str.split c s = [s].
Proof.
  induction s as [|d s IH]; simpl; [reflexivity|].
  intros H. apply orb_false_iff in H. destruct H as [Hd Hs].
  rewrite Hd, (IH Hs). reflexivity.
Qed.

Lemma parse_all_octets octets vs :
  parse_all _parse_octet octets = Some vs ->
  forallb (forallb Str.is_ascii_digit) octets = true.
Proof.
  revert vs. induction octets as [|o os IH]; simpl; [reflexivity|].
  intros vs. destruct (_parse_octet o) as [v|] eqn:Ho; [|discriminate].
  destruct (parse_all _parse_octet os) as [vs'|]; [|discriminate].
  intros _. rewrite (IH vs' eq_refl), andb_true_r.
  unfold _parse_octet in Ho. destruct o as [|c0 o]; [discriminate|].
  destruct (Str.is_ascii_digits (c0 :: o)) eqn:Hd; [|discriminate].
  exact Hd.
Qed.

Lemma join_digits octets :
  forallb (forallb Str.is_ascii_digit) octets = true ->
  forallb hostname_char (Str.join (ch ".") octets) = true.
Proof.
  assert (Hl : forall l, forallb Str.is_ascii_digit l = true ->
                         forallb hostname_char l = true).
  { induction l as [|c l IH]; simpl; [reflexivity|]. intros H.
    apply andb_true_iff in H. destruct H as [Hc Hl].
    rewrite (digit_hostname_char _ Hc), (IH Hl). reflexivity. }
  induction octets as [|l ls IH]; [reflexivity|].
  intros H. cbn [forallb] in H. apply andb_true_iff in H. destruct H as [Hv Hvs].
  cbn [Str.join]. destruct ls as [|l' ls']; [apply Hl; assumption|].
  rewrite forallb_app, (Hl _ Hv). cbn [forallb andb].
  rewrite (IH Hvs). reflexivity.
Qed.

(** A string that [ip_address] reads is made of digits and dots, or has a
    colon. *)
Lemma ip_literal_chars h a :
  ip_address h = Some a ->
  forallb hostname_char h = true \/ Str.contains (ch ":") h = true.
Proof.
  unfold ip_address.
  destruct (parse_v4 h) as [ip|] eqn:H4.
  - intros _. left. unfold parse_v4 in H4.
    destruct (Str.contains (ch "/") h); [discriminate|].
    unfold v4_ip_int_from_string in H4. destruct h as [|c h]; [discriminate|].
    destruct (negb (Nat.eqb (length (Str.split (ch ".") (c :: h))) 4));
      [discriminate|].
    destruct (parse_all _parse_octet (Str.split (ch ".") (c :: h))) as [vs|] eqn:Hp;
      [|discriminate].
    apply parse_all_octets, join_digits in Hp.
    rewrite (join_split (ch ".") (c :: h)) in Hp. exact Hp.
  - destruct (parse_v6 h) as [[ip scope]|] eqn:H6; [|discriminate].
    intros _. right. unfold parse_v6 in H6.
    destruct (Str.contains (ch "/") h); [discriminate|].
    unfold _split_scope_id in H6.
    destruct (Str.partition (ch "%") h) as [[addr sep] scope_id] eqn:Hpart.
    assert (Haddr : v6_ip_int_from_string addr <> None).
    { destruct (negb sep).
      - destruct (v6_ip_int_from_string addr); [discriminate|discriminate].
      - destruct (is_empty scope_id || Str.contains (ch "%") scope_id);
          [discriminate|].
        destruct (v6_ip_int_from_string addr); discriminate. }
    destruct (partition_incl _ _ _ _ _ Hpart) as [Hincl _].
    destruct (Str.contains (ch ":") addr) eqn:Hc.
    + apply contains_In in Hc. apply contains_In. auto.
    + exfalso. apply Haddr. unfold v6_ip_int_from_string.
      destruct addr as [|c addr]; [reflexivity|].
      rewrite (split_no_sep _ _ Hc). reflexivity.
Qed.

Lemma contains_lower c s :
  Str.lower_char c = c -> Str.contains c s = true ->
  Str.contains c (Str.ascii_lower s) = true.
Proof.
  intros Hc H. apply contains_In. apply contains_In in H.
  unfold Str.ascii_lower. rewrite <- Hc. apply in_map. exact H.
Qed.

End IpLiterals.

(** C2: with well-formed [idna] tables, a URL whose host name is an ASCII
    string that [ipaddress] reads as a private, link-local or loopback
    address is rejected with an [InvalidURLError], and so is one whose host
    name is converted to such a string; a host name that is no IP literal
    passes the check, ["localhost"] is none, and ["http://localhost/test"]
    is accepted.  The check is a function of the string alone. *)
Theorem C2_private_ip_rejected_localhost_passes :
  forall (U : Unicode), idna_wf U ->
    (forall url pu h,
        UrlValidator.parse_with_default_scheme url = Return pu ->
        Urllib.hostname pu = Some h ->
        Str.isascii h = true ->
        UrlValidator._is_private_ip h = true ->
        exists r, UrlValidator.validate_url url
                  = Raise (UrlValidator.InvalidURLError r))
    /\ (forall url pu h p,
          UrlValidator.parse_with_default_scheme url = Return pu ->
          Urllib.hostname pu = Some h ->
          IdnaEncode.encode h = Return p ->
          UrlValidator._is_private_ip p = true ->
          exists r, UrlValidator.validate_url url
                    = Raise (UrlValidator.InvalidURLError r))
    /\ (forall h, Ipaddress.ip_address h = None ->
                  UrlValidator._is_private_ip h = false)
    /\ Ipaddress.ip_address (py "localhost") = None
    /\ UrlValidator.validate_url (py "http://localhost/test")
       = Return (py "http://localhost/test").
Proof.
  intros U Hwf. split; [|split; [|split; [|split]]].
  - intros url pu h Hp Hh Hascii Hpriv.
    unfold UrlValidator.validate_url.
    destruct (Str.is_empty url); [eauto|].
    destruct (Nat.ltb UrlValidator.MAX_URL_LENGTH (length url)); [eauto|].
    rewrite Hp. cbn [bind].
    destruct (Str.is_empty (Urllib.scheme pu) || Str.is_empty (Urllib.netloc pu));
      [eauto|].
    destruct (negb (Str.mem (str_lower (Urllib.scheme pu))
                      UrlValidator.ALLOWED_SCHEMES)); [eauto|].
    rewrite Hh. destruct (Str.is_empty h); [eauto|].
    unfold UrlValidator.punycode_netloc.
    destruct (IdnaEncode.encode h) as [p|[e|d]] eqn:He; cbn [bind]; [|eauto|eauto].
    destruct (encode_ascii_host Hwf _ _ Hascii He) as [Hlow Hchars].
    assert (Hlit : exists a, Ipaddress.ip_address h = Some a).
    { unfold UrlValidator._is_private_ip in Hpriv.
      destruct (Ipaddress.ip_address h); [eauto | discriminate]. }
    destruct Hlit as [a Ha].
    destruct (ip_literal_chars _ _ Ha) as [Hh_chars | Hcolon].
    + rewrite (hostname_chars_lower _ Hh_chars) in Hlow. subst p.
      rewrite eqb_refl. cbn [negb bind]. rewrite Hh.
      cbn [UrlValidator.str_of_optional]. rewrite Hpriv. eauto.
    + exfalso. apply (contains_lower _ _ eq_refl) in Hcolon.
      rewrite <- Hlow in Hcolon.
      rewrite (contains_forallb hostname_char (ch ":") _ Hchars eq_refl) in Hcolon.
      discriminate.
  - intros url pu h p Hp Hh He Hpriv.
    unfold UrlValidator.validate_url.
    destruct (Str.is_empty url); [eauto|].
    destruct (Nat.ltb UrlValidator.MAX_URL_LENGTH (length url)); [eauto|].
    rewrite Hp. cbn [bind].
    destruct (Str.is_empty (Urllib.scheme pu) || Str.is_empty (Urllib.netloc pu));
      [eauto|].
    destruct (negb (Str.mem (str_lower (Urllib.scheme pu))
                      UrlValidator.ALLOWED_SCHEMES)); [eauto|].
    rewrite Hh. destruct (Str.is_empty h); [eauto|].
    unfold UrlValidator.punycode_netloc. rewrite He.
    destruct (encode_stable Hwf _ _ He) as [Hchars [Hne _]].
    destruct (Str.eqb p h) eqn:Heq; cbn [negb bind].
    + apply eqb_eq in Heq. subst p. rewrite Hh.
      cbn [UrlValidator.str_of_optional]. rewrite Hpriv. eauto.
    + destruct (Urllib.port pu) as [k|e]; cbn [bind]; [|eauto].
      replace (match k with
               | Some n => if N.eqb n 0 then p else p ++ ch ":" :: Str.of_int n
               | None => p
               end) with (p ++ port_suffix k)
        by (unfold port_suffix; destruct k as [n|]; [destruct (N.eqb n 0)|];
            rewrite ?app_nil_r; reflexivity).
      rewrite (hostname_new _ _ _ _ _ _ _ Hchars Hne).
      cbn [UrlValidator.str_of_optional]. rewrite Hpriv. eauto.
  - intros h Hnone. unfold UrlValidator._is_private_ip. rewrite Hnone.
    reflexivity.
  - vm_compute. reflexivity.
  - vm_compute. reflexivity.
Qed.

Lemma C2_private_ip_witness :
  (exists r, UrlValidator.validate_url (U := Samples.unicode)
               (py "http://192.168.1.1/admin")
             = Raise (UrlValidator.InvalidURLError r))
  /\ (exists r, UrlValidator.validate_url (U := Samples.unicode)
                  (py "https://[::1]/status")
                = Raise (UrlValidator.InvalidURLError r))
  /\ UrlValidator._is_private_ip (py "example.com") = false.
Proof.
  pose proof (C2_private_ip_rejected_localhost_passes Samples.unicode samples_wf)
    as [Hreject [_ [Hpass _]]].
  split; [|split].
  - apply (Hreject (py "http://192.168.1.1/admin")
             (Urllib.mkParse (py "http") (py "192.168.1.1") (py "/admin") [] [] [])
             (py "192.168.1.1")); vm_compute; reflexivity.
  - apply (Hreject (py "https://[::1]/status")
             (Urllib.mkParse (py "https") (py "[::1]") (py "/status") [] [] [])
             (py "::1")); vm_compute; reflexivity.
  - apply Hpass. vm_compute. reflexivity.
Defined.

(** ** Scheme-less input *)

Section SchemeLess.
Import Urllib UrlValidator.
Context {U : Unicode}.

Lemma http_prefix_split x sr :
  clean x -> urlsplit (py "http://" ++ x) = Return sr -> s_scheme sr = py "http".
Proof.
  intros Hc. rewrite urlsplit_eq.
  change (py "http://" ++ x) with (ch "h" :: py "ttp://" ++ x).
  rewrite cleaned_id; [|reflexivity|].
  2:{ apply clean_cons; [reflexivity|]. apply clean_app; [|assumption].
      intros c [<-|[<-|[<-|[]]]]; reflexivity. }
  change (split_scheme (ch "h" :: py "ttp://" ++ x))
    with (py "http", ch "/" :: ch "/" :: x).
  cbv iota beta.
  replace (Str.eqb (firstn 2 (ch "/" :: ch "/" :: x)) (py "//")) with true
    by reflexivity.
  rewrite splitnetloc_eq.
  destruct (check_brackets _) as [[]|e]; cbn [bind]; [|discriminate].
  destruct (split_tail _) as [[p q] f].
  destruct (_checknetloc _) as [[]|e]; cbn [bind]; [|discriminate].
  intros Heq; inversion Heq; reflexivity.
Qed.

Lemma http_prefix_scheme x pu :
  clean x -> urlparse (py "http://" ++ x) = Return pu -> scheme pu = py "http".
Proof.
  intros Hc. rewrite urlparse_eq.
  destruct (urlsplit (py "http://" ++ x)) as [sr|e] eqn:Hs; cbn [bind];
    [|discriminate].
  apply (http_prefix_split _ _ Hc) in Hs.
  destruct (params_of (s_scheme sr) (s_path sr)) as [p pa].
  intros Heq; inversion Heq; subst pu. exact Hs.
Qed.

(** For an input without scheme and netloc, the result is that of
    ["http://"] followed by its path alone. *)
Lemma scheme_less_path_only url pu0 :
  urlparse url = Return pu0 ->
  scheme pu0 = [] -> netloc pu0 = [] ->
  Str.contains (ch ".") (path pu0) = true ->
  length url <= MAX_URL_LENGTH ->
  length (py "http://" ++ path pu0) <= MAX_URL_LENGTH ->
  validate_url url = validate_url (py "http://" ++ path pu0).
Proof.
  intros Hp Hs Hn Hdot Hlen Hlen'.
  assert (Hclean : clean (path pu0)).
  { destruct (urlparse_inv _ _ Hp) as [[[_ [Hcp _]] _ _ _ _ _ _ _] _].
    cbn [s_path] in Hcp. eapply clean_incl; [|exact Hcp].
    apply incl_appl, incl_refl. }
  assert (Hurl : Str.is_empty url = false).
  { destruct url; [|reflexivity]. exfalso.
    assert (Hnil : urlparse [] = Return (mkParse [] [] [] [] [] []))
      by reflexivity.
    rewrite Hnil in Hp. inversion Hp; subst pu0. discriminate Hdot. }
  unfold validate_url. rewrite Hurl.
  replace (Str.is_empty (py "http://" ++ path pu0)) with false by reflexivity.
  replace (Nat.ltb MAX_URL_LENGTH (length url)) with false
    by (symmetry; apply Nat.ltb_ge; exact Hlen).
  replace (Nat.ltb MAX_URL_LENGTH (length (py "http://" ++ path pu0))) with false
    by (symmetry; apply Nat.ltb_ge; exact Hlen').
  assert (Hleft : parse_with_default_scheme url
                  = parse (py "http://" ++ path pu0)).
  { unfold parse_with_default_scheme, parse at 1. rewrite Hp. cbn [bind].
    rewrite Hs, Hn, Hdot. cbn [Str.is_empty andb negb].
    destruct (path pu0); [discriminate Hdot | reflexivity]. }
  assert (Hright : parse_with_default_scheme (py "http://" ++ path pu0)
                   = parse (py "http://" ++ path pu0)).
  { unfold parse_with_default_scheme, parse.
    destruct (urlparse (py "http://" ++ path pu0)) as [pu|e] eqn:Hx;
      [|reflexivity].
    cbn [bind]. rewrite (http_prefix_scheme _ _ Hclean Hx). reflexivity. }
  rewrite Hleft, Hright. reflexivity.
Qed.

End SchemeLess.

(** ** The scheme read in the input *)

Section SchemeOf.
Import Urllib UrlValidator.
Context {U : Unicode}.

(** The scheme of a parsed URL is the one read in the input. *)
Lemma urlparse_scheme url pu :
  urlparse url = Return pu -> scheme pu = scheme_of url.
Proof.
  rewrite urlparse_eq. unfold bind.
  destruct (urlsplit url) as [sr|e] eqn:Hs; [|discriminate].
  destruct (params_of (s_scheme sr) (s_path sr)) as [p pa].
  intros Heq. inversion Heq; subst pu. cbn [scheme].
  revert Hs. rewrite urlsplit_eq. unfold scheme_of.
  destruct (split_scheme (cleaned url)) as [sch rest]. cbn [fst].
  unfold bind.
  destruct (if Str.eqb (firstn 2 rest) (py "//")
            then let '(netloc, url3) := _splitnetloc rest 2 in
                 match check_brackets netloc with
                 | Return _ => Return (netloc, url3)
                 | Raise e => Raise e
                 end
            else Return ([], rest)) as [[n u3]|e]; [|discriminate].
  destruct (split_tail u3) as [[pth q] f].
  destruct (_checknetloc n); [|discriminate].
  intros Hr. inversion Hr. reflexivity.
Qed.

(** What [urlparse] raises on the input goes through [validate_url]. *)
Lemma validate_url_urlparse_raise url v :
  urlparse url = Raise v ->
  length url <= MAX_URL_LENGTH ->
  validate_url url = Raise (UrlparseValueError v).
Proof.
  intros Hp Hl. unfold validate_url.
  destruct url as [|c url]; [vm_compute in Hp; discriminate|].
  cbn [Str.is_empty].
  apply Nat.ltb_ge in Hl. rewrite Hl.
  unfold parse_with_default_scheme, parse, bind. rewrite Hp. reflexivity.
Qed.

Lemma other_scheme_never_accepted url :
  scheme_of url <> [] ->
  Str.mem (str_lower (scheme_of url)) ALLOWED_SCHEMES = false ->
  (exists r, validate_url url = Raise (InvalidURLError r))
  \/ (exists v, urlparse url = Raise v
                /\ validate_url url = Raise (UrlparseValueError v)).
Proof.
  intros Hs Hm.
  destruct (Nat.ltb MAX_URL_LENGTH (length url)) eqn:Hl.
  { left. unfold validate_url. rewrite Hl.
    destruct (Str.is_empty url); eauto. }
  apply Nat.ltb_ge in Hl.
  destruct (urlparse url) as [pu|v] eqn:Hp.
  - left. pose proof (urlparse_scheme _ _ Hp) as Hsch.
    rewrite <- Hsch in Hs, Hm.
    unfold validate_url, bind.
    destruct (Str.is_empty url); [eauto|].
    destruct (Nat.ltb MAX_URL_LENGTH (length url)); [eauto|].
    rewrite (parse_with_default_scheme_scheme _ _ Hp Hs).
    destruct (Str.is_empty (scheme pu) || Str.is_empty (netloc pu)); [eauto|].
    rewrite Hm. cbn [negb]. eauto.
  - right. exists v. split; [reflexivity|].
    apply validate_url_urlparse_raise; assumption.
Qed.

End SchemeOf.

(** C4, what the code does: an input in which [urlsplit] reads a scheme
    other than http or https is never accepted, but what is raised is not
    always an [InvalidURLError].  [urlparse] is called on line 91, outside
    the [try] block, so on an input of at most 2048 characters on which
    [urlparse] itself raises, as one with an opening square bracket that is
    not closed in the netloc, its bare [ValueError] reaches the caller. *)
Theorem C4_other_schemes_not_always_InvalidURLError :
  forall (U : Unicode),
    (forall url,
        scheme_of url <> [] ->
        Str.mem (str_lower (scheme_of url)) UrlValidator.ALLOWED_SCHEMES = false ->
        (exists r, UrlValidator.validate_url url
                   = Raise (UrlValidator.InvalidURLError r))
        \/ (exists v, Urllib.urlparse url = Raise v
                      /\ UrlValidator.validate_url url
                         = Raise (UrlValidator.UrlparseValueError v)))
    /\ (forall url v,
          Urllib.urlparse url = Raise v ->
          length url <= UrlValidator.MAX_URL_LENGTH ->
          UrlValidator.validate_url url
          = Raise (UrlValidator.UrlparseValueError v))
    /\ scheme_of (py "ftp://[::1") = py "ftp"
    /\ UrlValidator.validate_url (py "ftp://[::1")
       = Raise (UrlValidator.UrlparseValueError Urllib.InvalidIPv6URL)
    /\ UrlValidator.validate_url (py "javascript://[alert(1)")
       = Raise (UrlValidator.UrlparseValueError Urllib.InvalidIPv6URL).
Proof.
  intros U. split; [exact other_scheme_never_accepted|].
  split; [exact validate_url_urlparse_raise|].
  repeat split; vm_compute; reflexivity.
Qed.

Lemma C4_other_schemes_witness :
  (exists r, UrlValidator.validate_url (U := Samples.unicode)
               (py "ftp://fileserver.com/data")
             = Raise (UrlValidator.InvalidURLError r))
  /\ (exists r, UrlValidator.validate_url (U := Samples.unicode)
                  (py "javascript:alert('XSS')")
                = Raise (UrlValidator.InvalidURLError r))
  /\ (exists r, UrlValidator.validate_url (U := Samples.unicode)
                  (py "file:///etc/passwd")
                = Raise (UrlValidator.InvalidURLError r)).
Proof.
  split; [|split].
  - destruct (proj1 (C4_other_schemes_not_always_InvalidURLError Samples.unicode)
                (py "ftp://fileserver.com/data"))
      as [H|[v [Hv _]]];
      [vm_compute; discriminate | vm_compute; reflexivity | exact H
      | vm_compute in Hv; discriminate].
  - destruct (proj1 (C4_other_schemes_not_always_InvalidURLError Samples.unicode)
                (py "javascript:alert('XSS')"))
      as [H|[v [Hv _]]];
      [vm_compute; discriminate | vm_compute; reflexivity | exact H
      | vm_compute in Hv; discriminate].
  - destruct (proj1 (C4_other_schemes_not_always_InvalidURLError Samples.unicode)
                (py "file:///etc/passwd"))
      as [H|[v [Hv _]]];
      [vm_compute; discriminate | vm_compute; reflexivity | exact H
      | vm_compute in Hv; discriminate].
Defined.

(** C6, what the code does: for a scheme-less input the prefix is put in
    front of the parsed path alone, so the result is that of the path
    without the query, the fragment and the parameters of the input, which
    are lost; an input with a port and no scheme reads as a URL whose
    scheme is the host name, and is rejected. *)
Theorem C6_scheme_less_input_loses_query :
  forall (U : Unicode),
    (forall url pu0,
        Urllib.urlparse url = Return pu0 ->
        Urllib.scheme pu0 = [] -> Urllib.netloc pu0 = [] ->
        Str.contains (ch ".") (Urllib.path pu0) = true ->
        length url <= UrlValidator.MAX_URL_LENGTH ->
        length (py "http://" ++ Urllib.path pu0) <= UrlValidator.MAX_URL_LENGTH ->
        UrlValidator.validate_url url
        = UrlValidator.validate_url (py "http://" ++ Urllib.path pu0))
    /\ UrlValidator.validate_url (py "example.com") = Return (py "http://example.com")
    /\ UrlValidator.validate_url (py "www.google.com/search?q=qr")
       = Return (py "http://www.google.com/search")
    /\ UrlValidator.validate_url (py "example.com/a;b?c=d#e")
       = Return (py "http://example.com/a")
    /\ UrlValidator.validate_url (py "example.com:8080/app")
       = Raise (UrlValidator.InvalidURLError UrlValidator.Malformed).
Proof.
  intros U. split; [exact scheme_less_path_only|].
  repeat split; vm_compute; reflexivity.
Qed.

(** * Further properties *)

(** ** What [validate_url] returns *)

Section ResultShape.
Import Urllib UrlValidator.
Context {U : Unicode}.

Lemma parse_inv_clean pu :
  parse_inv U pu -> clean (netloc pu ++ path pu ++ with_sep (ch ";") (params pu)
                           ++ with_sep (ch "?") (query pu)
                           ++ with_sep (ch "#") (fragment pu)).
Proof.
  intros [[[Hcn [Hcp [Hcq Hcf]]] _ _ _ _ _ _ _] _].
  cbn [s_netloc s_path s_query s_fragment] in *.
  apply clean_app; [assumption|].
  rewrite app_assoc. apply clean_app; [assumption|].
  apply clean_app; apply clean_with_sep; auto.
Qed.

Lemma urlunparse_shape pu :
  parse_inv U pu -> scheme pu <> [] -> netloc pu <> [] ->
  urlunparse pu
  = scheme pu ++ py "://" ++ netloc pu ++ path pu
      ++ with_sep (ch ";") (params pu) ++ with_sep (ch "?") (query pu)
      ++ with_sep (ch "#") (fragment pu).
Proof.
  intros Hinv Hs Hn. rewrite urlunparse_eq, urlunsplit_eq; auto.
  - rewrite <- !app_assoc. reflexivity.
  - destruct Hinv as [[_ _ _ _ Hhead _ _ _] _]. apply Hhead. exact Hn.
Qed.

End ResultShape.



(** X2: with well-formed [idna] tables, the URL that [validate_url]
    returns starts with ["http://"] or ["https://"] in lower case, and has
    no tab, carriage return or line feed in it. *)
Theorem X2_returned_url_shape :
  forall (U : Unicode), idna_wf U ->
  forall url n,
    UrlValidator.validate_url url = Return n ->
    (exists rest, n = py "http://" ++ rest \/ n = py "https://" ++ rest)
    /\ Str.contains 9%N n = false /\ Str.contains 13%N n = false
    /\ Str.contains 10%N n = false.
Proof.
  intros U Hwf url n Hv.
  destruct (validate_url_final Hwf _ _ Hv)
    as [qf [h [-> [Hinv [Hs [Hn _]]]]]].
  assert (Hsn : Urllib.scheme qf <> []) by (destruct Hs as [-> | ->]; discriminate).
  rewrite (urlunparse_shape _ Hinv Hsn Hn).
  pose proof (parse_inv_clean _ Hinv) as Hc.
  set (tail := Urllib.netloc qf ++ _) in *.
  split.
  - exists tail. destruct Hs as [-> | ->]; [left | right]; reflexivity.
  - assert (Hall : clean (Urllib.scheme qf ++ py "://" ++ tail)).
    { apply clean_app; [destruct Hs as [-> | ->]; intros c [<-|[<-|[<-|[]]]]; reflexivity|].
      apply clean_app; [intros c [<-|[<-|[<-|[]]]]; reflexivity | exact Hc]. }
    repeat split; apply Hall; simpl; auto.
Qed.

Lemma X2_returned_url_shape_witness :
  (exists rest, Samples.idn_normalized = py "http://" ++ rest
                \/ Samples.idn_normalized = py "https://" ++ rest)
  /\ Str.contains 9%N Samples.idn_normalized = false
  /\ Str.contains 13%N Samples.idn_normalized = false
  /\ Str.contains 10%N Samples.idn_normalized = false.
Proof.
  apply (X2_returned_url_shape Samples.unicode samples_wf Samples.idn_url).
  vm_compute. reflexivity.
Defined.

(** ** The parts of a parsed URL come from the input *)

Section Parts.
Import Urllib UrlValidator.
Context {U : Unicode}.

Lemma incl_cleaned url : incl (cleaned url) url.
Proof.
  unfold cleaned, _UNSAFE_URL_BYTES_TO_REMOVE. cbn [fold_left].
  eapply incl_tran; [apply incl_remove|].
  eapply incl_tran; [apply incl_remove|].
  eapply incl_tran; [apply incl_remove|]. apply incl_lstrip.
Qed.

(** The netloc and the path that [urlsplit] returns are made of characters
    of its input. *)
Lemma urlsplit_incl url r :
  urlsplit url = Return r -> incl (s_netloc r) url /\ incl (s_path r) url.
Proof.
  rewrite urlsplit_eq.
  destruct (split_scheme (cleaned url)) as [sch rest] eqn:Hs.
  destruct (split_scheme_spec _ _ _ Hs) as [Hrest _].
  assert (Hru : incl rest url)
    by (eapply incl_tran; [exact Hrest | apply incl_cleaned]).
  destruct (Str.eqb (firstn 2 rest) (py "//")) eqn:Hslash.
  - apply eqb_eq in Hslash. apply firstn_2_eq in Hslash.
    set (v := skipn 2 rest) in *. rewrite Hslash, splitnetloc_eq.
    destruct (check_brackets (firstn (netloc_end v) v)) as [[]|e];
      [|discriminate].
    cbn [bind].
    destruct (split_tail (skipn (netloc_end v) v)) as [[p q] f] eqn:Ht.
    destruct (_checknetloc (firstn (netloc_end v) v)) as [[]|e];
      [|discriminate].
    cbn [bind]. intros Heq; inversion Heq; subst r.
    destruct (split_tail_spec _ _ _ _ Ht) as [_ [_ [_ [Hip _]]]].
    assert (Hv : incl v url)
      by (eapply incl_tran; [apply incl_skipn | exact Hru]).
    cbn [s_netloc s_path]. split.
    + eapply incl_tran; [apply incl_firstn | exact Hv].
    + eapply incl_tran; [exact Hip|].
      eapply incl_tran; [apply incl_skipn | exact Hv].
  - cbn [bind].
    destruct (split_tail rest) as [[p q] f] eqn:Ht.
    cbn [_checknetloc Str.is_empty orb bind].
    intros Heq; inversion Heq; subst r.
    destruct (split_tail_spec _ _ _ _ Ht) as [_ [_ [_ [Hip _]]]].
    cbn [s_netloc s_path]. split; [intros x []|].
    eapply incl_tran; eauto.
Qed.

Lemma urlparse_incl url pu :
  urlparse url = Return pu -> incl (netloc pu) url /\ incl (path pu) url.
Proof.
  rewrite urlparse_eq. unfold bind.
  destruct (urlsplit url) as [[s n u q f]|e] eqn:Hs; [|discriminate].
  destruct (urlsplit_incl _ _ Hs) as [Hn Hu].
  cbn [s_scheme s_netloc s_path s_query s_fragment] in *.
  destruct (params_of s u) as [p pa] eqn:Hpo.
  intros Heq; inversion Heq; subst pu. cbn [netloc path].
  split; [exact Hn|].
  destruct (Str.mem s uses_params) eqn:Hmem.
  - destruct (params_of_again _ _ _ _ Hpo Hmem) as [_ [rest Hrest]].
    eapply incl_tran; [|exact Hu]. rewrite Hrest, <- app_assoc.
    apply incl_appl, incl_refl.
  - unfold params_of in Hpo. rewrite Hmem in Hpo. inversion Hpo; subst.
    exact Hu.
Qed.

End Parts.

(** ** Where [validate_url] raises *)

Section Total.
Import Urllib UrlValidator.
Context {U : Unicode}.

Lemma forallb_incl {A} (P : A -> bool) a s :
  incl a s -> forallb P s = true -> forallb P a = true.
Proof.
  rewrite !forallb_forall. intros Hi Hs x Hx. apply Hs, Hi, Hx.
Qed.

(** On ASCII text without square brackets [urlsplit] raises nothing. *)
Lemma urlsplit_ascii url :
  Str.isascii url = true ->
  Str.contains (ch "[") url = false -> Str.contains (ch "]") url = false ->
  exists r, urlsplit url = Return r.
Proof.
  intros Ha Ho Hc. rewrite urlsplit_eq.
  destruct (split_scheme (cleaned url)) as [sch rest] eqn:Hs.
  destruct (split_scheme_spec _ _ _ Hs) as [Hrest _].
  assert (Hru : incl rest url)
    by (eapply incl_tran; [exact Hrest | apply incl_cleaned]).
  destruct (Str.eqb (firstn 2 rest) (py "//")) eqn:Hslash.
  - assert (Hnu : incl (fst (_splitnetloc rest 2)) url).
    { unfold _splitnetloc. cbn [fst].
      eapply incl_tran; [apply incl_skipn|].
      eapply incl_tran; [apply incl_firstn | exact Hru]. }
    destruct (_splitnetloc rest 2) as [n u3]. cbn [fst] in Hnu.
    unfold check_brackets.
    rewrite (contains_incl _ _ _ Hnu Ho), (contains_incl _ _ _ Hnu Hc).
    cbn [andb orb negb bind].
    destruct (split_tail u3) as [[p q] f].
    assert (Han : Str.isascii n = true) by (apply (forallb_incl _ _ _ Hnu Ha)).
    unfold _checknetloc. rewrite Han, orb_true_r. cbn [bind]. eauto.
  - cbn [bind]. destruct (split_tail rest) as [[p q] f].
    cbn [_checknetloc Str.is_empty orb bind]. eauto.
Qed.

Lemma parse_ascii url :
  Str.isascii url = true ->
  Str.contains (ch "[") url = false -> Str.contains (ch "]") url = false ->
  exists pu, parse url = Return pu.
Proof.
  intros Ha Ho Hc. unfold parse. rewrite urlparse_eq.
  destruct (urlsplit_ascii _ Ha Ho Hc) as [r ->]. cbn [bind].
  destruct (params_of _ _) as [p pa]. eauto.
Qed.

Lemma parse_with_default_scheme_ascii url :
  Str.isascii url = true ->
  Str.contains (ch "[") url = false -> Str.contains (ch "]") url = false ->
  exists pu, parse_with_default_scheme url = Return pu.
Proof.
  intros Ha Ho Hc. unfold parse_with_default_scheme.
  destruct (parse_ascii _ Ha Ho Hc) as [pu Hp]. rewrite Hp. cbn [bind].
  assert (Hpre : forall x, incl x url -> exists pu', parse (py "http://" ++ x) = Return pu').
  { intros x Hx. apply parse_ascii.
    - unfold Str.isascii in *. rewrite forallb_app.
      rewrite (forallb_incl _ _ _ Hx Ha). reflexivity.
    - rewrite contains_app, (contains_incl _ _ _ Hx Ho). reflexivity.
    - rewrite contains_app, (contains_incl _ _ _ Hx Hc). reflexivity. }
  destruct (_ && _ && _).
  - apply Hpre, incl_refl.
  - destruct (_ && _ && _); [|eauto].
    destruct (Str.contains (ch ".") (path pu)); [|eauto].
    apply Hpre. unfold parse in Hp.
    destruct (urlparse url) as [pu0|] eqn:Hu; [|discriminate].
    inversion Hp; subst pu0. apply (urlparse_incl _ _ Hu).
Qed.

End Total.

(** X3: with well-formed [idna] tables, a URL whose host name is ASCII
    and has a character other than a letter, a digit, a hyphen or a dot,
    as the colon of an IPv6 literal or an underscore, is rejected with an
    [InvalidURLError]. *)
Theorem X3_host_with_other_characters_rejected :
  forall (U : Unicode), idna_wf U ->
  forall url pu h,
    UrlValidator.parse_with_default_scheme url = Return pu ->
    Urllib.hostname pu = Some h ->
    Str.isascii h = true ->
    forallb hostname_char (Str.ascii_lower h) = false ->
    exists r, UrlValidator.validate_url url
              = Raise (UrlValidator.InvalidURLError r).
Proof.
  intros U Hwf url pu h Hp Hh Hascii Hbad.
  unfold UrlValidator.validate_url.
  destruct (Str.is_empty url); [eauto|].
  destruct (Nat.ltb UrlValidator.MAX_URL_LENGTH (length url)); [eauto|].
  rewrite Hp. cbn [bind].
  destruct (Str.is_empty (Urllib.scheme pu) || Str.is_empty (Urllib.netloc pu));
    [eauto|].
  destruct (negb (Str.mem (str_lower (Urllib.scheme pu))
                    UrlValidator.ALLOWED_SCHEMES)); [eauto|].
  rewrite Hh. destruct (Str.is_empty h); [eauto|].
  unfold UrlValidator.punycode_netloc.
  destruct (IdnaEncode.encode h) as [p|[e|d]] eqn:He; cbn [bind]; [|eauto|eauto].
  destruct (encode_ascii_host Hwf _ _ Hascii He) as [Hlow Hchars].
  rewrite Hlow, Hbad in Hchars. discriminate.
Qed.

Lemma X3_host_with_other_characters_witness :
  exists r, UrlValidator.validate_url (U := Samples.unicode)
              (py "https://[2001:db8::1]/status")
            = Raise (UrlValidator.InvalidURLError r).
Proof.
  apply (X3_host_with_other_characters_rejected Samples.unicode samples_wf
           (py "https://[2001:db8::1]/status")
           (Urllib.mkParse (py "https") (py "[2001:db8::1]") (py "/status") [] [] [])
           (py "2001:db8::1")); vm_compute; reflexivity.
Defined.

(** X4: an input of at most 2048 characters in which [urlparse] finds no
    scheme, and which has no dot, is rejected as malformed: the prefix
    ["http://"] is only tried where there is a dot. *)
Theorem X4_no_scheme_and_no_dot_is_malformed :
  forall (U : Unicode) url pu,
    Urllib.urlparse url = Return pu ->
    Urllib.scheme pu = [] ->
    url <> [] -> length url <= UrlValidator.MAX_URL_LENGTH ->
    Str.contains (ch ".") url = false ->
    UrlValidator.validate_url url
    = Raise (UrlValidator.InvalidURLError UrlValidator.Malformed).
Proof.
  intros U url pu Hp Hs Hne Hlen Hdot.
  destruct (urlparse_incl _ _ Hp) as [Hn Hpa].
  unfold UrlValidator.validate_url.
  apply is_empty_false in Hne. rewrite Hne.
  replace (Nat.ltb UrlValidator.MAX_URL_LENGTH (length url)) with false
    by (symmetry; apply Nat.ltb_ge; exact Hlen).
  unfold UrlValidator.parse_with_default_scheme, UrlValidator.parse.
  rewrite Hp. cbn [bind]. rewrite Hs.
  rewrite (contains_incl _ _ _ Hn Hdot), (contains_incl _ _ _ Hpa Hdot).
  cbn [Str.is_empty andb orb]. rewrite andb_false_r.
  destruct (_ && _); cbn [bind]; rewrite Hs; reflexivity.
Qed.

Lemma X4_no_scheme_and_no_dot_witness :
  UrlValidator.validate_url (U := Samples.unicode) (py "localhost/test")
  = Raise (UrlValidator.InvalidURLError UrlValidator.Malformed).
Proof.
  apply (X4_no_scheme_and_no_dot_is_malformed Samples.unicode (py "localhost/test")
           (Urllib.mkParse [] [] (py "localhost/test") [] [] [])).
  - vm_compute. reflexivity.
  - reflexivity.
  - discriminate.
  - apply Nat.leb_le. vm_compute. reflexivity.
  - vm_compute. reflexivity.
Defined.

(** X6: for an ASCII input without square brackets, whatever
    [validate_url] raises is an [InvalidURLError]: [urlparse] has no
    [ValueError] of its own for it. *)
Theorem X6_ascii_input_raises_only_InvalidURLError :
  forall (U : Unicode) url e,
    Str.isascii url = true ->
    Str.contains (ch "[") url = false -> Str.contains (ch "]") url = false ->
    UrlValidator.validate_url url = Raise e ->
    exists r, e = UrlValidator.InvalidURLError r.
Proof.
  intros U url e Ha Ho Hc.
  unfold UrlValidator.validate_url.
  destruct (Str.is_empty url); [intros Heq; inversion Heq; eauto|].
  destruct (Nat.ltb UrlValidator.MAX_URL_LENGTH (length url));
    [intros Heq; inversion Heq; eauto|].
  destruct (parse_with_default_scheme_ascii _ Ha Ho Hc) as [pu ->].
  cbn [bind].
  destruct (Str.is_empty (Urllib.scheme pu) || Str.is_empty (Urllib.netloc pu));
    [intros Heq; inversion Heq; eauto|].
  destruct (negb (Str.mem (str_lower (Urllib.scheme pu))
                    UrlValidator.ALLOWED_SCHEMES));
    [intros Heq; inversion Heq; eauto|].
  destruct (Urllib.hostname pu) as [h|]; [|intros Heq; inversion Heq; eauto].
  destruct (Str.is_empty h); [intros Heq; inversion Heq; eauto|].
  destruct (UrlValidator.punycode_netloc pu h) as [q|e0] eqn:Hq; cbn [bind].
  - destruct (UrlValidator._is_private_ip _); [intros Heq; inversion Heq; eauto|].
    match goal with
    | |- context [if Str.is_empty ?x then _ else _] => destruct (Str.is_empty x)
    end; [intros Heq; inversion Heq; eauto | discriminate].
  - apply punycode_netloc_raise in Hq. destruct Hq as [r [-> _]].
    intros Heq; inversion Heq; eauto.
Qed.

Lemma X6_ascii_input_witness :
  exists r, UrlValidator.InvalidURLError (UrlValidator.InvalidScheme (py "ftp"))
            = UrlValidator.InvalidURLError r.
Proof.
  apply (X6_ascii_input_raises_only_InvalidURLError Samples.unicode
           (py "ftp://fileserver.com/data")); vm_compute; reflexivity.
Defined.

(** ** Input that starts with two slashes *)

Section ProtocolRelative.
Import Urllib UrlValidator.
Context {U : Unicode}.

Lemma remove3_app a b : remove3 (a ++ b) = remove3 a ++ remove3 b.
Proof.
  unfold remove3, _UNSAFE_URL_BYTES_TO_REMOVE, Str.remove. cbn [fold_left].
  rewrite !filter_app. reflexivity.
Qed.

Lemma incl_remove3 s : incl (remove3 s) s.
Proof.
  unfold remove3, _UNSAFE_URL_BYTES_TO_REMOVE. cbn [fold_left].
  eapply incl_tran; [apply incl_remove|].
  eapply incl_tran; [apply incl_remove|]. apply incl_remove.
Qed.

Lemma lstrip_split p s :
  exists ws, s = ws ++ Str.lstrip p s /\ forallb p ws = true.
Proof.
  induction s as [|d s [ws [Hs Hws]]]; [exists []; split; reflexivity|].
  cbn [Str.lstrip]. destruct (p d) eqn:Hd.
  - exists (d :: ws). cbn [app forallb]. rewrite Hd, Hws, <- Hs. split; reflexivity.
  - exists []. split; reflexivity.
Qed.

(** The input after the prefix, as [urlsplit] sees it: what it removes in
    front of the two slashes is removed, not stripped. *)
Lemma cleaned_http_prefix url :
  exists w,
    cleaned (py "http://" ++ url) = py "http://" ++ w ++ cleaned url
    /\ forallb is_c0_control_or_space w = true.
Proof.
  destruct (lstrip_split is_c0_control_or_space url) as [ws [Hs Hws]].
  exists (remove3 ws). split.
  - change (cleaned (py "http://" ++ url)) with (remove3 (py "http://" ++ url)).
    rewrite remove3_app. change (remove3 (py "http://")) with (py "http://").
    rewrite Hs at 1. rewrite remove3_app. reflexivity.
  - apply (forallb_incl _ _ _ (incl_remove3 ws) Hws).
Qed.

Lemma split_scheme_nil u rest : split_scheme u = ([], rest) -> rest = u.
Proof.
  unfold split_scheme.
  destruct (Str.find (ch ":") u) as [i|]; [|intros Heq; inversion Heq; reflexivity].
  destruct (Nat.ltb 0 i && _) eqn:Hc; [|intros Heq; inversion Heq; reflexivity].
  destruct (forallb is_scheme_char (firstn i u));
    [|intros Heq; inversion Heq; reflexivity].
  apply andb_true_iff in Hc. destruct Hc as [Hi Hu].
  apply Nat.ltb_lt in Hi. destruct u as [|c0 u]; [discriminate|].
  destruct i as [|i]; [lia|]. cbn [firstn Str.ascii_lower map]. discriminate.
Qed.

(** A netloc without a scheme: what [urlsplit] works on starts with two
    slashes. *)
Lemma netloc_without_scheme url pu :
  urlparse url = Return pu -> scheme pu = [] -> netloc pu <> [] ->
  exists v, cleaned url = ch "/" :: ch "/" :: v.
Proof.
  rewrite urlparse_eq, urlsplit_eq. unfold bind.
  destruct (split_scheme (cleaned url)) as [sch rest] eqn:Hs.
  destruct (Str.eqb (firstn 2 rest) (py "//")) eqn:Hslash.
  - destruct (_splitnetloc rest 2) as [n u3].
    destruct (check_brackets n) as [[]|]; [|discriminate].
    destruct (split_tail u3) as [[p q] f].
    destruct (_checknetloc n) as [[]|]; [|discriminate].
    cbn [s_scheme s_netloc s_path s_query s_fragment].
    destruct (params_of sch p) as [p' pa].
    intros Heq; inversion Heq; subst pu. cbn [scheme netloc]. intros -> _.
    apply split_scheme_nil in Hs. subst rest.
    apply eqb_eq in Hslash. apply firstn_2_eq in Hslash. eauto.
  - destruct (split_tail rest) as [[p q] f].
    cbn [_checknetloc Str.is_empty orb].
    cbn [s_scheme s_netloc s_path s_query s_fragment].
    destruct (params_of sch p) as [p' pa].
    intros Heq; inversion Heq; subst pu. cbn [netloc]. intros _ Hn.
    contradiction.
Qed.

Lemma c0_facts c :
  is_c0_control_or_space c = true ->
  is_delim c = false /\ N.ltb c 128 = true /\ Str.lower_char c = c
  /\ IdnaEncode.is_pvalid_ascii c = false
  /\ N.eqb c (ch "[") = false /\ N.eqb c (ch "]") = false
  /\ N.eqb c (ch "@") = false /\ N.eqb c (ch ":") = false
  /\ N.eqb c (ch "%") = false /\ N.eqb c (ch ".") = false
  /\ N.eqb (ch "x") c = false.
Proof.
  unfold is_c0_control_or_space, is_delim, Str.lower_char, Str.is_ascii_upper,
    IdnaEncode.is_pvalid_ascii, Str.is_ascii_digit, Str.is_ascii_lower.
  intros H. eval_ch. bool_hyps. repeat split; char_facts.
Qed.

Lemma c0_no c w :
  forallb is_c0_control_or_space w = true ->
  is_c0_control_or_space c = false -> Str.contains c w = false.
Proof. intros Hw Hc. eapply contains_forallb; eauto. Qed.

Lemma c0_lower w :
  forallb is_c0_control_or_space w = true -> Str.ascii_lower w = w.
Proof.
  induction w as [|c w IH]; [reflexivity|]. cbn [forallb]. intros H.
  apply andb_true_iff in H. destruct H as [Hc Hw].
  destruct (c0_facts _ Hc) as [_ [_ [Hl _]]].
  cbn [Str.ascii_lower map]. rewrite Hl. f_equal. apply IH, Hw.
Qed.

Lemma c0_ascii w :
  forallb is_c0_control_or_space w = true -> Str.isascii w = true.
Proof.
  unfold Str.isascii. rewrite !forallb_forall. intros H c Hc.
  apply (c0_facts _ (H c Hc)).
Qed.

Lemma c0_no_delim w :
  forallb is_c0_control_or_space w = true ->
  forallb (fun c => negb (is_delim c)) w = true.
Proof.
  rewrite !forallb_forall. intros H c Hc.
  destruct (c0_facts _ (H c Hc)) as [-> _]. reflexivity.
Qed.

(** The host name of a netloc of control characters and spaces is the
    netloc, and [idna] does not take it. *)
Lemma c0_hostname s w pa pr q f :
  forallb is_c0_control_or_space w = true -> w <> [] ->
  hostname (mkParse s w pa pr q f) = Some w.
Proof.
  intros Hw Hne. unfold hostname, _hostinfo. cbn [netloc].
  rewrite (rpartition_none _ _ (c0_no (ch "@") _ Hw eq_refl)).
  rewrite (partition_none _ _ (c0_no (ch "[") _ Hw eq_refl)).
  rewrite (partition_none _ _ (c0_no (ch ":") _ Hw eq_refl)).
  cbn [fst]. apply is_empty_false in Hne. rewrite Hne.
  rewrite (partition_none _ _ (c0_no (ch "%") _ Hw eq_refl)).
  unfold str_lower. rewrite (c0_ascii _ Hw), (c0_lower _ Hw), !app_nil_r.
  reflexivity.
Qed.

Lemma c0_encode w :
  forallb is_c0_control_or_space w = true -> w <> [] ->
  exists e, IdnaEncode.encode w = Raise (Idna.IDNA e).
Proof.
  intros Hw Hne. unfold IdnaEncode.encode, IdnaEncode.encode_ascii.
  rewrite (c0_ascii _ Hw), (c0_lower _ Hw).
  rewrite (split_no_sep _ _ (c0_no (ch ".") _ Hw eq_refl)).
  destruct w as [|c w]; [contradiction|].
  cbn [last Str.is_empty IdnaEncode.alabels bind].
  cbn [forallb] in Hw. apply andb_true_iff in Hw. destruct Hw as [Hc Hw].
  destruct (c0_facts _ Hc) as [_ [_ [_ [Hpv [_ [_ [_ [_ [_ [_ Hx]]]]]]]]]].
  unfold IdnaEncode.alabel.
  replace (Str.startswith (py "xn--") (c :: w)) with false
    by (cbn [py map list_ascii_of_string Str.startswith]; rewrite Hx; reflexivity).
  unfold IdnaEncode.check_label. cbn [Str.is_empty].
  destruct (IdnaEncode.check_hyphen_ok (c :: w)) as [e|]; cbn [bind]; [eauto|].
  cbn [IdnaEncode.first_invalid]. rewrite Hpv. cbn [bind]. eauto.
Qed.

Lemma http_prefix_parse url v :
  cleaned url = ch "/" :: ch "/" :: v ->
  exists w pa pr q f,
    urlparse (py "http://" ++ url) = Return (mkParse (py "http") w pa pr q f)
    /\ forallb is_c0_control_or_space w = true.
Proof.
  intros Hv. destruct (cleaned_http_prefix url) as [w [Hc Hw]].
  rewrite Hv in Hc. exists w.
  rewrite urlparse_eq, urlsplit_eq, Hc.
  change (split_scheme (py "http://" ++ w ++ ch "/" :: ch "/" :: v))
    with (py "http", ch "/" :: ch "/" :: w ++ ch "/" :: ch "/" :: v).
  cbv iota beta.
  replace (Str.eqb (firstn 2 (ch "/" :: ch "/" :: w ++ ch "/" :: ch "/" :: v))
             (py "//")) with true by reflexivity.
  rewrite (splitnetloc_app w (ch "/" :: ch "/" :: v) (c0_no_delim _ Hw) eq_refl).
  unfold check_brackets.
  rewrite (c0_no (ch "[") _ Hw eq_refl), (c0_no (ch "]") _ Hw eq_refl).
  cbn [andb orb negb bind].
  destruct (split_tail (ch "/" :: ch "/" :: v)) as [[p q] f].
  unfold _checknetloc. rewrite (c0_ascii _ Hw), orb_true_r. cbn [bind].
  cbn [s_scheme s_netloc s_path s_query s_fragment].
  destruct (params_of (py "http") p) as [p' pa]. eauto 10.
Qed.

End ProtocolRelative.

(** X5: an input in which [urlparse] finds a netloc and no scheme, one
    that starts with two slashes, is always rejected with an
    [InvalidURLError]: with ["http://"] in front of the whole input the
    netloc is empty, or made of the control characters and spaces before
    the slashes. *)
Theorem X5_protocol_relative_input_rejected :
  forall (U : Unicode) url pu,
    Urllib.urlparse url = Return pu ->
    Urllib.scheme pu = [] -> Urllib.netloc pu <> [] ->
    exists r, UrlValidator.validate_url url
              = Raise (UrlValidator.InvalidURLError r).
Proof.
  intros U url pu Hp Hs Hn.
  destruct (netloc_without_scheme _ _ Hp Hs Hn) as [v Hv].
  destruct (http_prefix_parse _ _ Hv) as [w [pa [pr [q [f [Hre Hw]]]]]].
  unfold UrlValidator.validate_url.
  destruct (Str.is_empty url); [eauto|].
  destruct (Nat.ltb UrlValidator.MAX_URL_LENGTH (length url)); [eauto|].
  unfold UrlValidator.parse_with_default_scheme, UrlValidator.parse.
  rewrite Hp. cbn [bind]. rewrite Hs.
  apply is_empty_false in Hn. rewrite Hn. cbn [Str.is_empty andb negb].
  destruct (Str.contains (ch ".") (Urllib.netloc pu)).
  - rewrite Hre. cbn [bind Urllib.scheme Urllib.netloc].
    replace (Str.is_empty (py "http")) with false by reflexivity.
    destruct w as [|c w]; [cbn [Str.is_empty orb]; eauto|].
    cbn [Str.is_empty orb].
    replace (negb (Str.mem (str_lower (py "http")) UrlValidator.ALLOWED_SCHEMES))
      with false by reflexivity.
    rewrite (c0_hostname (py "http") (c :: w) pa pr q f Hw ltac:(discriminate)).
    cbn [Str.is_empty]. unfold UrlValidator.punycode_netloc.
    destruct (c0_encode (c :: w) Hw ltac:(discriminate)) as [e ->]. cbn [bind]. eauto.
  - cbn [bind]. rewrite Hs. cbn [Str.is_empty orb]. eauto.
Qed.

Lemma X5_protocol_relative_witness :
  exists r, UrlValidator.validate_url (U := Samples.unicode)
              (py "//example.com/path")
            = Raise (UrlValidator.InvalidURLError r).
Proof.
  apply (X5_protocol_relative_input_rejected Samples.unicode
           (py "//example.com/path")
           (Urllib.mkParse [] (py "example.com") (py "/path") [] [] [])).
  - vm_compute. reflexivity.
  - reflexivity.
  - discriminate.
Defined.

(** ** Characters that [urlsplit] removes *)

Section Smuggled.
Import Urllib UrlValidator.
Context {U : Unicode}.

Lemma lstrip_not_c0 s :
  match Str.lstrip is_c0_control_or_space s with
  | [] => True
  | c :: _ => is_c0_control_or_space c = false
  end.
Proof.
  induction s as [|d s IH]; cbn [Str.lstrip]; [exact I|].
  destruct (is_c0_control_or_space d) eqn:Hd; [exact IH | exact Hd].
Qed.

Lemma remove_head c x s :
  N.eqb x c = false -> Str.remove c (x :: s) = x :: Str.remove c s.
Proof. intros H. unfold Str.remove. cbn [filter]. rewrite H. reflexivity. Qed.

(** What [urlsplit] works on is left as it is by its own cleaning. *)
Lemma cleaned_idem url : cleaned (cleaned url) = cleaned url.
Proof.
  pose proof (cleaned_clean url) as Hc.
  pose proof (lstrip_not_c0 url) as Hh.
  destruct (cleaned url) as [|x s] eqn:Hx; [reflexivity|].
  apply cleaned_id; [|exact Hc].
  unfold cleaned, _UNSAFE_URL_BYTES_TO_REMOVE in Hx. cbn [fold_left] in Hx.
  destruct (Str.lstrip is_c0_control_or_space url) as [|y t]; [discriminate|].
  assert (Hy : N.eqb y 9 = false /\ N.eqb y 13 = false /\ N.eqb y 10 = false).
  { unfold is_c0_control_or_space in Hh. bool_hyps. repeat split; char_facts. }
  destruct Hy as [H9 [H13 H10]].
  rewrite (remove_head _ _ _ H9), (remove_head _ _ _ H13),
    (remove_head _ _ _ H10) in Hx.
  inversion Hx; subst. exact Hh.
Qed.

Lemma urlsplit_cleaned url : urlsplit (cleaned url) = urlsplit url.
Proof. rewrite !urlsplit_eq, cleaned_idem. reflexivity. Qed.

Lemma urlparse_cleaned url : urlparse (cleaned url) = urlparse url.
Proof. rewrite !urlparse_eq, urlsplit_cleaned. reflexivity. Qed.

Lemma length_remove c s : length (Str.remove c s) <= length s.
Proof. unfold Str.remove. apply filter_length_le. Qed.

Lemma length_lstrip p s : length (Str.lstrip p s) <= length s.
Proof.
  induction s as [|d s IH]; cbn [Str.lstrip length]; [lia|].
  destruct (p d); cbn [length]; lia.
Qed.

Lemma length_cleaned url : length (cleaned url) <= length url.
Proof.
  unfold cleaned, _UNSAFE_URL_BYTES_TO_REMOVE. cbn [fold_left].
  pose proof (length_lstrip is_c0_control_or_space url).
  set (s := Str.lstrip is_c0_control_or_space url) in *.
  pose proof (length_remove 9%N s).
  pose proof (length_remove 13%N (Str.remove 9%N s)).
  pose proof (length_remove 10%N (Str.remove 13%N (Str.remove 9%N s))).
  lia.
Qed.

Lemma validate_url_with_scheme url pu :
  urlparse url = Return pu -> scheme pu <> [] ->
  url <> [] -> length url <= MAX_URL_LENGTH ->
  validate_url url
  = (parsed_url <- Return pu ;;
     if Str.is_empty (scheme parsed_url) || Str.is_empty (netloc parsed_url)
     then Raise (InvalidURLError Malformed)
     else if negb (Str.mem (str_lower (scheme parsed_url)) ALLOWED_SCHEMES)
     then Raise (InvalidURLError (InvalidScheme (scheme parsed_url)))
     else
       match hostname parsed_url with
       | None => Raise (InvalidURLError MissingHostname)
       | Some host =>
           if Str.is_empty host then Raise (InvalidURLError MissingHostname)
           else
             parsed_url <- punycode_netloc parsed_url host ;;
             if _is_private_ip (str_of_optional (hostname parsed_url))
             then Raise (InvalidURLError (PrivateOrLoopback (hostname parsed_url)))
             else
               let normalized_url :=
                 urlunparse (mkParse (str_lower (scheme parsed_url))
                               (netloc parsed_url) (path parsed_url)
                               (params parsed_url) (query parsed_url)
                               (fragment parsed_url)) in
               if Str.is_empty normalized_url
               then Raise (InvalidURLError EmptyAfterNormalization)
               else Return normalized_url
       end).
Proof.
  intros Hp Hs Hne Hlen. unfold validate_url.
  apply is_empty_false in Hne. rewrite Hne.
  replace (Nat.ltb MAX_URL_LENGTH (length url)) with false
    by (symmetry; apply Nat.ltb_ge; exact Hlen).
  rewrite (parse_with_default_scheme_scheme _ _ Hp Hs). reflexivity.
Qed.

End Smuggled.

(** X7: for an input of at most 2048 characters with a scheme,
    [validate_url] gives what it gives for the input without the characters
    that [urlsplit] drops: control characters and spaces in front, and tabs,
    carriage returns and line feeds anywhere. *)
Theorem X7_removed_characters_do_not_count :
  forall (U : Unicode) url pu,
    Urllib.urlparse url = Return pu ->
    Urllib.scheme pu <> [] ->
    length url <= UrlValidator.MAX_URL_LENGTH ->
    UrlValidator.validate_url url = UrlValidator.validate_url (cleaned url).
Proof.
  intros U url pu Hp Hs Hlen.
  assert (Hc : cleaned url <> []).
  { intros Hnil. rewrite <- urlparse_cleaned, Hnil in Hp.
    assert (Hx : Urllib.urlparse [] = Return (Urllib.mkParse [] [] [] [] [] []))
      by reflexivity.
    rewrite Hx in Hp. inversion Hp; subst pu. apply Hs. reflexivity. }
  assert (Hu : url <> []) by (intros ->; apply Hc; reflexivity).
  rewrite (validate_url_with_scheme url pu Hp Hs Hu Hlen).
  rewrite (validate_url_with_scheme (cleaned url) pu); auto.
  - rewrite urlparse_cleaned. exact Hp.
  - pose proof (length_cleaned url). lia.
Qed.

Lemma X7_removed_characters_witness :
  UrlValidator.validate_url (U := Samples.unicode)
    (ch " " :: py "ht" ++ 10%N :: py "tp://exa" ++ 9%N :: py "mple.com/")
  = UrlValidator.validate_url (U := Samples.unicode)
      (cleaned (ch " " :: py "ht" ++ 10%N :: py "tp://exa" ++ 9%N :: py "mple.com/")).
Proof.
  apply (X7_removed_characters_do_not_count Samples.unicode _
           (Urllib.mkParse (py "http") (py "example.com") (py "/") [] [] [])).
  - vm_compute. reflexivity.
  - discriminate.
  - apply Nat.leb_le. vm_compute. reflexivity.
Defined.

(** ** IPv4 addresses, octet by octet *)

Section Quads.
Import Ipaddress.

Lemma lor_shiftl_8 x d : (d < 256 -> N.lor (N.shiftl x 8) d = x * 256 + d)%N.
Proof.
  intros Hd. rewrite N.shiftl_mul_pow2. change (2 ^ 8)%N with 256%N.
  symmetry. rewrite N.add_nocarry_lxor.
  - apply N.lxor_lor.
    apply N.bits_inj. intros n. rewrite N.land_spec, N.bits_0.
    destruct (N.ltb n 8) eqn:Hn.
    + apply N.ltb_lt in Hn. change 256%N with (2 ^ 8)%N.
      rewrite N.mul_pow2_bits_low by assumption. reflexivity.
    + apply N.ltb_ge in Hn. apply andb_false_iff. right.
      destruct (N.eq_dec d 0) as [->|Hz]; [apply N.bits_0|].
      apply N.bits_above_log2.
      assert (N.log2 d < 8)%N; [|lia].
      apply N.log2_lt_pow2; [lia | exact Hd].
  - apply N.bits_inj. intros n. rewrite N.land_spec, N.bits_0.
    destruct (N.ltb n 8) eqn:Hn.
    + apply N.ltb_lt in Hn. change 256%N with (2 ^ 8)%N.
      rewrite N.mul_pow2_bits_low by assumption. reflexivity.
    + apply N.ltb_ge in Hn. apply andb_false_iff. right.
      destruct (N.eq_dec d 0) as [->|Hz]; [apply N.bits_0|].
      apply N.bits_above_log2.
      assert (N.log2 d < 8)%N; [|lia].
      apply N.log2_lt_pow2; [lia | exact Hd].
Qed.

Lemma v4_eq a b c d :
  (b <= 255 -> c <= 255 -> d <= 255 ->
   v4 a b c d = a * 16777216 + b * 65536 + c * 256 + d)%N.
Proof.
  intros Hb Hc Hd. unfold v4, from_digits. cbn [fold_left].
  rewrite N.shiftl_0_l, N.lor_0_l.
  rewrite !lor_shiftl_8 by lia. lia.
Qed.

Lemma in_net ip n p q m :
  N.shiftr n (32 - p) = q -> (2 ^ (32 - p))%N = m ->
  in_network 32 (n, p) ip = N.eqb (ip / m) q.
Proof.
  intros <- <-. unfold in_network. cbn [fst snd].
  rewrite N.shiftr_div_pow2. reflexivity.
Qed.

Ltac nets :=
  repeat match goal with
         | |- context [in_network 32 (?n, ?p) ?ip] =>
             let q := eval vm_compute in (N.shiftr n (32 - p)) in
             let m := eval vm_compute in (2 ^ (32 - p))%N in
             rewrite (in_net ip n p q m eq_refl eq_refl)
         end.

Ltac pick :=
  match goal with
  | |- _ \/ _ => first [left; pick | right; pick]
  | |- _ /\ _ => split; pick
  | |- _ => first [reflexivity | lia]
  end.

Lemma v4_private_spec a b c d :
  (a <= 255 -> b <= 255 -> c <= 255 -> d <= 255 ->
   (v4_is_private (v4 a b c d)
    || in_network 32 v4_loopback_network (v4 a b c d) = true
    <-> private_quad a b c d))%N.
Proof.
  intros Ha Hb Hc Hd. rewrite v4_eq by assumption.
  set (ip := (a * 16777216 + b * 65536 + c * 256 + d)%N).
  unfold v4_is_private, v4_private_networks, v4_private_networks_exceptions,
    v4_loopback_network.
  cbn [existsb forallb]. nets.
  assert (H24 : (ip / 16777216 = a)%N) by (subst ip; symmetry; apply N.div_unique with (b * 65536 + c * 256 + d)%N; lia).
  assert (H16 : (ip / 65536 = a * 256 + b)%N) by (subst ip; symmetry; apply N.div_unique with (c * 256 + d)%N; lia).
  assert (H8 : (ip / 256 = a * 65536 + b * 256 + c)%N) by (subst ip; symmetry; apply N.div_unique with d; lia).
  assert (H1 : (ip / 1 = ip)%N) by apply N.div_1_r.
  assert (H20 : (ip / 1048576 = a * 16 + b / 16)%N).
  { subst ip. pose proof (N.div_mod b 16 ltac:(lia)) as Hdm.
    pose proof (N.mod_lt b 16 ltac:(lia)).
    symmetry; apply N.div_unique with ((b mod 16) * 65536 + c * 256 + d)%N; lia. }
  assert (H17 : (ip / 131072 = a * 128 + b / 2)%N).
  { subst ip. pose proof (N.div_mod b 2 ltac:(lia)) as Hdm.
    pose proof (N.mod_lt b 2 ltac:(lia)).
    symmetry; apply N.div_unique with ((b mod 2) * 65536 + c * 256 + d)%N; lia. }
  assert (H28 : (ip / 268435456 = a / 16)%N).
  { subst ip. pose proof (N.div_mod a 16 ltac:(lia)) as Hdm.
    pose proof (N.mod_lt a 16 ltac:(lia)).
    symmetry; apply N.div_unique with ((a mod 16) * 16777216 + b * 65536 + c * 256 + d)%N; lia. }
  assert (H2 : (ip / 2 = a * 8388608 + b * 32768 + c * 128 + d / 2)%N).
  { subst ip. pose proof (N.div_mod d 2 ltac:(lia)) as Hdm.
    pose proof (N.mod_lt d 2 ltac:(lia)).
    symmetry; apply N.div_unique with (d mod 2)%N; lia. }
  rewrite ?H24, ?H16, ?H8, ?H1, ?H20, ?H17, ?H28, ?H2.
  pose proof (N.div_mod b 16 ltac:(lia)). pose proof (N.mod_lt b 16 ltac:(lia)).
  pose proof (N.div_mod b 2 ltac:(lia)). pose proof (N.mod_lt b 2 ltac:(lia)).
  pose proof (N.div_mod a 16 ltac:(lia)). pose proof (N.mod_lt a 16 ltac:(lia)).
  pose proof (N.div_mod d 2 ltac:(lia)). pose proof (N.mod_lt d 2 ltac:(lia)).
  generalize dependent (b / 16)%N. generalize dependent (b mod 16)%N.
  generalize dependent (b / 2)%N. generalize dependent (b mod 2)%N.
  generalize dependent (a / 16)%N. generalize dependent (a mod 16)%N.
  generalize dependent (d / 2)%N. generalize dependent (d mod 2)%N.
  intros. subst ip. unfold private_quad.
  repeat first [ rewrite orb_true_iff | rewrite andb_true_iff
               | rewrite negb_true_iff | rewrite N.eqb_eq | rewrite N.eqb_neq ].
  split.
  - intros [[Hx [E1 [E2 _]]] | Hx]; [|pick].
    repeat (destruct Hx as [Hx|Hx]; [pick|]). discriminate Hx.
  - intros Hx. repeat (destruct Hx as [Hx|Hx]; [pick|]). pick.
Qed.

End Quads.

Section QuadText.
Import Ipaddress.

Lemma split_app_sep c a rest :
  Str.contains c a = false ->
  Str.split c (a ++ c :: rest) = a :: Str.split c rest.
Proof.
  induction a as [|d a IH]; cbn [app Str.split Str.contains].
  - intros _. rewrite N.eqb_refl. reflexivity.
  - intros H. apply orb_false_iff in H. destruct H as [Hd Ha].
    rewrite Hd, (IH Ha). reflexivity.
Qed.

Lemma digits_not_nil fuel b n : Str.digits (S fuel) b n <> [].
Proof.
  cbn [Str.digits]. destruct (N.ltb n b); [discriminate|].
  destruct (Str.digits fuel b (n / b)); discriminate.
Qed.

Lemma of_int_no c n :
  Str.is_ascii_digit c = false -> Str.contains c (Str.of_int n) = false.
Proof.
  intros Hc. eapply contains_forallb; [apply digits_are_digits | exact Hc].
Qed.

(** The decimal digits. *)
Lemma digit_cases c :
  Str.is_ascii_digit c = true -> In c (List.map N.of_nat (seq 48 10)).
Proof.
  unfold Str.is_ascii_digit. intros H. bool_hyps.
  assert (Hc : (c = 48 \/ c = 49 \/ c = 50 \/ c = 51 \/ c = 52 \/ c = 53
                \/ c = 54 \/ c = 55 \/ c = 56 \/ c = 57)%N) by lia.
  repeat (destruct Hc as [->|Hc]; [vm_compute; tauto|]). subst c.
  vm_compute. tauto.
Qed.

(** What [_parse_octet] reads is the decimal text of what it returns. *)
Lemma parse_octet_text o a :
  _parse_octet o = Some a -> o = Str.of_int a /\ (a <= 255)%N.
Proof.
  set (ds := List.map N.of_nat (seq 48 10)).
  set (ok := fun o => match _parse_octet o with
                      | Some a => Str.eqb o (Str.of_int a) && N.leb a 255
                      | None => true
                      end).
  assert (H1 : forallb (fun c0 => ok [c0]) ds = true) by (vm_compute; reflexivity).
  assert (H2 : forallb (fun c0 => forallb (fun c1 => ok [c0; c1]) ds) ds = true)
    by (vm_compute; reflexivity).
  assert (H3 : forallb (fun c0 => forallb (fun c1 =>
                 forallb (fun c2 => ok [c0; c1; c2]) ds) ds) ds = true)
    by (vm_compute; reflexivity).
  intros Ho.
  assert (Hok : ok o = true).
  { pose proof Ho as Ho'. unfold _parse_octet in Ho'.
    destruct o as [|c0 o]; [discriminate|].
    destruct (Str.is_ascii_digits (c0 :: o)) eqn:Hd; [|discriminate].
    cbn [negb] in Ho'.
    destruct (Nat.ltb 3 (length (c0 :: o))) eqn:Hl; [discriminate|].
    apply Nat.ltb_ge in Hl. cbn [Str.is_ascii_digits forallb] in Hd.
    rewrite forallb_forall in H1, H2, H3.
    destruct o as [|c1 [|c2 [|c3 o]]]; cbn [length] in Hl; [| | |lia];
      cbn [forallb] in Hd; bool_hyps;
      repeat match goal with
             | H : Str.is_ascii_digit _ = true |- _ => apply digit_cases in H
             end.
    - apply H1; assumption.
    - specialize (H2 c0 ltac:(assumption)). rewrite forallb_forall in H2.
      apply H2; assumption.
    - specialize (H3 c0 ltac:(assumption)). rewrite forallb_forall in H3.
      specialize (H3 c1 ltac:(assumption)). rewrite forallb_forall in H3.
      apply H3; assumption. }
  unfold ok in Hok. rewrite Ho in Hok. apply andb_true_iff in Hok.
  destruct Hok as [He Hle]. apply eqb_eq in He. apply N.leb_le in Hle. auto.
Qed.

(** And it reads the decimal text of every octet. *)
Lemma parse_octet_of_int a :
  (a <= 255)%N -> _parse_octet (Str.of_int a) = Some a.
Proof.
  intros Ha.
  assert (Hall : forallb (fun n => match _parse_octet (Str.of_int (N.of_nat n)) with
                                   | Some v => N.eqb v (N.of_nat n)
                                   | None => false
                                   end) (seq 0 256) = true)
    by (vm_compute; reflexivity).
  rewrite forallb_forall in Hall.
  specialize (Hall (N.to_nat a)). rewrite N2Nat.id in Hall.
  destruct (_parse_octet (Str.of_int a)) as [v|].
  - f_equal. apply N.eqb_eq. apply Hall. apply in_seq. lia.
  - discriminate Hall. apply in_seq. lia.
Qed.

Lemma split_dotted a b c d :
  Str.split (ch ".") (dotted_quad a b c d)
  = [Str.of_int a; Str.of_int b; Str.of_int c; Str.of_int d].
Proof.
  unfold dotted_quad.
  rewrite !split_app_sep by (apply of_int_no; reflexivity).
  rewrite split_no_sep by (apply of_int_no; reflexivity). reflexivity.
Qed.

Lemma parse_v4_dotted a b c d :
  (a <= 255 -> b <= 255 -> c <= 255 -> d <= 255 ->
   parse_v4 (dotted_quad a b c d) = Some (v4 a b c d))%N.
Proof.
  intros Ha Hb Hc Hd. unfold parse_v4.
  replace (Str.contains (ch "/") (dotted_quad a b c d)) with false.
  2:{ symmetry. unfold dotted_quad.
      repeat (rewrite contains_app, of_int_no by reflexivity;
              cbn [orb Str.contains]).
      rewrite of_int_no by reflexivity. reflexivity. }
  unfold v4_ip_int_from_string. rewrite split_dotted.
  cbn [length Nat.eqb negb parse_all].
  rewrite !parse_octet_of_int by assumption.
  unfold dotted_quad, Str.of_int.
  destruct (Str.digits 20 10 a) eqn:Hda; [|reflexivity].
  exfalso. exact (digits_not_nil _ _ _ Hda).
Qed.

Lemma parse_v4_text s ip :
  parse_v4 s = Some ip ->
  exists a b c d,
    (a <= 255 /\ b <= 255 /\ c <= 255 /\ d <= 255)%N
    /\ s = dotted_quad a b c d /\ ip = v4 a b c d.
Proof.
  unfold parse_v4. destruct (Str.contains (ch "/") s); [discriminate|].
  unfold v4_ip_int_from_string. destruct s as [|c0 s]; [discriminate|].
  pose proof (join_split (ch ".") (c0 :: s)) as Hj.
  destruct (Str.split (ch ".") (c0 :: s)) as [|o1 [|o2 [|o3 [|o4 [|o5 os]]]]];
    try discriminate.
  cbn [length Nat.eqb negb parse_all].
  destruct (_parse_octet o1) as [a|] eqn:H1; [|discriminate].
  destruct (_parse_octet o2) as [b|] eqn:H2; [|discriminate].
  destruct (_parse_octet o3) as [c|] eqn:H3; [|discriminate].
  destruct (_parse_octet o4) as [d|] eqn:H4; [|discriminate].
  intros Heq; inversion Heq; subst ip.
  apply parse_octet_text in H1, H2, H3, H4.
  destruct H1 as [-> Ha], H2 as [-> Hb], H3 as [-> Hc], H4 as [-> Hd].
  exists a, b, c, d. split; [auto|]. split; [|reflexivity].
  rewrite <- Hj. reflexivity.
Qed.

Lemma parse_v6_colon s : Str.contains (ch ":") s = false -> parse_v6 s = None.
Proof.
  intros Hc. unfold parse_v6.
  destruct (Str.contains (ch "/") s); [reflexivity|].
  unfold _split_scope_id.
  destruct (Str.partition (ch "%") s) as [[addr sep] scope_id] eqn:Hpart.
  destruct (partition_incl _ _ _ _ _ Hpart) as [Hincl _].
  assert (Hv6 : v6_ip_int_from_string addr = None).
  { unfold v6_ip_int_from_string. destruct addr as [|c addr]; [reflexivity|].
    rewrite (split_no_sep _ _ (contains_incl _ _ _ Hincl Hc)). reflexivity. }
  destruct (negb sep); [rewrite Hv6; reflexivity|].
  destruct (is_empty scope_id || Str.contains (ch "%") scope_id);
    [reflexivity|]. rewrite Hv6. reflexivity.
Qed.

End QuadText.

Lemma is_private_ip_quad s :
  Str.contains (ch ":") s = false ->
  (UrlValidator._is_private_ip s = true
   <-> exists a b c d,
         (a <= 255 /\ b <= 255 /\ c <= 255 /\ d <= 255)%N
         /\ s = dotted_quad a b c d /\ private_quad a b c d).
Proof.
  intros Hc. unfold UrlValidator._is_private_ip, Ipaddress.ip_address.
  rewrite (parse_v6_colon _ Hc). split.
  - destruct (Ipaddress.parse_v4 s) as [ip|] eqn:H4; [|discriminate].
    destruct (parse_v4_text _ _ H4) as [a [b [c [d [[Ha [Hb [Hcc Hd]]] [Hs Hip]]]]]].
    subst ip. cbn [Ipaddress.is_private Ipaddress.is_loopback].
    intros Hp. exists a, b, c, d. split; [auto|]. split; [exact Hs|].
    apply v4_private_spec; assumption.
  - intros [a [b [c [d [[Ha [Hb [Hcc Hd]]] [-> Hq]]]]]].
    rewrite parse_v4_dotted by assumption.
    cbn [Ipaddress.is_private Ipaddress.is_loopback].
    apply v4_private_spec; assumption.
Qed.

(** X8: a string without a colon is taken by [_is_private_ip] exactly
    when it is the dotted-decimal text, without leading zeros, of four
    octets in one of the private networks of [ipaddress] or in the loopback
    network. *)
Theorem X8_private_ip_without_colon :
  forall s,
    Str.contains (ch ":") s = false ->
    (UrlValidator._is_private_ip s = true
     <-> exists a b c d,
           (a <= 255 /\ b <= 255 /\ c <= 255 /\ d <= 255)%N
           /\ s = dotted_quad a b c d /\ private_quad a b c d).
Proof.
  exact is_private_ip_quad.
Qed.

Lemma X8_private_ip_without_colon_witness :
  UrlValidator._is_private_ip (py "192.168.1.1") = true
  <-> exists a b c d,
        (a <= 255 /\ b <= 255 /\ c <= 255 /\ d <= 255)%N
        /\ py "192.168.1.1" = dotted_quad a b c d /\ private_quad a b c d.
Proof.
  apply (X8_private_ip_without_colon (py "192.168.1.1")). reflexivity.
Defined.

(** ** What the encoder's pattern matches *)

Section Patterns.
Import Re.

Lemma consumes_refl q s : consumes q s s.
Proof. exists []. split; reflexivity. Qed.

Lemma consumes_trans q s t u :
  consumes q s t -> consumes q t u -> consumes q s u.
Proof.
  intros [p1 [-> H1]] [p2 [-> H2]]. exists (p1 ++ p2).
  rewrite <- app_assoc, forallb_app, H1, H2. split; reflexivity.
Qed.

Lemma iterate_consumes q step :
  (forall s t, In t (step s) -> consumes q s t) ->
  forall fuel s t, In t (iterate fuel step s) -> consumes q s t.
Proof.
  intros Hstep. induction fuel as [|fuel IH]; intros s t; cbn [iterate].
  - intros [<-|[]]. apply consumes_refl.
  - intros [<-|Hin]; [apply consumes_refl|].
    apply in_flat_map in Hin. destruct Hin as [u [Hu Ht]].
    apply filter_In in Hu. destruct Hu as [Hu _].
    eapply consumes_trans; [apply Hstep; exact Hu | apply IH; exact Ht].
Qed.

(** What a pattern matches is made of characters that its classes take. *)
Lemma residuals_consumes q r :
  within q r -> forall s t, In t (residuals r s) -> consumes q s t.
Proof.
  induction r as [|p|a IHa b IHb|a IHa b IHb|a IHa]; cbn [within residuals].
  - intros _ s t [<-|[]]. apply consumes_refl.
  - intros Hp [|c s] t; [intros []|].
    destruct (p c) eqn:Hc; [|intros []]. intros [<-|[]].
    exists [c]. cbn [forallb app]. rewrite (Hp c Hc). split; reflexivity.
  - intros [Ha Hb] s t Hin. apply in_flat_map in Hin.
    destruct Hin as [u [Hu Ht]].
    eapply consumes_trans; [apply (IHa Ha); exact Hu | apply (IHb Hb); exact Ht].
  - intros [Ha Hb] s t Hin. apply in_app_or in Hin.
    destruct Hin as [Hin|Hin]; [apply (IHa Ha) | apply (IHb Hb)]; exact Hin.
  - intros Ha s t. apply iterate_consumes. apply (IHa Ha).
Qed.

Lemma within_Opt q r : within q r -> within q (Opt r).
Proof. intros H. split; [exact H | exact I]. Qed.

Lemma within_Plus q r : within q r -> within q (Plus r).
Proof. intros H. split; exact H. Qed.

Lemma within_times q n r : within q r -> within q (times n r).
Proof. intros H. induction n; cbn [times within]; auto. Qed.

Lemma within_upto q n r : within q r -> within q (upto n r).
Proof.
  intros H. induction n; cbn [upto]; [exact I|].
  apply within_Opt. split; assumption.
Qed.

Lemma within_between q m n r : within q r -> within q (between m n r).
Proof. intros H. split; [apply within_times | apply within_upto]; exact H. Qed.

Lemma within_at_least q m r : within q r -> within q (at_least m r).
Proof. intros H. split; [apply within_times; exact H | exact H]. Qed.

Lemma within_literal_i q c :
  q c = true -> q (Str.upper_char c) = true -> q 383%N = true ->
  within q (literal_i c).
Proof.
  intros H1 H2 H3 d Hd. apply orb_true_iff in Hd. destruct Hd as [Hd|Hd].
  - apply orb_true_iff in Hd. destruct Hd as [Hd|Hd];
      apply N.eqb_eq in Hd; subst d; assumption.
  - apply andb_true_iff in Hd. destruct Hd as [_ Hd].
    apply N.eqb_eq in Hd. subst d. assumption.
Qed.

Lemma within_literal q s :
  forallb (fun c => q c && q (Str.upper_char c)) s = true -> q 383%N = true ->
  within q (literal s).
Proof.
  intros Hs H3. induction s as [|c s IH]; cbn [literal within]; [exact I|].
  cbn [forallb] in Hs. apply andb_true_iff in Hs. destruct Hs as [Hc Hs].
  apply andb_true_iff in Hc. destruct Hc as [Hc Hu].
  split; [apply within_literal_i; assumption | apply IH; assumption].
Qed.

(** White space, listed. *)
Lemma space_cases c :
  space c = true ->
  In c ([9; 10; 11; 12; 13; 28; 29; 30; 31; 32; 133; 160; 5760; 8192; 8193;
         8194; 8195; 8196; 8197; 8198; 8199; 8200; 8201; 8202; 8232; 8233;
         8239; 8287; 12288]%N).
Proof.
  unfold space. intros H.
  assert (Hc : (c = 9 \/ c = 10 \/ c = 11 \/ c = 12 \/ c = 13 \/ c = 28
                \/ c = 29 \/ c = 30 \/ c = 31 \/ c = 32 \/ c = 133 \/ c = 160
                \/ c = 5760 \/ c = 8192 \/ c = 8193 \/ c = 8194 \/ c = 8195
                \/ c = 8196 \/ c = 8197 \/ c = 8198 \/ c = 8199 \/ c = 8200
                \/ c = 8201 \/ c = 8202 \/ c = 8232 \/ c = 8233 \/ c = 8239
                \/ c = 8287 \/ c = 12288)%N).
  { bool_hyps; lia. }
  cbn [In]. intuition auto.
Qed.

Lemma not_space_of (p : char -> bool) :
  forallb (fun c => negb (p c))
    ([9; 10; 11; 12; 13; 28; 29; 30; 31; 32; 133; 160; 5760; 8192; 8193;
      8194; 8195; 8196; 8197; 8198; 8199; 8200; 8201; 8202; 8232; 8233;
      8239; 8287; 12288]%N) = true ->
  forall c, p c = true -> not_space c = true.
Proof.
  intros Hall c Hc. unfold not_space. destruct (space c) eqn:Hs; [|reflexivity].
  apply space_cases in Hs. rewrite forallb_forall in Hall.
  specialize (Hall c Hs). rewrite Hc in Hall. discriminate.
Qed.

Lemma url_regex_not_space : within not_space QrGenerator.url_regex.
Proof.
  assert (Halnum : forall c, letter_i c || Str.is_ascii_digit c = true ->
                             not_space c = true)
    by (apply not_space_of; vm_compute; reflexivity).
  assert (Hhyph : forall c, letter_i c || Str.is_ascii_digit c
                            || N.eqb c (ch "-") = true -> not_space c = true)
    by (apply not_space_of; vm_compute; reflexivity).
  assert (Hletter : forall c, letter_i c = true -> not_space c = true)
    by (apply not_space_of; vm_compute; reflexivity).
  assert (Hdigit : forall c, digit c = true -> not_space c = true)
    by (apply not_space_of; vm_compute; reflexivity).
  assert (Hsep : forall c, N.eqb c (ch "/") || N.eqb c (ch "?") = true ->
                           not_space c = true)
    by (apply not_space_of; vm_compute; reflexivity).
  assert (Hlit : forall s,
             forallb (fun c => not_space c && not_space (Str.upper_char c)) s = true ->
             within not_space (literal s))
    by (intros s Hs; apply within_literal; [exact Hs | reflexivity]).
  assert (Hlit1 : forall c,
             not_space c && not_space (Str.upper_char c) = true ->
             within not_space (literal_i c)).
  { intros c Hc. apply andb_true_iff in Hc. destruct Hc.
    apply within_literal_i; auto. }
  unfold QrGenerator.url_regex. cbv zeta.
  repeat match goal with
         | |- within _ (Seq _ _) => split
         | |- within _ (Alt _ _) => split
         | |- within _ (Opt _) => apply within_Opt
         | |- within _ (Plus _) => apply within_Plus
         | |- within _ (upto _ _) => apply within_upto
         | |- within _ (between _ _ _) => apply within_between
         | |- within _ (at_least _ _) => apply within_at_least
         | |- within _ (literal _) => apply Hlit; reflexivity
         | |- within _ (literal_i _) => apply Hlit1; reflexivity
         | |- within _ (Chr _) =>
             first [ exact Halnum | exact Hhyph | exact Hletter | exact Hdigit
                   | exact Hsep | (intros c Hc; exact Hc) ]
         end.
Qed.

End Patterns.

(** X10: a URL that the encoder's [_validate_url] accepts has no white
    space in it, but for one line feed that may end it. *)
Theorem X10_encoder_pattern_takes_no_white_space :
  forall url,
    QrGenerator._validate_url url = true ->
    exists body,
      (url = body \/ url = body ++ [10%N])
      /\ forallb (fun c => negb (Re.space c)) body = true.
Proof.
  intros url Hv. unfold QrGenerator._validate_url, Re.match_anchored in Hv.
  apply existsb_exists in Hv. destruct Hv as [t [Hin Ht]].
  destruct (residuals_consumes _ _ url_regex_not_space _ _ Hin) as [body [Hu Hb]].
  exists body. split; [|exact Hb].
  apply orb_true_iff in Ht. destruct Ht as [Ht|Ht].
  - apply is_empty_true in Ht. subst t. left. rewrite app_nil_r in Hu. exact Hu.
  - apply eqb_eq in Ht. subst t. right. exact Hu.
Qed.

Lemma X10_encoder_pattern_no_white_space_witness :
  exists body,
    (py "http://example.com/a?b" = body \/ py "http://example.com/a?b" = body ++ [10%N])
    /\ forallb (fun c => negb (Re.space c)) body = true.
Proof.
  apply (X10_encoder_pattern_takes_no_white_space (py "http://example.com/a?b")).
  vm_compute. reflexivity.
Defined.

(** X9: the encoder's [_validate_url] takes ["ftp"] followed by any text
    exactly when it takes ["http"] followed by that text, so it accepts
    ftp and ftps URLs as it accepts http and https ones. *)
Theorem X9_encoder_pattern_takes_ftp :
  forall rest,
    QrGenerator._validate_url (py "ftp" ++ rest)
    = QrGenerator._validate_url (py "http" ++ rest).
Proof.
  intros rest. unfold QrGenerator._validate_url, Re.match_anchored.
  unfold QrGenerator.url_regex. cbv zeta.
  match goal with
  | |- context [Re.residuals (Re.Seq ?A ?K) (py "ftp" ++ rest)] =>
      change (Re.residuals (Re.Seq A K) (py "ftp" ++ rest))
        with (flat_map (Re.residuals K) (Re.residuals A (py "ftp" ++ rest)));
      change (Re.residuals (Re.Seq A K) (py "http" ++ rest))
        with (flat_map (Re.residuals K) (Re.residuals A (py "http" ++ rest)));
      change (Re.residuals A (py "ftp" ++ rest)) with [rest];
      change (Re.residuals A (py "http" ++ rest)) with [rest]
  end.
  reflexivity.
Qed.

Section SchemeNeeded.
Import Re.

Lemma in_seq_residuals a b s t :
  In t (residuals (Seq a b) s) ->
  exists u, In u (residuals a s) /\ In t (residuals b u).
Proof. cbn [residuals]. intros H. apply in_flat_map in H. exact H. Qed.

(** A literal whose characters have one case only is matched as it is
    written. *)
Lemma literal_exact s u t :
  forallb (fun c => N.eqb (Str.upper_char c) c && negb (N.eqb c (ch "s"))) s = true ->
  In t (residuals (literal s) u) -> u = s ++ t.
Proof.
  revert u. induction s as [|c s IH]; intros u Hs.
  - cbn [literal residuals]. intros [<-|[]]. reflexivity.
  - cbn [forallb] in Hs. apply andb_true_iff in Hs. destruct Hs as [Hc Hs].
    apply andb_true_iff in Hc. destruct Hc as [Hup Hns].
    apply N.eqb_eq in Hup. apply negb_true_iff in Hns.
    cbn [literal]. intros Hin. apply in_seq_residuals in Hin.
    destruct Hin as [v [Hv Ht]]. apply (IH _ Hs) in Ht. subst v.
    unfold literal_i in Hv. cbn [residuals] in Hv.
    destruct u as [|d u]; [destruct Hv|].
    rewrite Hup, Hns, orb_diag in Hv. cbn [andb] in Hv. rewrite orb_false_r in Hv.
    destruct (N.eqb d c) eqn:Hd; [|destruct Hv].
    destruct Hv as [->|[]]. apply N.eqb_eq in Hd. subst d. reflexivity.
Qed.

Lemma in_alt_residuals a b s t :
  In t (residuals (Alt a b) s) -> In t (residuals a s) \/ In t (residuals b s).
Proof. cbn [residuals]. apply in_app_or. Qed.

Lemma literal_i_inv c u t :
  In t (residuals (literal_i c) u) ->
  exists d, u = d :: t
            /\ (d = c \/ d = Str.upper_char c \/ (c = ch "s" /\ d = 383%N)).
Proof.
  unfold literal_i. cbn [residuals]. destruct u as [|d u]; [intros []|].
  destruct (N.eqb d c || N.eqb d (Str.upper_char c)
            || N.eqb c (ch "s") && N.eqb d 383) eqn:Hd; [|intros []].
  intros [<-|[]]. exists d. split; [reflexivity|].
  bool_hyps; subst; auto.
Qed.

End SchemeNeeded.

Lemma literal_letters s u t :
  forallb Str.is_ascii_lower s = true ->
  In t (Re.residuals (Re.literal s) u) ->
  exists p, u = p ++ t /\ length p = length s /\ forallb scheme_letter p = true.
Proof.
  revert u. induction s as [|c s IH]; intros u Hs.
  - cbn [Re.literal Re.residuals]. intros [<-|[]]. exists []. auto.
  - cbn [forallb] in Hs. apply andb_true_iff in Hs. destruct Hs as [Hc Hs].
    cbn [Re.literal]. intros Hin. apply in_seq_residuals in Hin.
    destruct Hin as [v [Hv Ht]]. apply (IH _ Hs) in Ht.
    destruct Ht as [p [-> [Hl Hp]]]. apply literal_i_inv in Hv.
    destruct Hv as [d [-> Hd]]. exists (d :: p). split; [reflexivity|].
    split; [cbn [length]; lia|]. cbn [forallb]. rewrite Hp, andb_true_r.
    unfold scheme_letter, Str.is_ascii_alpha, Str.is_ascii_upper, Str.is_ascii_lower.
    unfold Str.is_ascii_lower in Hc. unfold Str.upper_char, Str.is_ascii_lower in Hd.
    rewrite Hc in Hd. bool_hyps.
    destruct Hd as [->|[->|[_ ->]]]; [| |reflexivity]; char_facts.
Qed.

(** X11: a URL that the encoder's [_validate_url] accepts starts with a
    scheme of three to five letters followed by ["://"]; an input without
    a scheme is never accepted. *)
Theorem X11_encoder_pattern_needs_a_scheme :
  forall url,
    QrGenerator._validate_url url = true ->
    exists scheme rest,
      url = scheme ++ py "://" ++ rest
      /\ 3 <= length scheme <= 5
      /\ forallb scheme_letter scheme = true.
Proof.
  intros url Hv. unfold QrGenerator._validate_url, Re.match_anchored in Hv.
  apply existsb_exists in Hv. destruct Hv as [t [Hin _]].
  unfold QrGenerator.url_regex in Hin. cbv zeta in Hin.
  apply in_seq_residuals in Hin. destruct Hin as [u1 [H1 Hin]].
  apply in_seq_residuals in Hin. destruct Hin as [u2 [H2 Hin]].
  apply in_seq_residuals in Hin. destruct Hin as [u3 [H3 _]].
  apply literal_exact in H3; [|reflexivity]. subst u2.
  assert (Hs : exists s, u1 = s ++ py "://" ++ u3 /\ length s <= 1
                         /\ forallb scheme_letter s = true).
  { apply in_alt_residuals in H2. destruct H2 as [H2|[H2|[]]].
    - apply literal_i_inv in H2. destruct H2 as [d [-> Hd]]. exists [d].
      split; [reflexivity|]. split; [cbn; lia|].
      change (Str.upper_char (ch "s")) with 83%N in Hd.
      destruct Hd as [->|[->|[_ ->]]]; reflexivity.
    - exists []. split; [exact H2|]. split; [cbn; lia | reflexivity]. }
  destruct Hs as [s [-> [Hls Hs]]].
  assert (Hp : exists p, url = p ++ s ++ py "://" ++ u3 /\ 3 <= length p <= 4
                         /\ forallb scheme_letter p = true).
  { apply in_alt_residuals in H1. destruct H1 as [H1|H1];
      apply literal_letters in H1; try reflexivity;
      destruct H1 as [p [-> [Hl Hp]]]; exists p; cbn in Hl;
      (split; [reflexivity|]); (split; [lia | exact Hp]). }
  destruct Hp as [p [-> [Hlp Hp]]].
  exists (p ++ s), u3. rewrite <- app_assoc. split; [reflexivity|].
  rewrite length_app, forallb_app, Hp, Hs. split; [lia | reflexivity].
Qed.

Lemma X11_encoder_pattern_scheme_witness :
  exists scheme rest,
    py "https://example.com" = scheme ++ py "://" ++ rest
    /\ 3 <= length scheme <= 5
    /\ forallb scheme_letter scheme = true.
Proof.
  apply (X11_encoder_pattern_needs_a_scheme (py "https://example.com")).
  vm_compute. reflexivity.
Defined.

Section Growing.
Import Re.

Lemma iterate_app step x :
  (forall s t, In t (step s) -> In (t ++ x) (step (s ++ x))) ->
  forall fuel fuel' s t,
    fuel <= fuel' ->
    In t (iterate fuel step s) -> In (t ++ x) (iterate fuel' step (s ++ x)).
Proof.
  intros Hstep. induction fuel as [|fuel IH]; intros fuel' s t Hle.
  - cbn [iterate]. intros [<-|[]]. destruct fuel'; left; reflexivity.
  - destruct fuel' as [|fuel']; [lia|]. cbn [iterate].
    intros [<-|Hin]; [left; reflexivity|]. right.
    apply in_flat_map in Hin. destruct Hin as [u [Hu Ht]].
    apply filter_In in Hu. destruct Hu as [Hu Hlen].
    apply in_flat_map. exists (u ++ x). split.
    + apply filter_In. split; [apply Hstep; exact Hu|].
      apply Nat.ltb_lt in Hlen. apply Nat.ltb_lt. rewrite !length_app. lia.
    + apply IH; [lia | exact Ht].
Qed.

(** A match stays one when text is added after it. *)
Lemma residuals_app r x :
  forall s t, In t (residuals r s) -> In (t ++ x) (residuals r (s ++ x)).
Proof.
  induction r as [|p|a IHa b IHb|a IHa b IHb|a IHa]; intros s t;
    cbn [residuals].
  - intros [<-|[]]. left. reflexivity.
  - destruct s as [|c s]; [intros []|]. cbn [app].
    destruct (p c); [|intros []]. intros [<-|[]]. left. reflexivity.
  - intros Hin. apply in_flat_map in Hin. destruct Hin as [u [Hu Ht]].
    apply in_flat_map. exists (u ++ x). split; [apply IHa | apply IHb]; assumption.
  - intros Hin. apply in_or_app. apply in_app_or in Hin.
    destruct Hin as [Hin|Hin]; [left; apply IHa | right; apply IHb]; assumption.
  - apply iterate_app; [exact IHa|]. rewrite length_app. lia.
Qed.

Lemma seq_residuals a b s u t :
  In u (residuals a s) -> In t (residuals b u) -> In t (residuals (Seq a b) s).
Proof.
  intros Hu Ht. cbn [residuals]. apply in_flat_map. eauto.
Qed.

End Growing.

(** X12: when the encoder's [_validate_url] accepts a URL that does not
    end with a line feed, it accepts the URL followed by a line feed as
    well: the dollar of the pattern matches before it. *)
Theorem X12_encoder_pattern_takes_a_final_newline :
  forall url,
    QrGenerator._validate_url url = true ->
    last url 0%N <> 10%N ->
    QrGenerator._validate_url (url ++ [10%N]) = true.
Proof.
  intros url Hv Hlast. unfold QrGenerator._validate_url, Re.match_anchored in *.
  apply existsb_exists in Hv. destruct Hv as [t [Hin Ht]].
  apply existsb_exists. exists (t ++ [10%N]). split.
  - apply residuals_app. exact Hin.
  - apply orb_true_iff in Ht. destruct Ht as [Ht|Ht].
    + apply is_empty_true in Ht. subst t. reflexivity.
    + exfalso. apply eqb_eq in Ht. subst t.
      destruct (residuals_consumes _ _ url_regex_not_space _ _ Hin) as [pre [Hu _]].
      apply Hlast. rewrite Hu. apply last_last.
Qed.

Lemma X12_encoder_pattern_newline_witness :
  QrGenerator._validate_url (py "http://example.com" ++ [10%N]) = true.
Proof.
  apply (X12_encoder_pattern_takes_a_final_newline (py "http://example.com")).
  - vm_compute. reflexivity.
  - vm_compute. discriminate.
Defined.

(** ** The format and the file system in [generate_qr_code] *)

Section Upper.

Lemma upper_char_idem c : Str.upper_char (Str.upper_char c) = Str.upper_char c.
Proof.
  unfold Str.upper_char, Str.is_ascii_lower.
  destruct (N.leb 97 c && N.leb c 122) eqn:Hu; [|rewrite Hu; reflexivity].
  bool_hyps. char_facts.
Qed.

Lemma upper_char_ascii c : N.ltb c 128 = true -> N.ltb (Str.upper_char c) 128 = true.
Proof.
  unfold Str.upper_char, Str.is_ascii_lower. intros H.
  destruct (N.leb 97 c && N.leb c 122) eqn:Hu; [|exact H].
  bool_hyps. char_facts.
Qed.

Lemma str_upper_ascii {U : Unicode} s :
  Str.isascii s = true ->
  str_upper s = Str.ascii_upper s /\ str_upper (Str.ascii_upper s) = Str.ascii_upper s.
Proof.
  intros Ha. unfold str_upper. rewrite Ha.
  assert (Hu : Str.isascii (Str.ascii_upper s) = true).
  { unfold Str.isascii, Str.ascii_upper in *. rewrite forallb_forall in *.
    intros c Hc. apply in_map_iff in Hc. destruct Hc as [d [<- Hd]].
    apply upper_char_ascii, Ha, Hd. }
  rewrite Hu. split; [reflexivity|].
  unfold Str.ascii_upper. rewrite map_map. apply map_ext.
  intros c. apply upper_char_idem.
Qed.

End Upper.

(** X13: [generate_qr_code] does with an ASCII [format] what it does with
    the same format in upper case, on every input and file system. *)
Theorem X13_format_is_case_insensitive :
  forall (U : Unicode) (P : QrGenerator.Platform) url format box_size border
         fill_color back_color output_path fs,
    Str.isascii format = true ->
    QrGenerator.generate_qr_code url format box_size border fill_color
      back_color output_path fs
    = QrGenerator.generate_qr_code url (Str.ascii_upper format) box_size border
        fill_color back_color output_path fs.
Proof.
  intros U P url format box_size border fill_color back_color output_path fs Ha.
  destruct (str_upper_ascii format Ha) as [H1 H2].
  unfold QrGenerator.generate_qr_code. rewrite H1, H2. reflexivity.
Qed.

Lemma X13_format_witness :
  QrGenerator.generate_qr_code (U := Samples.unicode) (P := Samples.platform)
    (py "http://example.com") (py "svg") 10 4 (py "black") (py "white") None []
  = QrGenerator.generate_qr_code (U := Samples.unicode) (P := Samples.platform)
      (py "http://example.com") (Str.ascii_upper (py "svg")) 10 4 (py "black")
      (py "white") None [].
Proof.
  apply (X13_format_is_case_insensitive Samples.unicode Samples.platform).
  reflexivity.
Defined.

Section InMemory.
Import QrGenerator.
Context {U : Unicode} {P : Platform}.

Lemma lift_fs {A} fs (m : outcome exception A) :
  match lift fs m with
  | Return _ => True
  | Raise (_, fs') => fs' = fs
  end.
Proof. destruct m; simpl; auto. Qed.

Lemma deliver_in_memory img kind output_path fs :
  output_path = None \/ output_path = Some [] ->
  match deliver img kind output_path fs with
  | Return (_, fs') => fs' = fs
  | Raise (_, fs') => fs' = fs
  end.
Proof.
  intros [-> | ->]; unfold deliver, bind;
    pose proof (lift_fs fs (save_to_bytes img kind)) as Hl;
    destruct (lift fs (save_to_bytes img kind)) as [b|[e fs']]; auto.
Qed.

Lemma try_block_in_memory url format box_size border fill_color back_color
      output_path fs :
  output_path = None \/ output_path = Some [] ->
  match try_block url format box_size border fill_color back_color output_path fs with
  | Return (_, fs') => fs' = fs
  | Raise (_, fs') => fs' = fs
  end.
Proof.
  intros Hout. unfold try_block, bind.
  pose proof (lift_fs fs (qr_make box_size border url)) as Hq.
  destruct (lift fs (qr_make box_size border url)) as [qr|[e fs']]; [|exact Hq].
  destruct (Str.eqb format (py "PNG")).
  - pose proof (lift_fs fs (make_image qr PilImage fill_color back_color)) as Hi.
    destruct (lift fs (make_image qr PilImage fill_color back_color))
      as [img|[e fs']]; [|exact Hi].
    pose proof (deliver_in_memory img (py "PNG") output_path fs Hout) as Hd.
    destruct (deliver img (py "PNG") output_path fs) as [[r fs']|[e fs']];
      exact Hd.
  - destruct (Str.eqb format (py "SVG")); [|reflexivity].
    pose proof (lift_fs fs (make_image qr SvgImage fill_color back_color)) as Hi.
    destruct (lift fs (make_image qr SvgImage fill_color back_color))
      as [img|[e fs']]; [|exact Hi].
    pose proof (deliver_in_memory img (py "SVG") output_path fs Hout) as Hd.
    destruct (deliver img (py "SVG") output_path fs) as [[r fs']|[e fs']];
      exact Hd.
Qed.

End InMemory.

(** X14: a call of [generate_qr_code] without [output_path], or with the
    empty string for it, leaves the file system as it was, whether it
    returns or raises. *)
Theorem X14_in_memory_call_leaves_files_alone :
  forall (U : Unicode) (P : QrGenerator.Platform) url format box_size border
         fill_color back_color fs,
    snd (QrGenerator.generate_qr_code url format box_size border fill_color
           back_color None fs) = fs
    /\ snd (QrGenerator.generate_qr_code url format box_size border fill_color
              back_color (Some []) fs) = fs.
Proof.
  intros U P url format box_size border fill_color back_color fs.
  assert (H : forall output_path,
             output_path = None \/ output_path = Some [] ->
             snd (QrGenerator.generate_qr_code url format box_size border
                    fill_color back_color output_path fs) = fs).
  { intros output_path Hout. unfold QrGenerator.generate_qr_code.
    destruct (negb (QrGenerator._validate_url url)); [reflexivity|].
    destruct (negb (Str.mem (str_upper format) QrGenerator.SUPPORTED_QR_FORMATS));
      [reflexivity|].
    pose proof (try_block_in_memory url (str_upper format) box_size border
                  fill_color back_color output_path fs Hout) as Ht.
    destruct (QrGenerator.try_block _ _ _ _ _ _ _ _) as [[r fs']|[e fs']];
      exact Ht. }
  split; apply H; auto.
Qed.

(** ** [strip] and [sanitize_filename] *)

Section Strips.
Import Helpers.

Lemma lstrip_head p s c s' : Str.lstrip p s = c :: s' -> p c = false.
Proof.
  induction s as [|d s IH]; cbn [Str.lstrip]; [discriminate|].
  destruct (p d) eqn:Hd; [exact IH|]. intros Heq; inversion Heq; subst.
  exact Hd.
Qed.

Lemma lstrip_id p s : p (hd 0%N s) = false -> Str.lstrip p s = s.
Proof. destruct s as [|c s]; cbn [hd Str.lstrip]; [reflexivity|]. intros ->. reflexivity. Qed.

Lemma rstrip_split p s : exists t, s = rstrip p s ++ t /\ forallb p t = true.
Proof.
  unfold rstrip. destruct (lstrip_split p (rev s)) as [ws [Hs Hws]].
  exists (rev ws). split.
  - rewrite <- rev_app_distr, <- Hs, rev_involutive. reflexivity.
  - rewrite forallb_forall in *. intros x Hx. apply Hws, in_rev, Hx.
Qed.

Lemma rstrip_last p s : rstrip p s <> [] -> p (last (rstrip p s) 0%N) = false.
Proof.
  unfold rstrip. destruct (Str.lstrip p (rev s)) as [|c l] eqn:Hl;
    [intros H; contradiction|].
  intros _. cbn [rev]. rewrite last_last. eapply lstrip_head; eauto.
Qed.

Lemma rstrip_id p s : p (last s 0%N) = false -> s <> [] -> rstrip p s = s.
Proof.
  intros Hl Hne. unfold rstrip. rewrite lstrip_id; [apply rev_involutive|].
  destruct (exists_last Hne) as [l [c ->]]. rewrite rev_app_distr.
  cbn [rev app hd]. rewrite last_last in Hl. exact Hl.
Qed.

Lemma strip_incl p s : incl (strip p s) s.
Proof.
  unfold strip. destruct (rstrip_split p (Str.lstrip p s)) as [t [Ht _]].
  eapply incl_tran; [|apply incl_lstrip]. rewrite Ht at 2.
  apply incl_appl, incl_refl.
Qed.

(** What [strip] returns does not start or end with a stripped
    character. *)
Lemma strip_edges p s :
  strip p s <> [] ->
  p (hd 0%N (strip p s)) = false /\ p (last (strip p s) 0%N) = false.
Proof.
  intros Hne. split; [|apply rstrip_last; exact Hne].
  unfold strip in *. destruct (rstrip_split p (Str.lstrip p s)) as [t [Ht _]].
  destruct (rstrip p (Str.lstrip p s)) as [|c r]; [contradiction|].
  cbn [hd]. cbn [app] in Ht. eapply lstrip_head; eauto.
Qed.

Lemma strip_id p s :
  s <> [] -> p (hd 0%N s) = false -> p (last s 0%N) = false -> strip p s = s.
Proof.
  intros Hne Hh Hl. unfold strip. rewrite (lstrip_id _ _ Hh).
  apply rstrip_id; assumption.
Qed.

Lemma startswith_app p a b :
  Str.startswith p a = true -> Str.startswith p (a ++ b) = true.
Proof.
  revert a. induction p as [|c p IH]; intros a; [reflexivity|].
  destruct a as [|d a]; cbn [Str.startswith app]; [discriminate|].
  intros H. apply andb_true_iff in H. destruct H as [-> H].
  rewrite (IH _ H). reflexivity.
Qed.

Lemma contains_sub_app_l p a b :
  contains_sub p a = true -> contains_sub p (a ++ b) = true.
Proof.
  induction a as [|d a IH].
  - cbn [contains_sub app]. rewrite orb_false_r. intros H.
    destruct p; [|discriminate]. destruct b; reflexivity.
  - cbn [contains_sub app]. intros H. apply orb_true_iff in H.
    destruct H as [H|H].
    + apply (startswith_app _ (d :: a) b) in H. cbn [app] in H.
      rewrite H. reflexivity.
    + rewrite (IH H), orb_true_r. reflexivity.
Qed.

Lemma contains_sub_app_r p a b :
  contains_sub p b = true -> contains_sub p (a ++ b) = true.
Proof.
  intros H. induction a as [|d a IH]; [exact H|].
  cbn [contains_sub app]. rewrite IH, orb_true_r. reflexivity.
Qed.

Lemma strip_contains_sub sub p s :
  contains_sub sub s = false -> contains_sub sub (strip p s) = false.
Proof.
  intros Hs. unfold strip.
  destruct (rstrip_split p (Str.lstrip p s)) as [t [Ht _]].
  destruct (lstrip_split p s) as [ws [Hws _]].
  destruct (contains_sub sub (rstrip p (Str.lstrip p s))) eqn:Hc; [|reflexivity].
  rewrite Hws, Ht in Hs. rewrite contains_sub_app_r in Hs; [discriminate|].
  apply contains_sub_app_l. exact Hc.
Qed.

End Strips.

Section Sanitize.
Import Helpers.
Context {A : Alphanumeric}.

Lemma collapse_dots_head c s :
  N.eqb c (ch ".") = false -> collapse_dots (c :: s) = c :: collapse_dots s.
Proof. intros H. cbn [collapse_dots]. rewrite H. reflexivity. Qed.

Lemma collapse_dots_no_dot_head s :
  N.eqb (hd 0%N s) (ch ".") = false ->
  N.eqb (hd 0%N (collapse_dots s)) (ch ".") = false.
Proof.
  destruct s as [|c s]; [intros _; reflexivity|]. cbn [hd]. intros H.
  rewrite (collapse_dots_head _ _ H). exact H.
Qed.

Lemma startswith_dots s :
  Str.startswith (py "..") s
  = match s with
    | c :: d :: _ => N.eqb (ch ".") c && N.eqb (ch ".") d
    | _ => false
    end.
Proof.
  destruct s as [|c [|d s]]; [reflexivity| |].
  - change (Str.startswith (py "..") [c]) with (N.eqb (ch ".") c && false).
    apply andb_false_r.
  - change (Str.startswith (py "..") (c :: d :: s))
      with (N.eqb (ch ".") c && (N.eqb (ch ".") d && true)).
    rewrite andb_true_r. reflexivity.
Qed.

(** After [collapse_dots] no two dots are next to each other. *)
Lemma collapse_dots_spec s : contains_sub (py "..") (collapse_dots s) = false.
Proof.
  induction s as [|c s IH]; [reflexivity|]. cbn [collapse_dots].
  destruct (N.eqb c (ch ".") && _) eqn:Hc; [exact IH|].
  cbn [contains_sub]. rewrite IH, orb_false_r, startswith_dots.
  destruct s as [|d s]; [reflexivity|].
  destruct (N.eqb d (ch ".")) eqn:Hd.
  - rewrite andb_true_r in Hc.
    replace (collapse_dots (d :: s)) with (match collapse_dots (d :: s) with
                                           | [] => [] | x :: l => x :: l end)
      by (destruct (collapse_dots (d :: s)); reflexivity).
    destruct (collapse_dots (d :: s)); [reflexivity|].
    rewrite (N.eqb_sym _ c), Hc. reflexivity.
  - rewrite (collapse_dots_head _ _ Hd), (N.eqb_sym _ d), Hd, andb_false_r.
    reflexivity.
Qed.

Lemma collapse_dots_id s :
  contains_sub (py "..") s = false -> collapse_dots s = s.
Proof.
  induction s as [|c s IH]; [reflexivity|]. cbn [contains_sub collapse_dots].
  intros H. apply orb_false_iff in H. destruct H as [Hst Hs].
  rewrite (IH Hs). rewrite startswith_dots in Hst.
  destruct s as [|d s]; [rewrite andb_false_r; reflexivity|].
  rewrite (N.eqb_sym c), (N.eqb_sym d), Hst. reflexivity.
Qed.

Lemma no_dot_no_dots s :
  Str.contains (ch ".") s = false -> contains_sub (py "..") s = false.
Proof.
  induction s as [|c s IH]; [reflexivity|]. cbn [Str.contains contains_sub].
  intros H. apply orb_false_iff in H. destruct H as [Hc Hs].
  rewrite (IH Hs), orb_false_r, startswith_dots.
  destruct s as [|d s]; [reflexivity|]. rewrite (N.eqb_sym _ c), Hc. reflexivity.
Qed.

Lemma collapse_dots_incl s : incl (collapse_dots s) s.
Proof.
  induction s as [|c s IH]; [apply incl_refl|]. cbn [collapse_dots].
  destruct (_ && _); [apply incl_tl; exact IH|].
  apply incl_cons; [left; reflexivity | apply incl_tl; exact IH].
Qed.

Lemma keep_safe_spec s : forallb is_safe (keep_safe s) = true.
Proof.
  unfold keep_safe. apply forallb_forall. intros c Hc.
  apply filter_In in Hc. exact (proj2 Hc).
Qed.

Lemma keep_safe_id s : forallb is_safe s = true -> keep_safe s = s.
Proof.
  unfold keep_safe. induction s as [|c s IH]; [reflexivity|].
  cbn [forallb filter]. intros H. apply andb_true_iff in H.
  destruct H as [Hc Hs]. unfold is_safe in Hc. rewrite Hc, (IH Hs). reflexivity.
Qed.

Lemma safe_not c d :
  is_safe d = false -> is_safe c = true -> N.eqb c d = false.
Proof.
  intros Hd Hc. destruct (N.eqb c d) eqn:He; [|reflexivity].
  apply N.eqb_eq in He. subst d. congruence.
Qed.

Lemma safe_no d s :
  is_safe d = false -> forallb is_safe s = true -> Str.contains d s = false.
Proof. intros Hd Hs. eapply contains_forallb; eauto. Qed.

Lemma replace_char_id a b s :
  Str.contains a s = false -> replace_char a b s = s.
Proof.
  unfold replace_char. induction s as [|c s IH]; [reflexivity|].
  cbn [Str.contains map]. intros H. apply orb_false_iff in H.
  destruct H as [Hc Hs]. rewrite Hc, (IH Hs). reflexivity.
Qed.

(** What [sanitize_filename] returns when it is not the new UUID. *)
Lemma sanitize_filename_inv f :
  let r := strip is_edge (collapse_dots (keep_safe (replace_char (ch " ") (ch "_") f))) in
  r <> [] ->
  forallb is_safe r = true
  /\ contains_sub (py "..") r = false
  /\ is_edge (hd 0%N r) = false /\ is_edge (last r 0%N) = false.
Proof.
  intros r Hne. subst r.
  set (k := keep_safe (replace_char (ch " ") (ch "_") f)) in *.
  split; [|split].
  - eapply forallb_incl; [|apply (keep_safe_spec (replace_char (ch " ") (ch "_") f))].
    eapply incl_tran; [apply strip_incl | apply collapse_dots_incl].
  - apply strip_contains_sub, collapse_dots_spec.
  - apply strip_edges. exact Hne.
Qed.

(** A name of that form is returned as it is. *)
Lemma sanitize_filename_fixed u r :
  r <> [] -> forallb is_safe r = true ->
  contains_sub (py "..") r = false ->
  is_edge (hd 0%N r) = false -> is_edge (last r 0%N) = false ->
  sanitize_filename u r = r.
Proof.
  intros Hne Hs Hd Hh Hl. unfold sanitize_filename.
  apply is_empty_false in Hne. rewrite Hne.
  rewrite (replace_char_id _ _ _ (safe_no (ch " ") _ eq_refl Hs)).
  rewrite (keep_safe_id _ Hs), (collapse_dots_id _ Hd).
  rewrite strip_id; auto; [rewrite Hne; reflexivity|].
  intros ->. discriminate.
Qed.

End Sanitize.

(** X17: what [sanitize_filename] returns is empty for the empty input,
    or the new UUID, or a non-empty name of word characters, hyphens and
    dots: without slash, backslash, NUL or space, without two dots in a
    row, and neither starting nor ending with a dot, a hyphen or an
    underscore. *)
Theorem X17_sanitized_name_is_safe :
  forall (A : Alphanumeric) uuid4_hex filename,
    let r := Helpers.sanitize_filename uuid4_hex filename in
    (filename = [] /\ r = [])
    \/ (filename <> [] /\ r = uuid4_hex)
    \/ (r <> []
        /\ forallb is_safe r = true
        /\ Str.contains (ch "/") r = false /\ Str.contains (ch "\") r = false
        /\ Str.contains 0%N r = false /\ Str.contains (ch " ") r = false
        /\ Helpers.contains_sub (py "..") r = false
        /\ Helpers.is_edge (hd 0%N r) = false
        /\ Helpers.is_edge (last r 0%N) = false).
Proof.
  intros A u f. cbv zeta. unfold Helpers.sanitize_filename.
  destruct f as [|c f]; [left; split; reflexivity|]. right.
  cbn [Str.is_empty].
  set (r := Helpers.strip _ _).
  destruct (Str.is_empty r) eqn:He; [left; split; [discriminate | reflexivity]|].
  right. apply is_empty_false in He.
  destruct (sanitize_filename_inv (c :: f) He) as [Hs [Hd [Hh Hl]]].
  fold r in Hs, Hd, Hh, Hl.
  split; [exact He|]. split; [exact Hs|].
  repeat split; try assumption; apply safe_no; try assumption; reflexivity.
Qed.

(** X18: [sanitize_filename] returns its own result unchanged, when the
    UUID it falls back on is made of hexadecimal digits in lower case. *)
Theorem X18_sanitize_filename_idempotent :
  forall (A : Alphanumeric) uuid4_hex filename,
    forallb is_hex_lower uuid4_hex = true ->
    Helpers.sanitize_filename uuid4_hex
      (Helpers.sanitize_filename uuid4_hex filename)
    = Helpers.sanitize_filename uuid4_hex filename.
Proof.
  intros A u f Hu.
  assert (Hfix : forall r, r <> [] -> forallb is_hex_lower r = true ->
                           Helpers.sanitize_filename u r = r).
  { intros r Hne Hr.
    assert (Hsafe : forall c, is_hex_lower c = true ->
                              is_safe c = true /\ Helpers.is_edge c = false).
    { intros c Hc. unfold is_hex_lower, Str.is_ascii_digit in Hc.
      unfold is_safe, Helpers.is_word, Helpers.is_edge, Str.is_ascii_alpha,
        Str.is_ascii_upper, Str.is_ascii_lower, Str.is_ascii_digit.
      eval_ch. bool_hyps; split; char_facts. }
    assert (Hall : forallb is_safe r = true).
    { rewrite forallb_forall in *. intros c Hc. apply Hsafe, Hr, Hc. }
    pose proof Hr as Hr0. rewrite forallb_forall in Hr.
    apply sanitize_filename_fixed; auto.
    - apply no_dot_no_dots. eapply contains_forallb; [exact Hr0 | reflexivity].
    - destruct r as [|c r]; [contradiction|]. apply Hsafe, Hr. left. reflexivity.
    - destruct (exists_last Hne) as [l [c ->]]. rewrite last_last.
      apply Hsafe, Hr, in_or_app. right. left. reflexivity. }
  destruct f as [|c f]; [reflexivity|].
  set (r := Helpers.strip Helpers.is_edge
              (Helpers.collapse_dots
                 (Helpers.keep_safe
                    (Helpers.replace_char (ch " ") (ch "_") (c :: f))))).
  change (Helpers.sanitize_filename u (c :: f))
    with (if Str.is_empty r then u else r).
  destruct (Str.is_empty r) eqn:He.
  - destruct u as [|d u]; [reflexivity|]. apply Hfix; [discriminate | exact Hu].
  - apply is_empty_false in He.
    destruct (sanitize_filename_inv (c :: f) He) as [Hs [Hd [Hh Hl]]].
    apply sanitize_filename_fixed; assumption.
Qed.

Lemma X18_sanitize_filename_witness :
  Helpers.sanitize_filename (A := MoreSamples.alphanumeric) MoreSamples.uuid4_hex
    (Helpers.sanitize_filename (A := MoreSamples.alphanumeric)
       MoreSamples.uuid4_hex (py "../my file (1).png"))
  = Helpers.sanitize_filename (A := MoreSamples.alphanumeric)
      MoreSamples.uuid4_hex (py "../my file (1).png").
Proof.
  apply (X18_sanitize_filename_idempotent MoreSamples.alphanumeric
           MoreSamples.uuid4_hex (py "../my file (1).png")).
  reflexivity.
Defined.

(** ** The host names that the helper's [validate_url] takes *)

Section HelperPattern.
Import Re Helpers.

Lemma within_in_range q lo hi :
  (forall c, N.leb (ch lo) c && N.leb c (ch hi) = true -> q c = true) ->
  within q (in_range lo hi).
Proof. intros H. exact H. Qed.

Lemma within_one q a : q (ch a) = true -> within q (one a).
Proof.
  intros H c Hc. apply N.eqb_eq in Hc. subst c. exact H.
Qed.

Lemma domain_ip_regex_ldh :
  within ldh_dot (fst domain_ip_regex) /\ within ldh_dot (snd domain_ip_regex).
Proof.
  assert (Halnum : forall c, Str.is_ascii_alpha c || Str.is_ascii_digit c = true ->
                             ldh_dot c = true).
  { intros c H. unfold ldh_dot. rewrite H. reflexivity. }
  assert (Hhyph : forall c, Str.is_ascii_alpha c || Str.is_ascii_digit c
                            || N.eqb c (ch "-") = true -> ldh_dot c = true).
  { intros c H. unfold ldh_dot. rewrite H. reflexivity. }
  assert (Halpha : forall c, Str.is_ascii_alpha c = true -> ldh_dot c = true).
  { intros c H. unfold ldh_dot. rewrite H. reflexivity. }
  assert (Hrange : forall lo hi,
             N.leb 48 (ch lo) && N.leb (ch hi) 57 = true ->
             within ldh_dot (in_range lo hi)).
  { intros lo hi H c Hc. unfold ldh_dot, Str.is_ascii_digit.
    generalize dependent (ch lo). generalize dependent (ch hi).
    intros h l H Hc. bool_hyps.
    replace (N.leb 48 c && N.leb c 57) with true
      by (symmetry; apply andb_true_iff; split; apply N.leb_le; lia).
    rewrite orb_true_r. reflexivity. }
  unfold domain_ip_regex. cbv zeta. cbn [fst snd].
  split;
    repeat match goal with
           | |- within _ (Seq _ _) => split
           | |- within _ (Alt _ _) => split
           | |- within _ (Opt _) => apply within_Opt
           | |- within _ (Plus _) => apply within_Plus
           | |- within _ (upto _ _) => apply within_upto
           | |- within _ (times _ _) => apply within_times
           | |- within _ (between _ _ _) => apply within_between
           | |- within _ octet => unfold octet
           | |- within _ (one _) => apply within_one; reflexivity
           | |- within _ (in_range _ _) => apply Hrange; reflexivity
           | |- within _ (Chr _) =>
               first [ exact Halnum | exact Hhyph | exact Halpha ]
           end.
Qed.

Lemma ldh_dot_no c s :
  ldh_dot c = false -> forallb ldh_dot s = true -> Str.contains c s = false.
Proof. intros Hc Hs. eapply contains_forallb; eauto. Qed.

Lemma domain_ip_match_chars s :
  domain_ip_match s = true -> Str.contains 10%N s = false ->
  forallb ldh_dot s = true.
Proof.
  intros Hm Hnl.
  assert (H : exists r, within ldh_dot r /\ match_anchored r s = true).
  { unfold domain_ip_match in Hm. apply orb_true_iff in Hm.
    destruct domain_ip_regex_ldh as [H1 H2]. destruct Hm; eauto. }
  destruct H as [r [Hr Ha]]. unfold match_anchored in Ha.
  apply existsb_exists in Ha. destruct Ha as [t [Hin Ht]].
  destruct (residuals_consumes _ _ Hr _ _ Hin) as [pre [Hs Hpre]].
  apply orb_true_iff in Ht. destruct Ht as [Ht|Ht].
  - apply is_empty_true in Ht. subst t. rewrite app_nil_r in Hs. subst s.
    exact Hpre.
  - apply eqb_eq in Ht. subst t s. rewrite contains_app in Hnl.
    apply orb_false_iff in Hnl. destruct Hnl as [_ Hnl]. discriminate Hnl.
Qed.

End HelperPattern.

(** X15: a URL that the helper's [validate_url] accepts has scheme http
    or https and a netloc of ASCII letters, digits, hyphens and dots only,
    so it has no port and no user name or password. *)
Theorem X15_helper_accepts_bare_host_only :
  forall (U : Unicode) url,
    Helpers.validate_url url = true ->
    exists pu,
      (Urllib.urlparse (Helpers.strip Re.space url) = Return pu
       \/ Urllib.urlparse (py "http://" ++ Helpers.strip Re.space url) = Return pu)
      /\ (Urllib.scheme pu = py "http" \/ Urllib.scheme pu = py "https")
      /\ Urllib.netloc pu <> []
      /\ forallb ldh_dot (Urllib.netloc pu) = true
      /\ Urllib.port pu = Return None
      /\ Urllib._userinfo (Urllib.netloc pu) = (None, None).
Proof.
  intros U url. unfold Helpers.validate_url.
  destruct (Str.is_empty url); [discriminate|].
  set (u := Helpers.strip Re.space url).
  set (w := if negb (Helpers.contains_sub (py "://") u) then py "http://" ++ u else u).
  destruct (Urllib.urlparse w) as [pu|e] eqn:Hp; [|discriminate].
  destruct (negb (Str.mem (Urllib.scheme pu) [py "http"; py "https"])) eqn:Hs;
    [discriminate|].
  destruct (Str.is_empty (Urllib.netloc pu)) eqn:Hn; [discriminate|].
  destruct (negb (Helpers.domain_ip_match (Urllib.netloc pu))) eqn:Hm;
    [discriminate|].
  intros _. apply negb_false_iff in Hs, Hm. apply is_empty_false in Hn.
  assert (Hclean : Str.contains 10%N (Urllib.netloc pu) = false).
  { destruct (urlparse_inv _ _ Hp) as [[[Hc _] _ _ _ _ _ _ _] _].
    cbn [Urllib.s_netloc] in Hc. apply Hc. simpl. auto. }
  pose proof (domain_ip_match_chars _ Hm Hclean) as Hchars.
  exists pu. split; [|split; [|split; [|split; [|split]]]].
  - subst w. destruct (negb _); auto.
  - apply allowed_scheme. exact Hs.
  - exact Hn.
  - exact Hchars.
  - unfold Urllib.port, Urllib._hostinfo.
    rewrite (rpartition_none _ _ (ldh_dot_no (ch "@") _ eq_refl Hchars)).
    rewrite (partition_none _ _ (ldh_dot_no (ch "[") _ eq_refl Hchars)).
    rewrite (partition_none _ _ (ldh_dot_no (ch ":") _ eq_refl Hchars)).
    reflexivity.
  - unfold Urllib._userinfo.
    rewrite (rpartition_none _ _ (ldh_dot_no (ch "@") _ eq_refl Hchars)).
    reflexivity.
Qed.

Lemma X15_helper_accepts_witness :
  exists pu,
    (Urllib.urlparse (U := Samples.unicode) (Helpers.strip Re.space (py " example.com/a "))
     = Return pu
     \/ Urllib.urlparse (U := Samples.unicode)
          (py "http://" ++ Helpers.strip Re.space (py " example.com/a "))
        = Return pu)
    /\ (Urllib.scheme pu = py "http" \/ Urllib.scheme pu = py "https")
    /\ Urllib.netloc pu <> []
    /\ forallb ldh_dot (Urllib.netloc pu) = true
    /\ Urllib.port pu = Return None
    /\ Urllib._userinfo (Urllib.netloc pu) = (None, None).
Proof.
  apply (X15_helper_accepts_bare_host_only Samples.unicode (py " example.com/a ")).
  vm_compute. reflexivity.
Defined.

Section Octets.
Import Re.

Lemma octet_matches a rest :
  (a <= 255)%N -> In rest (residuals Helpers.octet (Str.of_int a ++ rest)).
Proof.
  intros Ha.
  assert (Hall : forallb (fun n => existsb Str.is_empty
                                     (residuals Helpers.octet (Str.of_int (N.of_nat n))))
                   (seq 0 256) = true) by (vm_compute; reflexivity).
  rewrite forallb_forall in Hall.
  specialize (Hall (N.to_nat a)). rewrite N2Nat.id in Hall.
  assert (Hin : In (N.to_nat a) (seq 0 256)) by (apply in_seq; lia).
  apply Hall in Hin. apply existsb_exists in Hin. destruct Hin as [t [Ht He]].
  apply is_empty_true in He. subst t.
  apply (residuals_app _ rest) in Ht. exact Ht.
Qed.

Lemma octet_dot_matches a rest :
  (a <= 255)%N ->
  In rest (residuals (Seq Helpers.octet (Helpers.one "."))
             (Str.of_int a ++ ch "." :: rest)).
Proof.
  intros Ha. eapply seq_residuals; [apply octet_matches; exact Ha|].
  left. reflexivity.
Qed.

Lemma dotted_quad_matches a b c d :
  (a <= 255 -> b <= 255 -> c <= 255 -> d <= 255 ->
   Helpers.domain_ip_match (dotted_quad a b c d) = true)%N.
Proof.
  intros Ha Hb Hc Hd. unfold Helpers.domain_ip_match.
  apply orb_true_iff. right. unfold match_anchored.
  apply existsb_exists. exists []. split; [|reflexivity].
  unfold Helpers.domain_ip_regex. cbn [snd]. unfold dotted_quad.
  eapply seq_residuals.
  - cbn [times].
    eapply seq_residuals; [apply octet_dot_matches; exact Ha|].
    eapply seq_residuals; [apply octet_dot_matches; exact Hb|].
    eapply seq_residuals; [apply octet_dot_matches; exact Hc|].
    left. reflexivity.
  - rewrite <- (app_nil_r (Str.of_int d)). apply octet_matches. exact Hd.
Qed.

End Octets.

Section BareHost.
Import Urllib.
Context {U : Unicode}.

Lemma ldh_dot_range c : ldh_dot c = true -> (45 <= c <= 122)%N.
Proof.
  unfold ldh_dot, Str.is_ascii_alpha, Str.is_ascii_upper, Str.is_ascii_lower,
    Str.is_ascii_digit.
  intros H. eval_ch. bool_hyps; subst; lia.
Qed.

Lemma ldh_dot_facts c :
  ldh_dot c = true ->
  is_delim c = false /\ N.ltb c 128 = true /\ Re.space c = false
  /\ N.eqb c 9 = false /\ N.eqb c 13 = false /\ N.eqb c 10 = false.
Proof.
  intros H. pose proof (ldh_dot_range _ H) as Hr.
  assert (Hs : not_space c = true)
    by (revert H; apply not_space_of; vm_compute; reflexivity).
  unfold not_space in Hs. apply negb_true_iff in Hs.
  split; [|split; [|split; [exact Hs|]]].
  - unfold is_delim, ldh_dot in *. eval_ch.
    destruct (N.eqb_spec c 47) as [->|]; [discriminate H|].
    destruct (N.eqb_spec c 63) as [->|]; [discriminate H|].
    destruct (N.eqb_spec c 35) as [->|]; [lia | reflexivity].
  - apply N.ltb_lt. lia.
  - repeat split; apply N.eqb_neq; lia.
Qed.

(** ["http://"] and a bare host name, parsed. *)
Lemma urlparse_bare_host n :
  forallb ldh_dot n = true -> n <> [] ->
  urlparse (py "http://" ++ n) = Return (mkParse (py "http") n [] [] [] []).
Proof.
  intros Hn Hne.
  assert (Hno : forall c, ldh_dot c = false -> Str.contains c n = false)
    by (intros c Hc; eapply contains_forallb; eauto).
  assert (Hinv : split_inv U (mkSplit (py "http") n [] [] [])).
  { constructor; cbn [s_scheme s_netloc s_path s_query s_fragment].
    - repeat split; try apply clean_nil.
      intros c [<-|[<-|[<-|[]]]]; apply Hno; reflexivity.
    - rewrite forallb_forall in *. intros c Hc.
      destruct (ldh_dot_facts _ (Hn c Hc)) as [-> _]. reflexivity.
    - unfold check_brackets.
      rewrite (Hno (ch "[") eq_refl), (Hno (ch "]") eq_refl). reflexivity.
    - unfold _checknetloc.
      replace (Str.isascii n) with true; [rewrite orb_true_r; reflexivity|].
      symmetry. unfold Str.isascii. rewrite forallb_forall in *. intros c Hc.
      apply (ldh_dot_facts _ (Hn c Hc)).
    - intros _. exact I.
    - split; reflexivity.
    - reflexivity.
    - split; reflexivity. }
  pose proof (urlsplit_urlunsplit _ Hinv (or_introl eq_refl) Hne) as Hs.
  rewrite urlunsplit_eq in Hs; [|exact Hne | discriminate | exact I].
  cbn [with_sep Str.is_empty app] in Hs. rewrite app_nil_r in Hs.
  rewrite urlparse_eq.
  change (py "http://" ++ n) with (py "http" ++ ch ":" :: ch "/" :: ch "/" :: n).
  rewrite Hs. reflexivity.
Qed.

Lemma helper_accepts_bare_host n :
  forallb ldh_dot n = true -> Helpers.domain_ip_match n = true ->
  Helpers.validate_url (py "http://" ++ n) = true.
Proof.
  intros Hn Hm.
  assert (Hne : n <> []) by (intros ->; discriminate Hm).
  unfold Helpers.validate_url.
  replace (Str.is_empty (py "http://" ++ n)) with false by reflexivity.
  assert (Hstrip : Helpers.strip Re.space (py "http://" ++ n) = py "http://" ++ n).
  { apply strip_id; [discriminate | reflexivity|].
    destruct (exists_last Hne) as [l [c ->]].
    rewrite app_assoc, last_last. rewrite forallb_app in Hn.
    apply andb_true_iff in Hn. destruct Hn as [_ Hc]. cbn [forallb] in Hc.
    rewrite andb_true_r in Hc. apply (ldh_dot_facts _ Hc). }
  rewrite Hstrip.
  replace (Helpers.contains_sub (py "://") (py "http://" ++ n)) with true.
  2:{ symmetry. apply (contains_sub_app_l (py "://") (py "http://") n).
      reflexivity. }
  cbn [negb]. rewrite (urlparse_bare_host _ Hn Hne).
  cbn [scheme netloc path query]. apply is_empty_false in Hne.
  rewrite Hne, Hm. reflexivity.
Qed.

Lemma dotted_quad_chars a b c d : forallb ldh_dot (dotted_quad a b c d) = true.
Proof.
  assert (Hd : forall n, forallb ldh_dot (Str.of_int n) = true).
  { intros n. pose proof (digits_are_digits 20 n) as H.
    unfold Str.of_int. rewrite forallb_forall in *. intros x Hx.
    unfold ldh_dot. rewrite (H x Hx), orb_true_r. reflexivity. }
  unfold dotted_quad. rewrite !forallb_app. cbn [forallb].
  rewrite !forallb_app. cbn [forallb]. rewrite !forallb_app. cbn [forallb].
  rewrite !Hd. reflexivity.
Qed.

Lemma dotted_quad_hostname_chars a b c d :
  forallb hostname_char (dotted_quad a b c d) = true.
Proof.
  assert (Hd : forall n, forallb hostname_char (Str.of_int n) = true).
  { intros n. pose proof (digits_are_digits 20 n) as H.
    unfold Str.of_int. rewrite forallb_forall in *. intros x Hx.
    apply digit_hostname_char, H, Hx. }
  unfold dotted_quad. rewrite !forallb_app. cbn [forallb].
  rewrite !forallb_app. cbn [forallb]. rewrite !forallb_app. cbn [forallb].
  rewrite !Hd. reflexivity.
Qed.

End BareHost.

(** A host name that [_is_private_ip] takes, in canonical form. *)
Lemma private_host_rejected (U : Unicode) (Hwf : idna_wf U) url pu h :
  UrlValidator.parse_with_default_scheme url = Return pu ->
  Urllib.hostname pu = Some h ->
  forallb hostname_char h = true ->
  UrlValidator._is_private_ip h = true ->
  exists r, UrlValidator.validate_url url = Raise (UrlValidator.InvalidURLError r).
Proof.
  intros Hp Hh Hchars Hpriv. unfold UrlValidator.validate_url.
  destruct (Str.is_empty url); [eauto|].
  destruct (Nat.ltb UrlValidator.MAX_URL_LENGTH (length url)); [eauto|].
  rewrite Hp. cbn [bind].
  destruct (Str.is_empty (Urllib.scheme pu) || Str.is_empty (Urllib.netloc pu));
    [eauto|].
  destruct (negb (Str.mem (str_lower (Urllib.scheme pu))
                    UrlValidator.ALLOWED_SCHEMES)); [eauto|].
  rewrite Hh. destruct (Str.is_empty h); [eauto|].
  unfold UrlValidator.punycode_netloc.
  destruct (IdnaEncode.encode h) as [p|[e|d]] eqn:He; cbn [bind]; [|eauto|eauto].
  destruct (encode_ascii_host Hwf _ _ (hostname_chars_ascii _ Hchars) He)
    as [Hlow _].
  rewrite (hostname_chars_lower _ Hchars) in Hlow. subst p.
  rewrite eqb_refl. cbn [negb bind]. rewrite Hh.
  cbn [UrlValidator.str_of_optional]. rewrite Hpriv. eauto.
Qed.

(** X16: the helper's [validate_url] accepts ["http://"] followed by the
    dotted-decimal text of any four octets; for the private and loopback
    ones the service's [validate_url] raises an [InvalidURLError] (with
    well-formed [idna] tables). *)
Theorem X16_validators_disagree_on_private_addresses :
  forall (U : Unicode), idna_wf U ->
  forall a b c d,
    (a <= 255 -> b <= 255 -> c <= 255 -> d <= 255 ->
     Helpers.validate_url (py "http://" ++ dotted_quad a b c d) = true
     /\ (private_quad a b c d ->
         exists r, UrlValidator.validate_url (py "http://" ++ dotted_quad a b c d)
                   = Raise (UrlValidator.InvalidURLError r)))%N.
Proof.
  intros U Hwf a b c d Ha Hb Hc Hd. split.
  - apply helper_accepts_bare_host; [apply dotted_quad_chars|].
    apply dotted_quad_matches; assumption.
  - intros Hq.
    assert (Hne : dotted_quad a b c d <> []).
    { unfold dotted_quad. destruct (Str.of_int a); discriminate. }
    pose proof (urlparse_bare_host _ (dotted_quad_chars a b c d) Hne) as Hp.
    apply (private_host_rejected U Hwf _
             (Urllib.mkParse (py "http") (dotted_quad a b c d) [] [] [] [])
             (dotted_quad a b c d)).
    + apply parse_with_default_scheme_scheme; [exact Hp | discriminate].
    + rewrite <- (app_nil_r (dotted_quad a b c d)) at 1.
      apply (hostname_new (py "http") (dotted_quad a b c d) None [] [] [] []);
        [apply dotted_quad_hostname_chars | exact Hne].
    + apply dotted_quad_hostname_chars.
    + apply is_private_ip_quad.
      * eapply contains_forallb; [apply dotted_quad_hostname_chars | reflexivity].
      * exists a, b, c, d. auto.
Qed.

Lemma X16_validators_disagree_witness :
  Helpers.validate_url (U := Samples.unicode) (py "http://" ++ dotted_quad 10 0 0 1)
  = true
  /\ (private_quad 10 0 0 1 ->
      exists r, UrlValidator.validate_url (U := Samples.unicode)
                  (py "http://" ++ dotted_quad 10 0 0 1)
                = Raise (UrlValidator.InvalidURLError r)).
Proof.
  apply (X16_validators_disagree_on_private_addresses Samples.unicode samples_wf
           10 0 0 1)%N; lia.
Defined.

(** ** Generated file names *)

(** X19: the name that [generate_unique_filename] builds has no slash
    and no backslash, whatever the extension asked for, given a time stamp
    of digits and underscores and a UUID of hexadecimal digits. *)
Theorem X19_generated_name_has_no_separator :
  forall (U : Unicode) now uuid4_hex user_id extension,
    forallb (fun c => Str.is_ascii_digit c || N.eqb c (ch "_")) now = true ->
    forallb is_hex_lower uuid4_hex = true ->
    Str.contains (ch "/")
      (Helpers.generate_unique_filename now uuid4_hex user_id extension) = false
    /\ Str.contains (ch "\")
         (Helpers.generate_unique_filename now uuid4_hex user_id extension) = false.
Proof.
  intros U now u user_id ext Hnow Hu.
  assert (Hsep : forall c,
             c = ch "/" \/ c = ch "\" ->
             Str.contains c (Str.remove (ch "\") (Str.remove (ch "/") (str_lower ext)))
             = false).
  { intros c [-> | ->].
    - eapply contains_incl; [apply incl_remove | apply remove_contains].
    - apply remove_contains. }
  assert (Hall : forall c,
             c = ch "/" \/ c = ch "\" ->
             Str.contains c (Helpers.generate_unique_filename now u user_id ext)
             = false).
  { intros c Hc. unfold Helpers.generate_unique_filename, Helpers.str_of_int.
    rewrite !contains_app, (Hsep c Hc).
    rewrite (contains_forallb _ c _ Hnow)
      by (destruct Hc as [-> | ->]; reflexivity).
    rewrite (contains_incl c _ _ (incl_firstn 12 u)
               (contains_forallb _ c _ Hu
                  ltac:(destruct Hc as [-> | ->]; reflexivity))).
    rewrite (contains_forallb _ c _ (digits_are_digits _ _))
      by (destruct Hc as [-> | ->]; reflexivity).
    destruct (Z.ltb user_id 0); destruct Hc as [-> | ->]; reflexivity. }
  split; apply Hall; auto.
Qed.

Lemma X19_generated_name_witness :
  Str.contains (ch "/")
    (Helpers.generate_unique_filename (U := Samples.unicode) (py "20240102_030405")
       (py "0123456789abcdef0123456789abcdef") 42 (py "../P/N\G")) = false
  /\ Str.contains (ch "\")
       (Helpers.generate_unique_filename (U := Samples.unicode) (py "20240102_030405")
          (py "0123456789abcdef0123456789abcdef") 42 (py "../P/N\G")) = false.
Proof.
  apply (X19_generated_name_has_no_separator Samples.unicode); reflexivity.
Defined.

(** ** URLs that [validate_url] returns as they are *)

Section Accepted.
Import Urllib UrlValidator.
Context {U : Unicode}.
Hypothesis Hwf : idna_wf U.

Lemma port_char_facts c :
  port_char c = true ->
  is_delim c = false /\ N.ltb c 128 = true
  /\ N.eqb c (ch "@") = false /\ N.eqb c (ch "[") = false
  /\ N.eqb c (ch "]") = false
  /\ N.eqb c 9 = false /\ N.eqb c 13 = false /\ N.eqb c 10 = false.
Proof.
  unfold port_char. intros H. bool_hyps.
  repeat split; try assumption; try (apply N.ltb_lt; lia);
    apply N.eqb_neq; lia.
Qed.

Lemma hostname_char_port_char c :
  hostname_char c = true -> port_char c = true /\ N.eqb c (ch ":") = false.
Proof.
  unfold hostname_char, IdnaEncode.is_pvalid_ascii, Str.is_ascii_digit,
    Str.is_ascii_lower, port_char, is_delim.
  intros H. eval_ch. bool_hyps; subst; split; char_facts.
Qed.

(** A netloc of a host name and, after a colon, any such characters. *)
Lemma split_inv_host_port s n p :
  http_or_https s ->
  forallb hostname_char n = true -> forallb port_char p = true ->
  split_inv U (mkSplit s (n ++ with_sep (ch ":") p) [] [] []).
Proof.
  intros Hs Hn Hp.
  assert (Hall : forallb port_char (n ++ with_sep (ch ":") p) = true).
  { rewrite forallb_app. apply andb_true_iff. split.
    - rewrite forallb_forall in *. intros c Hc.
      apply (hostname_char_port_char _ (Hn c Hc)).
    - apply forallb_with_sep; [reflexivity | exact Hp]. }
  set (nl := n ++ with_sep (ch ":") p) in *.
  assert (Hno : forall c, port_char c = false -> Str.contains c nl = false)
    by (intros c Hc; eapply contains_forallb; eauto).
  constructor; cbn [s_scheme s_netloc s_path s_query s_fragment].
  - repeat split; try apply clean_nil.
    intros c [<-|[<-|[<-|[]]]]; apply Hno; reflexivity.
  - rewrite forallb_forall in *. intros c Hc.
    destruct (port_char_facts _ (Hall c Hc)) as [-> _]. reflexivity.
  - unfold check_brackets.
    rewrite (Hno (ch "[") eq_refl), (Hno (ch "]") eq_refl). reflexivity.
  - unfold _checknetloc.
    replace (Str.isascii nl) with true; [rewrite orb_true_r; reflexivity|].
    symmetry. unfold Str.isascii. rewrite forallb_forall in *. intros c Hc.
    apply (port_char_facts _ (Hall c Hc)).
  - intros _. exact I.
  - split; reflexivity.
  - reflexivity.
  - destruct Hs as [-> | ->]; split; reflexivity.
Qed.

Lemma hostname_host_port s n p :
  forallb hostname_char n = true -> n <> [] -> forallb port_char p = true ->
  hostname (mkParse s (n ++ with_sep (ch ":") p) [] [] [] []) = Some n.
Proof.
  intros Hn Hne Hp.
  assert (Hnon : forall c, hostname_char c = false -> Str.contains c n = false)
    by (intros c Hc; eapply contains_forallb; eauto).
  assert (Hnop : forall c, port_char c = false -> Str.contains c p = false)
    by (intros c Hc; eapply contains_forallb; eauto).
  assert (Hno : forall c, hostname_char c = false -> port_char c = false ->
                          N.eqb (ch ":") c = false ->
                          Str.contains c (n ++ with_sep (ch ":") p) = false).
  { intros c H1 H2 H3. rewrite contains_app, (Hnon c H1). cbn [orb].
    unfold with_sep. destruct (Str.is_empty p); [reflexivity|].
    cbn [Str.contains]. rewrite H3, (Hnop c H2). reflexivity. }
  unfold hostname, _hostinfo. cbn [netloc].
  rewrite (rpartition_none _ _ (Hno (ch "@") eq_refl eq_refl eq_refl)).
  rewrite (partition_none _ _ (Hno (ch "[") eq_refl eq_refl eq_refl)).
  assert (Hpart : exists found port,
             Str.partition (ch ":") (n ++ with_sep (ch ":") p) = (n, found, port)).
  { unfold with_sep. destruct (Str.is_empty p).
    - rewrite app_nil_r, (partition_none _ _ (Hnon (ch ":") eq_refl)). eauto.
    - rewrite (partition_app _ _ _ (Hnon (ch ":") eq_refl)). eauto. }
  destruct Hpart as [found [port ->]]. cbn [fst].
  apply is_empty_false in Hne. rewrite Hne.
  rewrite (partition_none _ _ (Hnon (ch "%") eq_refl)).
  unfold str_lower.
  rewrite (hostname_chars_ascii _ Hn), (hostname_chars_lower _ Hn), !app_nil_r.
  reflexivity.
Qed.

(** A URL of a scheme, a host name that [idna] leaves as it is and that
    is no private address, and anything for a port, is returned as it
    is. *)
Lemma validate_url_host_port s n p :
  http_or_https s ->
  forallb hostname_char n = true -> forallb port_char p = true ->
  IdnaEncode.encode n = Return n -> _is_private_ip n = false ->
  length (s ++ py "://" ++ n ++ with_sep (ch ":") p) <= MAX_URL_LENGTH ->
  validate_url (s ++ py "://" ++ n ++ with_sep (ch ":") p)
  = Return (s ++ py "://" ++ n ++ with_sep (ch ":") p).
Proof.
  intros Hs Hn Hp He Hpriv Hlen.
  destruct (encode_stable Hwf _ _ He) as [_ [Hne _]].
  set (qf := mkParse s (n ++ with_sep (ch ":") p) [] [] [] []).
  assert (Hnl : netloc qf <> []).
  { cbn [qf netloc]. destruct n; [contradiction | discriminate]. }
  assert (Hinv : parse_inv U qf).
  { constructor; cbn [qf scheme netloc path params query fragment].
    - apply split_inv_host_port; assumption.
    - intros _. unfold params_of. cbn [with_sep Str.is_empty app Str.contains].
      rewrite andb_false_r. reflexivity. }
  assert (Hun : urlunparse qf = s ++ py "://" ++ n ++ with_sep (ch ":") p).
  { rewrite urlunparse_eq. cbn [qf scheme netloc path params query fragment].
    rewrite urlunsplit_eq; [|exact Hnl | destruct Hs as [-> | ->]; discriminate | exact I].
    cbn [with_sep Str.is_empty app]. rewrite app_nil_r. reflexivity. }
  rewrite <- Hun in *.
  apply (validate_url_fixed Hwf qf n); auto.
  apply hostname_host_port; assumption.
Qed.

End Accepted.

(** X20: with well-formed [idna] tables, [validate_url] returns an http
    or https URL made of an encoded, public host name, a colon and a port
    as it is, whatever printable characters the port is made of: the port
    of a host name that [idna.encode] leaves alone is never read, so it
    need not be a number, nor in range. *)
Theorem X20_port_is_not_checked_for_ascii_host :
  forall (U : Unicode), idna_wf U ->
  forall s n p,
    s = py "http" \/ s = py "https" ->
    forallb hostname_char n = true ->
    forallb port_char p = true -> p <> [] ->
    IdnaEncode.encode n = Return n ->
    UrlValidator._is_private_ip n = false ->
    length (s ++ py "://" ++ n ++ ch ":" :: p) <= UrlValidator.MAX_URL_LENGTH ->
    UrlValidator.validate_url (s ++ py "://" ++ n ++ ch ":" :: p)
    = Return (s ++ py "://" ++ n ++ ch ":" :: p).
Proof.
  intros U Hwf s n p Hs Hn Hp Hne He Hpriv Hlen.
  pose proof (validate_url_host_port Hwf s n p Hs Hn Hp He Hpriv) as H.
  unfold with_sep in H. apply is_empty_false in Hne. rewrite Hne in H.
  apply H. exact Hlen.
Qed.

Lemma X20_port_is_not_checked_witness :
  UrlValidator.validate_url (U := Samples.unicode) (py "http://example.com:99999")
  = Return (py "http://example.com:99999")
  /\ Urllib.port (Urllib.mkParse (py "http") (py "example.com:99999") [] [] [] [])
     = Raise Urllib.PortOutOfRange.
Proof.
  split; [|reflexivity].
  apply (X20_port_is_not_checked_for_ascii_host Samples.unicode samples_wf
           (py "http") (py "example.com") (py "99999")).
  - left. reflexivity.
  - reflexivity.
  - reflexivity.
  - discriminate.
  - vm_compute. reflexivity.
  - vm_compute. reflexivity.
  - apply Nat.leb_le. vm_compute. reflexivity.
Defined.

Section BareName.
Import Urllib UrlValidator.
Context {U : Unicode}.

(** A host name alone is parsed as a path. *)
Lemma urlparse_host_name n :
  forallb hostname_char n = true ->
  urlparse n = Return (mkParse [] [] n [] [] []).
Proof.
  intros Hn.
  assert (Hno : forall c, hostname_char c = false -> Str.contains c n = false)
    by (intros c Hc; eapply contains_forallb; eauto).
  destruct n as [|x n]; [reflexivity|].
  assert (Hx : port_char x = true /\ N.eqb x (ch ":") = false).
  { cbn [forallb] in Hn. apply andb_true_iff in Hn.
    apply hostname_char_port_char. apply Hn. }
  destruct Hx as [Hx _]. destruct (port_char_facts _ Hx) as [Hd _].
  assert (Hc0 : is_c0_control_or_space x = false).
  { unfold port_char in Hx. unfold is_c0_control_or_space. bool_hyps.
    apply N.leb_gt. lia. }
  rewrite urlparse_eq, urlsplit_eq, cleaned_id; [|exact Hc0|].
  2:{ intros c [<-|[<-|[<-|[]]]]; apply Hno; reflexivity. }
  unfold split_scheme. rewrite (find_none _ _ (Hno (ch ":") eq_refl)).
  replace (Str.eqb (firstn 2 (x :: n)) (py "//")) with false.
  2:{ symmetry. unfold is_delim in Hd. apply orb_false_iff in Hd.
      destruct Hd as [Hd _]. apply orb_false_iff in Hd. destruct Hd as [Hd _].
      destruct n; cbn [firstn]; 
        change (py "//") with [ch "/"; ch "/"]; cbn [Str.eqb]; rewrite Hd;
        reflexivity. }
  cbn [bind]. unfold split_tail.
  rewrite (Hno (ch "#") eq_refl), (Hno (ch "?") eq_refl).
  cbn [_checknetloc Str.is_empty orb bind s_scheme s_netloc s_path s_query
         s_fragment].
  unfold params_of. rewrite (Hno (ch ";") eq_refl), andb_false_r. reflexivity.
Qed.

End BareName.

(** X21: with well-formed [idna] tables, for an encoded, public host
    name with a dot in it and nothing else, [validate_url] returns the
    host name with ["http://"] in front. *)
Theorem X21_host_name_alone_gets_http_prefix :
  forall (U : Unicode), idna_wf U ->
  forall n,
    forallb hostname_char n = true ->
    Str.contains (ch ".") n = true ->
    IdnaEncode.encode n = Return n ->
    UrlValidator._is_private_ip n = false ->
    length n + 7 <= UrlValidator.MAX_URL_LENGTH ->
    UrlValidator.validate_url n = Return (py "http://" ++ n).
Proof.
  intros U Hwf n Hn Hdot He Hpriv Hlen.
  assert (Hlen' : length (py "http://" ++ n) <= UrlValidator.MAX_URL_LENGTH).
  { rewrite length_app. change (length (py "http://")) with 7. lia. }
  rewrite (scheme_less_path_only n (Urllib.mkParse [] [] n [] [] [])
             (urlparse_host_name n Hn) eq_refl eq_refl Hdot ltac:(lia) Hlen').
  cbn [Urllib.path].
  pose proof (validate_url_host_port Hwf (py "http") n [] (or_introl eq_refl)
                Hn eq_refl He Hpriv) as H.
  cbn [with_sep Str.is_empty] in H. rewrite app_nil_r in H.
  apply H. exact Hlen'.
Qed.

Lemma X21_host_name_alone_witness :
  UrlValidator.validate_url (U := Samples.unicode) (py "www.example.co.uk")
  = Return (py "http://" ++ py "www.example.co.uk").
Proof.
  apply (X21_host_name_alone_gets_http_prefix Samples.unicode samples_wf
           (py "www.example.co.uk")).
  - reflexivity.
  - reflexivity.
  - vm_compute. reflexivity.
  - vm_compute. reflexivity.
  - apply Nat.leb_le. vm_compute. reflexivity.
Defined.
